(** * proj_factors_redux: a shallow embedding of the factoring pipeline

    The plugin samples the map canvas on a regular grid ([create_points]),
    reprojects the grid to geographic coordinates ([transform_points]), asks
    the CRS engine for the projection factors of every point
    ([gather_factors]), packs one raster band per factor ([extract_factor],
    [pack_values], [write_factors_to_tif]) and names the bands through a VRT
    ([create_vrt_for_factors_tif]).  [run] wires all of it to the canvas.

    Conventions of the embedding.
    - A Python [float] is an IEEE 754 binary64 number: a primitive [float].
    - A Python [int] is a [Z].
    - A Python exception is a constructor of [exn]; a call that may raise
      returns an [outcome].
    - The host (the QGIS application object, the message bar, the files on
      disk, the engine calls made so far) is the record [Host]; code that
      talks to the host lives in the state-and-exception monad [M].
    - The engine (QGIS, PROJ, GDAL, pyproj) is not part of the repository;
      its entry points are the fields of the record [Engine].
    - [LOGGER] calls have no influence on results or control flow and are
      left out. *)

From Stdlib Require Import String Ascii Bool ZArith Lia Floats List.
Import ListNotations.

Set Implicit Arguments.

(* ================================================================== *)
(** * Outcomes of Python calls *)
(* ================================================================== *)

(** The exception classes that the modelled code can raise. *)
Inductive exn : Type :=
  | QgsCsException
  | GeographicCrsError
  | AssertionError
  | ZeroDivisionError
  | ValueError
  | OverflowError
  | AttributeError
  | TypeError
  | StructError
  | FileNotFoundError.

(** [Timeout] is the model running out of fuel in the one unbounded loop
    ([frange]); it is not a Python outcome. *)
Inductive outcome (A : Type) : Type :=
  | Ok (a : A)
  | Raise (e : exn)
  | Timeout.

Arguments Ok {A} a.
Arguments Raise {A} e.
Arguments Timeout {A}.

Definition obind {A B : Type} (m : outcome A) (k : A -> outcome B) : outcome B :=
  match m with
  | Ok a => k a
  | Raise e => Raise e
  | Timeout => Timeout
  end.

Notation "'let?' x ':=' m 'in' k" := (obind m (fun x => k))
  (at level 10, x pattern, m at level 200, k at level 200).

(** [assert cond] *)
Definition py_assert (cond : bool) : outcome unit :=
  if cond then Ok tt else Raise AssertionError.

(* ================================================================== *)
(** * Python numbers *)
(* ================================================================== *)

Module PyFloat.

Local Open Scope float_scope.

(** The binary64 number nearest to an integer (ties to even); infinite
    when the integer is beyond the binary64 range. *)
Definition of_Z (z : Z) : float :=
  SF2Prim (binary_normalize prec emax z 0 false).

(** [float(i)], also the implicit conversion in [i * step]: raises
    [OverflowError] when the integer is too large for a float, which is
    seen from its bit length (more than 1024 bits) or, failing that, from
    the rounded value. *)
Definition float_of_int (z : Z) : outcome float :=
  if (2 ^ 1024 <=? Z.abs z)%Z then Raise OverflowError
  else
    let f := of_Z z in
    if is_infinity f then Raise OverflowError else Ok f.

(** [a / b] on floats: dividing by zero raises. *)
Definition truediv (a b : float) : outcome float :=
  if b =? 0 then Raise ZeroDivisionError else Ok (a / b).

(** Nearest integer of the exact value [m * 2^e], ties to even. *)
Definition round_half_even (m : positive) (e : Z) : Z :=
  match e with
  | Zneg p =>
      let d := Z.pow_pos 2 p in
      let q := (Zpos m / d)%Z in
      let r := (Zpos m mod d)%Z in
      match (2 * r ?= d)%Z with
      | Lt => q
      | Gt => (q + 1)%Z
      | Eq => if Z.even q then q else (q + 1)%Z
      end
  | _ => (Zpos m * 2 ^ e)%Z
  end.

(** [round(x)] with one argument: the nearest [int], ties to even;
    [ValueError] on NaN and [OverflowError] on an infinity. *)
Definition round (x : float) : outcome Z :=
  match Prim2SF x with
  | S754_zero _ => Ok 0%Z
  | S754_nan => Raise ValueError
  | S754_infinity _ => Raise OverflowError
  | S754_finite s m e =>
      let n := round_half_even m e in
      Ok (if s then (- n)%Z else n)
  end.

(** The 64 bits of a binary64 number, as an integer in [0, 2^64).  Every
    NaN is written as the quiet NaN that [float("nan")] denotes. *)
Definition bits (x : float) : Z :=
  match Prim2SF x with
  | S754_zero s => if s then 0x8000000000000000 else 0
  | S754_infinity s =>
      if s then 0xFFF0000000000000 else 0x7FF0000000000000
  | S754_nan => 0x7FF8000000000000
  | S754_finite s m e =>
      let sign := if s then 0x8000000000000000%Z else 0%Z in
      if (Zpos m <? 0x10000000000000)%Z
      then (sign + Zpos m)%Z
      else (sign + (e + 1075) * 0x10000000000000
            + (Zpos m - 0x10000000000000))%Z
  end.

End PyFloat.

(** [i % k] on ints with [k >= 0]. *)
Definition py_mod (i k : Z) : outcome Z :=
  if (k =? 0)%Z then Raise ZeroDivisionError else Ok (i mod k)%Z.

(* ================================================================== *)
(** * Geometry of the host *)
(* ================================================================== *)

Record QgsPointXY : Type := mkPointXY { px : float; py : float }.

Record QgsRectangle : Type := mkRectangle {
  xMinimum : float;
  yMinimum : float;
  xMaximum : float;
  yMaximum : float
}.

Definition width (r : QgsRectangle) : float :=
  (xMaximum r - xMinimum r)%float.

Definition height (r : QgsRectangle) : float :=
  (yMaximum r - yMinimum r)%float.

(* ================================================================== *)
(** * misc.create_points *)
(* ================================================================== *)

Section CreatePoints.

Local Open Scope float_scope.

(** The generator [frange(start, stop, step)], run to exhaustion, from
    counter value [i] on. *)
Fixpoint frange_from (fuel : nat) (i : Z) (start stop step : float)
  : outcome (list float) :=
  match fuel with
  | O => Timeout
  | S fuel' =>
      let? fi := PyFloat.float_of_int i in
      if start + fi * step <? stop then
        let? rest := frange_from fuel' (i + 1) start stop step in
        Ok ((start + fi * step) :: rest)
      else Ok []
  end.

Definition frange (fuel : nat) (start stop step : float)
  : outcome (list float) :=
  frange_from fuel 0 start stop step.

(** The inner loop: [for x in xs: points.append(QgsPointXY(x, y))]. *)
Definition append_row (points : list QgsPointXY) (y : float)
    (xs : list float) : list QgsPointXY :=
  fold_left (fun pts x => pts ++ [mkPointXY x y]) xs points.

(** The outer loop over the (already reversed) list of row ordinates.
    The inner [frange] is a fresh generator in every iteration. *)
Fixpoint rows_loop (fuel : nat) (extent : QgsRectangle) (step_size : float)
    (ys : list float) (points : list QgsPointXY)
  : outcome (list QgsPointXY) :=
  match ys with
  | [] => Ok points
  | y :: ys' =>
      let? xs := frange fuel (xMinimum extent + step_size * 0.5)
                        (xMaximum extent) step_size in
      rows_loop fuel extent step_size ys' (append_row points y xs)
  end.

(** [step_size] is the canvas' map units per pixel, a float; the
    assertion is checked (Python runs without [-O]). *)
Definition create_points (fuel : nat) (extent : QgsRectangle)
    (step_size : float) : outcome (list QgsPointXY * Z * Z) :=
  let? q_cols := PyFloat.truediv (width extent) step_size in
  let? cols := PyFloat.round q_cols in
  let? q_rows := PyFloat.truediv (height extent) step_size in
  let? rows := PyFloat.round q_rows in
  let? ys := frange fuel (yMinimum extent + step_size * 0.5)
                    (yMaximum extent) step_size in
  let? points := rows_loop fuel extent step_size (rev ys) [] in
  let? _ := py_assert (rows * cols =? Z.of_nat (length points))%Z in
  Ok (points, cols, rows).

End CreatePoints.


(* ================================================================== *)
(** * The host and the engine *)
(* ================================================================== *)

(** A coordinate reference system of the host.  [isGeographic] is the
    host's own classification (degrees on an ellipsoid, no projection);
    the plugin never reads it. *)
Record QgsCoordinateReferenceSystem : Type := mkCrs {
  authid : string;
  isGeographic : bool
}.

(** [QgsCoordinateReferenceSystem.fromEpsgId(4326)] *)
Definition fromEpsgId_4326 : QgsCoordinateReferenceSystem :=
  mkCrs "EPSG:4326" true.

(** Two registered reference systems are equal when their authority
    identifiers are. *)
Definition crs_eqb (a b : QgsCoordinateReferenceSystem) : bool :=
  String.eqb (authid a) (authid b).

Record QgsPoint : Type := mkPoint { x : float; y : float }.

(** The Python values that [getattr] finds on a result object: a float, a
    bound method without arguments that returns a float, or any other
    object.  Another object is kept by what the two operations applied to
    a value here make of it: what calling it without arguments gives, and
    the float that [struct.pack("d", ...)] converts it to. *)
#[warnings="-register-all"]
Inductive pyvalue : Type :=
  | PyFloatV (v : float)
  | PyMethodV (result : float)
  | PyObjectV (called : outcome pyvalue) (as_double : outcome float).

(** [True] and [False]: not callable, and packed as 1.0 and 0.0. *)
Definition PyBoolV (b : bool) : pyvalue :=
  PyObjectV (Raise TypeError) (Ok (if b then 1%float else 0%float)).

(** The result object of [crs.factors(point)]: twelve getters and
    [isValid()].  The last field is what else [getattr] finds on the
    object: the attributes every Python object has and those of the
    binding, by name. *)
Record QgsProjectionFactors : Type := mkQgsProjectionFactors {
  isValid : bool;
  angularDistortion : float;
  arealScale : float;
  dxDlam : float;
  dxDphi : float;
  dyDlam : float;
  dyDphi : float;
  meridianConvergence : float;
  meridianParallelAngle : float;
  meridionalScale : float;
  parallelScale : float;
  tissotSemimajor : float;
  tissotSemiminor : float;
  qgis_object_attributes : string -> option pyvalue
}.

(** The result object of [pyproj.Proj.get_factors]: twelve attributes, and
    what else [getattr] finds on the object. *)
Record PyprojFactors : Type := mkPyprojFactors {
  angular_distortion : float;
  areal_scale : float;
  dx_dlam : float;
  dx_dphi : float;
  dy_dlam : float;
  dy_dphi : float;
  meridian_convergence : float;
  meridian_parallel_angle : float;
  meridional_scale : float;
  parallel_scale : float;
  tissot_semimajor : float;
  tissot_semiminor : float;
  pyproj_object_attributes : string -> option pyvalue
}.

(** What a list of factors holds where it does not hold [None]. *)
Inductive factors_object : Type :=
  | QgsFactors (f : QgsProjectionFactors)
  | ProjFactors (f : PyprojFactors).

(** An XML element of [xml.etree.ElementTree]. *)
#[warnings="-register-all"]
Inductive element : Type :=
  | Element (tag : string) (attrib : list (string * string))
            (text : option string) (children : list element).

Definition tag_of (e : element) : string :=
  match e with Element t _ _ _ => t end.
Definition attrib_of (e : element) : list (string * string) :=
  match e with Element _ a _ _ => a end.
Definition text_of (e : element) : option string :=
  match e with Element _ _ t _ => t end.
Definition children_of (e : element) : list element :=
  match e with Element _ _ _ c => c end.

(** One band of a raster file: the block written to it, if any, and its
    no-data value, if set. *)
Record band : Type := mkBand {
  band_data : option (list Byte.byte);
  band_nodata : option float
}.

Inductive data_type : Type := Float64.

Record raster : Type := mkRaster {
  raster_format : string;
  raster_options : list string;
  raster_type : data_type;
  raster_cols : Z;
  raster_rows : Z;
  raster_extent : QgsRectangle;
  raster_crs : QgsCoordinateReferenceSystem;
  raster_bands : list band
}.

Inductive file : Type :=
  | RasterFile (r : raster)
  | VrtFile (root : element).

Inductive level : Type := Info | Warning | Critical | Success.

Inductive bar_item : Type :=
  | Message (title text : string) (lvl : level)
  | ProgressWidget (text : string).

Inductive engine_call : Type :=
  | TransformCall (source target : QgsCoordinateReferenceSystem)
                  (p : QgsPointXY)
  | FactorsCall (crs : QgsCoordinateReferenceSystem) (p : QgsPoint)
  | GetFactorsCall (proj : string) (lon lat : float).

(** The state of the host application. *)
Record Host : Type := mkHost {
  canvas_extent : QgsRectangle;
  canvas_crs : QgsCoordinateReferenceSystem;
  canvas_mapUnitsPerPixel : float;
  message_bar : list bar_item;          (* oldest first *)
  progress_maximum : Z;
  progress_value : Z;
  engine_calls : list engine_call;      (* oldest first *)
  files : list (string * file);         (* most recently written first *)
  layers : list (string * string)       (* (source, name), oldest first *)
}.

(** The entry points of the engine that the plugin calls. *)
Record Engine : Type := mkEngine {
  (** [qgis_plugin_tools.tools.resources.plugin_name()] *)
  plugin_name : string;
  (** [QgsCoordinateTransform(source, target, project).transform(point)] *)
  transform : QgsCoordinateReferenceSystem -> QgsCoordinateReferenceSystem ->
              QgsPointXY -> outcome QgsPointXY;
  (** [crs.factors(point)] *)
  factors : QgsCoordinateReferenceSystem -> QgsPoint -> QgsProjectionFactors;
  (** [pyproj.Proj(authid).get_factors(x, y)] *)
  get_factors : string -> float -> float -> PyprojFactors;
  (** [QgsProcessingParameterRasterDestination(name=..)
       .generateTemporaryDestination()] *)
  generateTemporaryDestination : string -> string;
  (** the document that [gdal:buildvirtualraster] writes for an input path,
      given the files on disk *)
  buildvirtualraster : list (string * file) -> string -> element
}.

(* ================================================================== *)
(** * The monad of host-talking code *)
(* ================================================================== *)

Definition M (A : Type) : Type := Host -> outcome A * Host.

Definition ret {A : Type} (a : A) : M A := fun h => (Ok a, h).

Definition bind {A B : Type} (m : M A) (k : A -> M B) : M B :=
  fun h =>
    match m h with
    | (Ok a, h') => k a h'
    | (Raise e, h') => (Raise e, h')
    | (Timeout, h') => (Timeout, h')
    end.

Notation "x <- m ;; k" := (bind m (fun x => k))
  (at level 61, m at next level, right associativity).
Notation "m ;;; k" := (bind m (fun _ => k))
  (at level 61, right associativity).

(** A computation without host effects. *)
Definition lift {A : Type} (o : outcome A) : M A := fun h => (o, h).

Definition raise {A : Type} (e : exn) : M A := lift (Raise e).

(** [try: m  except <the classes handler accepts>: ...] *)
Definition try_except {A : Type} (m : M A) (handler : exn -> option (M A))
  : M A :=
  fun h =>
    match m h with
    | (Raise e, h') =>
        match handler e with
        | Some recover => recover h'
        | None => (Raise e, h')
        end
    | r => r
    end.

Definition get_host : M Host := fun h => (Ok h, h).

Definition modify (f : Host -> Host) : M unit := fun h => (Ok tt, f h).

Definition set_message_bar (items : list bar_item) (h : Host) : Host :=
  mkHost (canvas_extent h) (canvas_crs h) (canvas_mapUnitsPerPixel h)
         items (progress_maximum h) (progress_value h)
         (engine_calls h) (files h) (layers h).

Definition set_progress (maximum value : Z) (h : Host) : Host :=
  mkHost (canvas_extent h) (canvas_crs h) (canvas_mapUnitsPerPixel h)
         (message_bar h) maximum value
         (engine_calls h) (files h) (layers h).

Definition set_engine_calls (calls : list engine_call) (h : Host) : Host :=
  mkHost (canvas_extent h) (canvas_crs h) (canvas_mapUnitsPerPixel h)
         (message_bar h) (progress_maximum h) (progress_value h)
         calls (files h) (layers h).

Definition set_files (fs : list (string * file)) (h : Host) : Host :=
  mkHost (canvas_extent h) (canvas_crs h) (canvas_mapUnitsPerPixel h)
         (message_bar h) (progress_maximum h) (progress_value h)
         (engine_calls h) fs (layers h).

Definition set_layers (ls : list (string * string)) (h : Host) : Host :=
  mkHost (canvas_extent h) (canvas_crs h) (canvas_mapUnitsPerPixel h)
         (message_bar h) (progress_maximum h) (progress_value h)
         (engine_calls h) (files h) ls.

(** [iface.messageBar().pushMessage(title, text, level=lvl)] *)
Definition pushMessage (title text : string) (lvl : level) : M unit :=
  modify (fun h => set_message_bar (message_bar h ++ [Message title text lvl]) h).

(** [createMessage(text)] with a progress bar added, then [pushWidget]. *)
Definition pushProgressWidget (text : string) (maximum : Z) : M unit :=
  modify (fun h =>
    set_progress maximum 0
      (set_message_bar (message_bar h ++ [ProgressWidget text]) h)).

(** [progress.setValue(v)] *)
Definition progress_setValue (v : Z) : M unit :=
  modify (fun h => set_progress (progress_maximum h) v h).

(** [iface.messageBar().clearWidgets()] *)
Definition clearWidgets : M unit := modify (set_message_bar []).

Definition log_call (c : engine_call) : M unit :=
  modify (fun h => set_engine_calls (engine_calls h ++ [c]) h).

Fixpoint lookup {A : Type} (key : string) (l : list (string * A)) : option A :=
  match l with
  | [] => None
  | (k, v) :: l' => if String.eqb key k then Some v else lookup key l'
  end.

(** Writing a file replaces what was at its path. *)
Definition store (path : string) (f : file) (fs : list (string * file))
  : list (string * file) :=
  (path, f) :: filter (fun kv => negb (String.eqb path (fst kv))) fs.

Definition write_file (path : string) (f : file) : M unit :=
  modify (fun h => set_files (store path f (files h)) h).

Definition read_file (path : string) : M file :=
  fun h =>
    match lookup path (files h) with
    | Some f => (Ok f, h)
    | None => (Raise FileNotFoundError, h)
    end.

(* ================================================================== *)
(** * misc.transform_points *)
(* ================================================================== *)

Section Pipeline.

Variable E : Engine.

Definition call_transform (source target : QgsCoordinateReferenceSystem)
    (p : QgsPointXY) : M QgsPointXY :=
  log_call (TransformCall source target p) ;;;
  lift (transform E source target p).

(** The loop of [transform_points]; [transformed_points] is the list
    built so far. *)
Fixpoint transform_loop (source_crs target_crs : QgsCoordinateReferenceSystem)
    (points : list QgsPointXY)
    (transformed_points : list (option QgsPointXY))
  : M (list (option QgsPointXY)) :=
  match points with
  | [] => ret transformed_points
  | point :: rest =>
      point_gcs <-
        try_except
          (p <- call_transform source_crs target_crs point ;; ret (Some p))
          (fun e => match e with
                    | QgsCsException => Some (ret None)
                    | _ => None
                    end) ;;
      transform_loop source_crs target_crs rest
                     (transformed_points ++ [point_gcs])
  end.

Definition transform_points (points : list QgsPointXY)
    (source_crs target_crs : QgsCoordinateReferenceSystem)
  : M (list (option QgsPointXY)) :=
  transform_loop source_crs target_crs points [].

(* ================================================================ *)
(** * factoring.gather_factors and gather_factors_pyproj *)
(* ================================================================ *)

Definition call_factors (crs : QgsCoordinateReferenceSystem) (p : QgsPoint)
  : M QgsProjectionFactors :=
  log_call (FactorsCall crs p) ;;;
  ret (factors E crs p).

Definition call_get_factors (proj : string) (lon lat : float)
  : M PyprojFactors :=
  log_call (GetFactorsCall proj lon lat) ;;;
  ret (get_factors E proj lon lat).

(** [-90 < y < 90 and -180 < x < 180] *)
Definition in_geographic_bounds (px py : float) : bool :=
  ((-90 <? py) && (py <? 90) && ((-180 <? px) && (px <? 180)))%float.

(** The progress update at the head of both loops:
    [if i % int(len(points) / 1000) == 0: progress.setValue(i + 1)].
    [int] truncates the float quotient, which gives the quotient of the
    integer division for every length below 2^53. *)
Definition update_progress (len i : Z) : M unit :=
  r <- lift (py_mod i (len / 1000)) ;;
  if (r =? 0)%Z then progress_setValue (i + 1) else ret tt.

(** The loop of [gather_factors] from index [i] on; [len] is
    [len(points)] of the whole input. *)
Fixpoint gather_loop (crs : QgsCoordinateReferenceSystem) (len i : Z)
    (points : list (option QgsPointXY))
    (factors : list (option factors_object))
  : M (list (option factors_object)) :=
  match points with
  | [] => ret factors
  | pointxy :: rest =>
      update_progress len i ;;;
      these_factors <-
        match pointxy with
        | Some p =>
            if in_geographic_bounds (px p) (py p) then
              these <- call_factors crs (mkPoint (px p) (py p)) ;;
              if negb (isValid these) then ret None
              else ret (Some (QgsFactors these))
            else ret None
        | None => ret None
        end ;;
      gather_loop crs len (i + 1) rest (factors ++ [these_factors])
  end.

Definition gather_factors (points : list (option QgsPointXY))
    (crs : QgsCoordinateReferenceSystem)
  : M (list (option factors_object)) :=
  pushProgressWidget "Calculating projection factors..."
                     (Z.of_nat (length points)) ;;;
  factors <- gather_loop crs (Z.of_nat (length points)) 0 points [] ;;
  clearWidgets ;;;
  pushMessage "Done" "Factors calculated!" Info ;;;
  ret factors.

Fixpoint gather_loop_pyproj (proj : string) (len i : Z)
    (points : list (option QgsPointXY))
    (factors : list (option factors_object))
  : M (list (option factors_object)) :=
  match points with
  | [] => ret factors
  | point :: rest =>
      update_progress len i ;;;
      these_factors <-
        match point with
        | Some p =>
            these <- call_get_factors proj (px p) (py p) ;;
            ret (Some (ProjFactors these))
        | None => ret None
        end ;;
      gather_loop_pyproj proj len (i + 1) rest (factors ++ [these_factors])
  end.

Definition gather_factors_pyproj (points : list (option QgsPointXY))
    (crs : QgsCoordinateReferenceSystem)
  : M (list (option factors_object)) :=
  pushProgressWidget "Calculating projection factors pyproj edition..."
                     (Z.of_nat (length points)) ;;;
  factors <- gather_loop_pyproj (authid crs) (Z.of_nat (length points)) 0
                                points [] ;;
  clearWidgets ;;;
  pushMessage "Done" "Factors calculated!" Info ;;;
  ret factors.

End Pipeline.

(* ================================================================== *)
(** * factoring: the factor tables, extract_factor, pack_values *)
(* ================================================================== *)

(** The dictionaries keep their insertion order: association lists. *)
Definition PROJECTION_FACTORS_QGIS : list (string * string) :=
  [ ("angularDistortion", "Angular Distortion");
    ("arealScale", "Areal Scale");
    ("dxDlam", "Partial derivative ∂x/∂λ");
    ("dxDphi", "Partial derivative ∂x/∂ϕ");
    ("dyDlam", "Partial derivative ∂y/∂λ");
    ("dyDphi", "Partial derivative ∂y/∂ϕ");
    ("meridianConvergence",
     "Meridian Convergence (aka Grid Declination) (in degrees)");
    ("meridianParallelAngle", "Meridian Parallel Angle (in degrees)");
    ("meridionalScale", "Meridional Scale");
    ("parallelScale", "Parallel Scale");
    ("tissotSemimajor", "Maximum scale factor (Tissot Semimajor)");
    ("tissotSemiminor", "Minimum scale factor (Tissot Semiminor)") ]%string.

Definition PROJECTION_FACTORS_PYPROJ : list (string * string) :=
  [ ("angular_distortion", "Angular Distortion");
    ("areal_scale", "Areal Scale");
    ("dx_dlam", "Partial derivative ∂x/∂λ");
    ("dx_dphi", "Partial derivative ∂x/∂ϕ");
    ("dy_dlam", "Partial derivative ∂y/∂λ");
    ("dy_dphi", "Partial derivative ∂y/∂ϕ");
    ("meridian_convergence",
     "Meridian Convergence (aka Grid Declination) (in degrees)");
    ("meridian_parallel_angle", "Meridian Parallel Angle (in degrees)");
    ("meridional_scale", "Meridional Scale");
    ("parallel_scale", "Parallel Scale");
    ("tissot_semimajor", "Maximum scale factor (Tissot Semimajor)");
    ("tissot_semiminor", "Minimum scale factor (Tissot Semiminor)") ]%string.

(** The table in use: [PROJECTION_FACTORS_PYPROJ if USE_PYPROJ else
    PROJECTION_FACTORS_QGIS]. *)
Definition projection_factors (use_pyproj : bool) : list (string * string) :=
  if use_pyproj then PROJECTION_FACTORS_PYPROJ else PROJECTION_FACTORS_QGIS.

(** The attributes that the two kinds of result objects have by their
    class: the twelve getters and [isValid] of a QGIS object, bound
    methods all; the twelve floats of a pyproj object. *)
Definition attributes (o : factors_object) : list (string * pyvalue) :=
  match o with
  | QgsFactors f =>
      [ ("angularDistortion", PyMethodV (angularDistortion f));
        ("arealScale", PyMethodV (arealScale f));
        ("dxDlam", PyMethodV (dxDlam f));
        ("dxDphi", PyMethodV (dxDphi f));
        ("dyDlam", PyMethodV (dyDlam f));
        ("dyDphi", PyMethodV (dyDphi f));
        ("meridianConvergence", PyMethodV (meridianConvergence f));
        ("meridianParallelAngle", PyMethodV (meridianParallelAngle f));
        ("meridionalScale", PyMethodV (meridionalScale f));
        ("parallelScale", PyMethodV (parallelScale f));
        ("tissotSemimajor", PyMethodV (tissotSemimajor f));
        ("tissotSemiminor", PyMethodV (tissotSemiminor f));
        ("isValid",
         PyObjectV (Ok (PyBoolV (isValid f))) (Raise StructError)) ]%string
  | ProjFactors f =>
      [ ("angular_distortion", PyFloatV (angular_distortion f));
        ("areal_scale", PyFloatV (areal_scale f));
        ("dx_dlam", PyFloatV (dx_dlam f));
        ("dx_dphi", PyFloatV (dx_dphi f));
        ("dy_dlam", PyFloatV (dy_dlam f));
        ("dy_dphi", PyFloatV (dy_dphi f));
        ("meridian_convergence", PyFloatV (meridian_convergence f));
        ("meridian_parallel_angle", PyFloatV (meridian_parallel_angle f));
        ("meridional_scale", PyFloatV (meridional_scale f));
        ("parallel_scale", PyFloatV (parallel_scale f));
        ("tissot_semimajor", PyFloatV (tissot_semimajor f));
        ("tissot_semiminor", PyFloatV (tissot_semiminor f)) ]%string
  end.

(** What else [getattr] finds on a result object. *)
Definition object_attributes (o : factors_object)
  : string -> option pyvalue :=
  match o with
  | QgsFactors f => qgis_object_attributes f
  | ProjFactors f => pyproj_object_attributes f
  end.

(** [getattr(o, name)]: [AttributeError] for a name the object has no
    attribute of. *)
Definition getattr (o : factors_object) (name : string) : outcome pyvalue :=
  match lookup name (attributes o) with
  | Some v => Ok v
  | None =>
      match object_attributes o name with
      | Some v => Ok v
      | None => Raise AttributeError
      end
  end.

(** [v()] *)
Definition call (v : pyvalue) : outcome pyvalue :=
  match v with
  | PyMethodV result => Ok (PyFloatV result)
  | PyFloatV _ => Raise TypeError
  | PyObjectV called _ => called
  end.

(** The loop of [extract_factor]; [values] is the list built so far. *)
Fixpoint extract_loop (use_proj : bool) (factor : string)
    (projection_factors : list (option factors_object))
    (values : list pyvalue) : outcome (list pyvalue) :=
  match projection_factors with
  | [] => Ok values
  | single_projection_factors :: rest =>
      let? value :=
        match single_projection_factors with
        | None => Ok (PyFloatV nan)
        | Some o =>
            if use_proj then getattr o factor
            else (let? method := getattr o factor in call method)
        end in
      extract_loop use_proj factor rest (values ++ [value])
  end.

(** [use_proj] is the value of the [useProj] setting, the one that
    [USE_PYPROJ] was read from. *)
Definition extract_factor (use_proj : bool)
    (projection_factors : list (option factors_object)) (factor : string)
  : outcome (list pyvalue) :=
  extract_loop use_proj factor projection_factors [].

(** The low [n] bytes of [z], least significant first. *)
Fixpoint le_bytes (n : nat) (z : Z) : list Byte.byte :=
  match n with
  | O => []
  | S n' =>
      match Byte.of_N (Z.to_N (z mod 256)) with
      | Some b => b :: le_bytes n' (z / 256)
      | None => Byte.x00 :: le_bytes n' (z / 256)
      end
  end.

(** [struct.pack("d", v)] on a little-endian machine. *)
Definition pack_double (v : pyvalue) : outcome (list Byte.byte) :=
  match v with
  | PyFloatV f => Ok (le_bytes 8 (PyFloat.bits f))
  | PyMethodV _ => Raise StructError
  | PyObjectV _ as_double =>
      let? f := as_double in Ok (le_bytes 8 (PyFloat.bits f))
  end.

(** [struct.pack(f"{len(values)}d", *values)]: the default [data_type]. *)
Fixpoint pack_values (values : list pyvalue) : outcome (list Byte.byte) :=
  match values with
  | [] => Ok []
  | v :: rest =>
      let? b := pack_double v in
      let? bs := pack_values rest in
      Ok (b ++ bs)
  end.


(* ================================================================== *)
(** * Python strings *)
(* ================================================================== *)

(** [s.replace(a, b)] for one-character [a] and [b]. *)
Fixpoint replace_char (a b : ascii) (s : string) : string :=
  match s with
  | EmptyString => EmptyString
  | String c s' =>
      String (if Ascii.eqb c a then b else c) (replace_char a b s')
  end.

(** [os.path.basename(s)]: what follows the last slash; [acc] is the
    component read so far. *)
Fixpoint basename_from (acc s : string) : string :=
  match s with
  | EmptyString => acc
  | String c s' =>
      if Ascii.eqb c "/" then basename_from EmptyString s'
      else basename_from (acc ++ String c EmptyString) s'
  end.

Definition basename (s : string) : string := basename_from EmptyString s.

(** [s[:-4]] *)
Definition drop_last4 (s : string) : string :=
  substring 0 (String.length s - 4) s.

(* ================================================================== *)
(** * factoring.write_factors_to_tif *)
(* ================================================================== *)

Fixpoint update_nth {A : Type} (n : nat) (f : A -> A) (l : list A) : list A :=
  match l, n with
  | [], _ => []
  | a :: l', O => f a :: l'
  | a :: l', S n' => a :: update_nth n' f l'
  end.

(** [writer.createMultiBandRaster(dtype, cols, rows, extent, crs, nBands)]
    for a writer on [path] with the given driver and creation options: the
    file exists afterwards, with [nBands] bands that hold nothing yet. *)
Definition createMultiBandRaster (path format : string)
    (options : list string) (dtype : data_type) (cols rows : Z)
    (extent : QgsRectangle) (crs : QgsCoordinateReferenceSystem)
    (nBands : nat) : M unit :=
  write_file path
    (RasterFile (mkRaster format options dtype cols rows extent crs
                          (repeat (mkBand None None) nBands))).

Definition with_bands (r : raster) (bands : list band) : raster :=
  mkRaster (raster_format r) (raster_options r) (raster_type r)
           (raster_cols r) (raster_rows r) (raster_extent r)
           (raster_crs r) bands.

(** The provider changes band [band_index] (counted from 1) of its file. *)
Definition update_band (path : string) (band_index : nat)
    (f : band -> band) : M unit :=
  fl <- read_file path ;;
  match fl with
  | RasterFile r =>
      write_file path
        (RasterFile
           (with_bands r (update_nth (band_index - 1) f (raster_bands r))))
  | VrtFile _ => raise TypeError
  end.

(** [block.setData(data); provider.writeBlock(block, band=band_index)] *)
Definition writeBlock (path : string) (data : list Byte.byte)
    (band_index : nat) : M unit :=
  update_band path band_index
              (fun b => mkBand (Some data) (band_nodata b)).

(** [provider.setNoDataValue(band_index, value)] *)
Definition setNoDataValue (path : string) (band_index : nat) (value : float)
  : M unit :=
  update_band path band_index
              (fun b => mkBand (band_data b) (Some value)).

Section Factoring.

Variable E : Engine.

(** The [useProj] setting, read into [USE_PYPROJ] when the module is
    loaded and again by [extract_factor]. *)
Variable USE_PYPROJ : bool.

(** The loop of [write_factors_to_tif] over
    [enumerate(projection_factors.items(), start=1)], from [band_index]
    on. *)
Fixpoint write_bands (raster_file_path : string)
    (factors : list (option factors_object)) (cols rows : Z)
    (band_index : nat) (items : list (string * string)) : M unit :=
  match items with
  | [] => ret tt
  | (factor, factor_text) :: rest =>
      values <- lift (extract_factor USE_PYPROJ factors factor) ;;
      data <- lift (pack_values values) ;;
      lift (py_assert (cols * rows =? Z.of_nat (length values))%Z) ;;;
      writeBlock raster_file_path data band_index ;;;
      setNoDataValue raster_file_path band_index nan ;;;
      write_bands raster_file_path factors cols rows (S band_index) rest
  end.

Definition write_factors_to_tif (raster_file_path : string)
    (factors : list (option factors_object)) (extent : QgsRectangle)
    (crs : QgsCoordinateReferenceSystem) (cols rows : Z) : M unit :=
  let projection_factors := projection_factors USE_PYPROJ in
  createMultiBandRaster raster_file_path "GTiff"
    ["COMPRESS=ZSTD"; "ZSTD_LEVEL=9"; "TILED=YES"; "PREDICTOR=3"]%string
    Float64 cols rows extent crs (length projection_factors) ;;;
  write_bands raster_file_path factors cols rows 1 projection_factors.

(* ================================================================ *)
(** * factoring.create_factors_tif *)
(* ================================================================ *)

Definition create_factors_tif (fuel : nat) (extent : QgsRectangle)
    (crs : QgsCoordinateReferenceSystem) (pixel_size : float) : M string :=
  if String.eqb (authid crs) "EPSG:4326" then raise GeographicCrsError
  else
    created <- lift (create_points fuel extent pixel_size) ;;
    let '(points, cols, rows) := created in
    let gcs_crs := fromEpsgId_4326 in
    points_gcs <-
      (if negb (crs_eqb crs gcs_crs)
       then transform_points E points crs gcs_crs
       else ret (map Some points)) ;;
    factors <-
      (if USE_PYPROJ then gather_factors_pyproj E points_gcs crs
       else gather_factors E points_gcs crs) ;;
    let raster_file_path :=
      generateTemporaryDestination E
        (replace_char ":" "_" ("Projection Factors " ++ authid crs)) in
    write_factors_to_tif raster_file_path factors extent crs cols rows ;;;
    ret raster_file_path.

(* ================================================================ *)
(** * factoring.create_vrt_for_factors_tif *)
(* ================================================================ *)

(** [ET.SubElement(band, "Description")] with its text set. *)
Definition Description (factor_name : string) : element :=
  Element "Description" [] (Some factor_name) [].

(** The loop [for factor_name, band in zip(names, root.iter(tag))] with
    its body, as one walk over the tree in document order: every element
    with the tag takes the next name while names are left.  The walk
    returns the element as it is afterwards and the names not used.  The
    new [Description] child is the last child of its band, has another
    tag and no children: the running iterator passes over it. *)
Fixpoint describe (names : list string) (e : element) {struct e}
  : element * list string :=
  match e with
  | Element tag attrib text children =>
      let here :=
        if String.eqb tag "VRTRasterBand" then hd_error names else None in
      let names1 :=
        match here with Some _ => tl names | None => names end in
      let '(children', names2) :=
        (fix walk (cs : list element) (ns : list string)
           : list element * list string :=
           match cs with
           | [] => ([], ns)
           | c :: cs' =>
               let '(c', ns1) := describe ns c in
               let '(cs'', ns2) := walk cs' ns1 in
               (c' :: cs'', ns2)
           end) children names1 in
      (Element tag attrib text
         (children' ++ match here with
                       | Some n => [Description n]
                       | None => []
                       end),
       names2)
  end.

Definition create_vrt_for_factors_tif (tif_path : string) : M string :=
  let projection_factors := projection_factors USE_PYPROJ in
  let vrt := (tif_path ++ ".vrt")%string in
  (* processing.run("gdal:buildvirtualraster", ...)["OUTPUT"] *)
  h <- get_host ;;
  write_file vrt (VrtFile (buildvirtualraster E (files h) tif_path)) ;;;
  (* tree = ET.parse(vrt); root = tree.getroot() *)
  fl <- read_file vrt ;;
  match fl with
  | VrtFile root =>
      let root' := fst (describe (map snd projection_factors) root) in
      (* tree.write(vrt) *)
      write_file vrt (VrtFile root') ;;;
      ret vrt
  | RasterFile _ => raise TypeError
  end.

(* ================================================================ *)
(** * proj_factors_redux.ProjFactorsRedux.run *)
(* ================================================================ *)

(** [QgsProject.instance().addMapLayer(QgsRasterLayer(source, baseName))] *)
Definition addMapLayer (source name : string) : M unit :=
  modify (fun h => set_layers (layers h ++ [(source, name)]) h).

Definition run (fuel : nat) : M unit :=
  pushMessage (plugin_name E)
              "Calculating projection factors for canvas..." Info ;;;
  h <- get_host ;;
  let extent := canvas_extent h in
  let crs := canvas_crs h in
  let pixel_size := canvas_mapUnitsPerPixel h in
  if String.eqb (authid crs) "EPSG:4326" then
    pushMessage (plugin_name E)
                ("CRS must be projected, " ++ authid crs ++ " isn't!")
                Critical
  else
    raster_file_path <- create_factors_tif fuel extent crs pixel_size ;;
    vrt_path <- create_vrt_for_factors_tif raster_file_path ;;
    pushMessage (plugin_name E)
                ("Raster written to " ++ raster_file_path) Success ;;;
    let layer_name :=
      replace_char "_" ":" (drop_last4 (basename raster_file_path)) in
    addMapLayer vrt_path layer_name.

End Factoring.

(* ================================================================== *)
(** * A small engine and host to run the model on *)
(* ================================================================== *)

Module Sample.

Local Open Scope float_scope.

(** Reprojection fails west of the origin ("off world") and scales
    metres to degrees elsewhere. *)
Definition sample_transform (source target : QgsCoordinateReferenceSystem)
    (p : QgsPointXY) : outcome QgsPointXY :=
  if px p <? 0 then Raise QgsCsException
  else Ok (mkPointXY (px p / 1000) (py p / 1000)).

(** Of the attributes every Python object has, the sample objects keep
    [__doc__], a string: not callable, and no float. *)
Definition sample_object_attributes (name : string) : option pyvalue :=
  if String.eqb name "__doc__"
  then Some (PyObjectV (Raise TypeError) (Raise StructError))
  else None.

(** Factors are invalid on the equator. *)
Definition sample_factors (crs : QgsCoordinateReferenceSystem)
    (p : QgsPoint) : QgsProjectionFactors :=
  mkQgsProjectionFactors (negb (y p =? 0))
    0 (1 + y p * y p) 1 0 0 1 (x p) 90 1 1 1 1 sample_object_attributes.

Definition sample_get_factors (proj : string) (lon lat : float)
  : PyprojFactors :=
  mkPyprojFactors 0 (1 + lat * lat) 1 0 0 1 lon 90 1 1 1 1
                  sample_object_attributes.

(** One [VRTRasterBand] per band of the raster at [path]. *)
Definition sample_buildvirtualraster (fs : list (string * file))
    (path : string) : element :=
  match lookup path fs with
  | Some (RasterFile r) =>
      Element "VRTDataset" [] None
        (Element "SRS" [] (Some (authid (raster_crs r))) []
         :: map (fun _ =>
                   Element "VRTRasterBand" [("dataType", "Float64")] None
                     [Element "NoDataValue" [] (Some "nan") []])
                (raster_bands r))
  | _ => Element "VRTDataset" [] None []
  end%string.

Definition engine : Engine :=
  mkEngine "Projection Factors Redux"
           sample_transform sample_factors sample_get_factors
           (fun name => "/tmp/processing/" ++ name ++ ".tif")%string
           sample_buildvirtualraster.

Definition utm32n : QgsCoordinateReferenceSystem := mkCrs "EPSG:25832" false.
Definition wgs84 : QgsCoordinateReferenceSystem := mkCrs "EPSG:4326" true.
(** ETRS89: geographic coordinates, as WGS84, under another identifier. *)
Definition etrs89 : QgsCoordinateReferenceSystem := mkCrs "EPSG:4258" true.

(** 1000 entries: points on the edges of the geographic range, two
    points inside it (one on the equator), and unreprojected pixels. *)
Definition edge_points : list (option QgsPointXY) :=
  Some (mkPointXY 180 0) :: Some (mkPointXY 10 90)
  :: Some (mkPointXY (-180) 0) :: Some (mkPointXY 0 (-90))
  :: Some (mkPointXY 10 53.5) :: Some (mkPointXY 10 0)
  :: repeat None 994.

(** The extent and the cell coordinates of the repository's tests:
    4 wide, 3 high, cell size 1. *)
Definition EXTENT : QgsRectangle := mkRectangle (-1.5) (-2.5) 2.5 0.5.

Definition CELL_POINTXYS : list QgsPointXY :=
  [mkPointXY (-1) 0; mkPointXY 0 0; mkPointXY 1 0; mkPointXY 2 0;
   mkPointXY (-1) (-1); mkPointXY 0 (-1); mkPointXY 1 (-1);
   mkPointXY 2 (-1);
   mkPointXY (-1) (-2); mkPointXY 0 (-2); mkPointXY 1 (-2);
   mkPointXY 2 (-2)].

(** A canvas of 40 by 25 map units at one unit per pixel. *)
Definition host (crs : QgsCoordinateReferenceSystem) : Host :=
  mkHost (mkRectangle 0 0 40 25) crs 1 [] 0 0 [] [] [].

End Sample.

(* ================================================================== *)
(** * Vocabulary of the statements *)
(* ================================================================== *)

Section Vocabulary.

Variable E : Engine.
Variable crs : QgsCoordinateReferenceSystem.

(** What [gather_factors] stores for one input entry. *)
Definition factors_at (pointxy : option QgsPointXY) : option factors_object :=
  match pointxy with
  | Some p =>
      if in_geographic_bounds (px p) (py p) then
        let these := factors E crs (mkPoint (px p) (py p)) in
        if negb (isValid these) then None else Some (QgsFactors these)
      else None
  | None => None
  end.

(** The engine calls that one input entry causes. *)
Definition factor_calls_at (pointxy : option QgsPointXY) : list engine_call :=
  match pointxy with
  | Some p =>
      if in_geographic_bounds (px p) (py p)
      then [FactorsCall crs (mkPoint (px p) (py p))]
      else []
  | None => []
  end.

Definition pyproj_factors_at (point : option QgsPointXY)
  : option factors_object :=
  match point with
  | Some p => Some (ProjFactors (get_factors E (authid crs) (px p) (py p)))
  | None => None
  end.

Definition pyproj_calls_at (point : option QgsPointXY) : list engine_call :=
  match point with
  | Some p => [GetFactorsCall (authid crs) (px p) (py p)]
  | None => []
  end.

End Vocabulary.

(** On or beyond an edge of the geographic range: a latitude of 90 or
    more, or of -90 or less, or a longitude of 180 or more, or of -180 or
    less. *)
Definition on_or_beyond_bounds (px py : float) : bool :=
  ((py <=? -90) || (90 <=? py) || (px <=? -180) || (180 <=? px))%float.

(** The engine call is a factor computation at a point strictly inside
    the geographic range. *)
Definition strictly_inside_call (crs : QgsCoordinateReferenceSystem)
    (c : engine_call) : Prop :=
  exists p,
    c = FactorsCall crs p /\
    ((-90 <? y p) = true /\ (y p <? 90) = true)%float /\
    ((-180 <? x p) = true /\ (x p <? 180) = true)%float.

(** What [transform_points] stores for one point. *)
Definition transformed (E : Engine)
    (source target : QgsCoordinateReferenceSystem) (p : QgsPointXY)
  : option QgsPointXY :=
  match transform E source target p with
  | Ok q => Some q
  | _ => None
  end.

(** The engine's transform fails with the CRS exception and in no other
    way. *)
Definition fails_with_QgsCsException_only (E : Engine)
    (source target : QgsCoordinateReferenceSystem) : Prop :=
  forall p,
    match transform E source target p with
    | Ok _ => True
    | Raise e => e = QgsCsException
    | Timeout => False
    end.

(** The object was made by the engine that the [useProj] setting selects:
    QGIS objects without it, pyproj objects with it. *)
Definition from_engine_in_use (use_proj : bool) (o : factors_object) : bool :=
  match o with
  | QgsFactors _ => negb use_proj
  | ProjFactors _ => use_proj
  end.

Definition all_from_engine_in_use (use_proj : bool)
    (projection_factors : list (option factors_object)) : bool :=
  forallb (fun single =>
             match single with
             | Some o => from_engine_in_use use_proj o
             | None => true
             end) projection_factors.

(** The float that the factor [name] of an object stands for: the value
    of the attribute (pyproj) or the result of the getter (QGIS). *)
Definition factor_float (o : factors_object) (name : string) : option float :=
  match lookup name (attributes o) with
  | Some (PyFloatV v) => Some v
  | Some (PyMethodV v) => Some v
  | Some (PyObjectV _ _) => None
  | None => None
  end.

(** The keys of the factor table in use. *)
Definition factor_names (use_proj : bool) : list string :=
  map fst (projection_factors use_proj).

(** The value [extract_factor] stores for one entry. *)
Definition extracted (factor : string) (single : option factors_object)
  : pyvalue :=
  match single with
  | None => PyFloatV nan
  | Some o =>
      match factor_float o factor with
      | Some v => PyFloatV v
      | None => PyFloatV nan
      end
  end.

(** The eight bytes of [float("nan")]. *)
Definition nan_bytes : list Byte.byte :=
  [Byte.x00; Byte.x00; Byte.x00; Byte.x00;
   Byte.x00; Byte.x00; Byte.xf8; Byte.x7f].

Definition is_float (v : pyvalue) : bool :=
  match v with PyFloatV _ => true | _ => false end.

(** The bytes one value contributes to a packed band. *)
Definition float_bytes (v : pyvalue) : list Byte.byte :=
  match v with
  | PyFloatV f => le_bytes 8 (PyFloat.bits f)
  | _ => []
  end.

(** The band that [write_factors_to_tif] leaves for one factor: the
    packed doubles of the factor's values, with NaN as no-data value. *)
Definition factor_band (factors : list (option factors_object))
    (item : string * string) : band :=
  mkBand (Some (flat_map float_bytes (map (extracted (fst item)) factors)))
         (Some nan).

(** [e.iter(tag)]: the elements with the tag among [e] and its
    descendants, in document order. *)
Fixpoint iter (tag : string) (e : element) : list element :=
  match e with
  | Element t _ _ children =>
      (if String.eqb t tag then [e] else []) ++ flat_map (iter tag) children
  end.

(** The walk of [describe] over a list of siblings. *)
Fixpoint describe_all (cs : list element) (ns : list string)
  : list element * list string :=
  match cs with
  | [] => ([], ns)
  | c :: cs' =>
      let '(c', ns1) := describe ns c in
      let '(cs'', ns2) := describe_all cs' ns1 in
      (c' :: cs'', ns2)
  end.

(** [band'] is [band] with a new last child, an element of tag
    [Description] whose text is [name], without attributes or children;
    the children before it are those of [band], themselves walked ([band]
    as it was when it holds no band itself). *)
Definition described_as (name : string) (band band' : element) : Prop :=
  exists cs,
    band' = Element "VRTRasterBand" (attrib_of band) (text_of band)
                    (cs ++ [Element "Description" [] (Some name) []]) /\
    length cs = length (children_of band) /\
    (iter "VRTRasterBand" band = [band] -> cs = children_of band).

(** The bands [after] the loop against the bands [before] it: as many,
    and the one at each position described by the name at that position,
    or untouched when the names have run out. *)
Definition bands_described (names : list string)
    (before after : list element) : Prop :=
  length after = length before /\
  forall i band,
    nth_error before i = Some band ->
    match nth_error names i with
    | Some name =>
        exists band', nth_error after i = Some band' /\
                      described_as name band band'
    | None => nth_error after i = Some band
    end.

(** The walk over an element and over a list of siblings. *)
Definition walk_ok (e : element) : Prop :=
  forall names,
    snd (describe names e) = skipn (length (iter "VRTRasterBand" e)) names /\
    bands_described names (iter "VRTRasterBand" e) (iter "VRTRasterBand" (fst (describe names e))).

Definition walk_all_ok (cs : list element) : Prop :=
  forall names,
    length (fst (describe_all cs names)) = length cs /\
    snd (describe_all cs names) =
      skipn (length (flat_map (iter "VRTRasterBand") cs)) names /\
    bands_described names (flat_map (iter "VRTRasterBand") cs)
                    (flat_map (iter "VRTRasterBand") (fst (describe_all cs names))).

(** One row of the grid: the points of ordinate [y0] at the abscissas
    [xs], left to right. *)
Definition grid_row (xs : list float) (y0 : float) : list QgsPointXY :=
  map (fun x0 => mkPointXY x0 y0) xs.

(** The value a [frange] yields at counter [k]. *)
Definition frange_value (start step : float) (k : nat) : float :=
  (start + PyFloat.of_Z (Z.of_nat k) * step)%float.

(** The value is the float NaN. *)
Definition is_nan_value (v : pyvalue) : bool :=
  match v with PyFloatV f => is_nan f | _ => false end.

(** [values] has the length of [projection_factors] and NaN at the
    positions of [None], and at no other position. *)
Definition nan_precisely_at_none
    (projection_factors : list (option factors_object))
    (values : list pyvalue) : Prop :=
  length values = length projection_factors /\
  forall i,
    (exists v, nth_error values i = Some v /\ is_nan_value v = true) <->
    nth_error projection_factors i = Some None.

(** A valid result of the QGIS engine whose areal scale is NaN. *)
Definition nan_scale_factors : QgsProjectionFactors :=
  mkQgsProjectionFactors true 0 nan 1 0 0 1 10 90 1 1 1 1
                         Sample.sample_object_attributes.

(** The host after a raster of the twelve factor bands was written at
    [/tmp/out.tif], for a grid of two columns and one row of points that
    could not be reprojected. *)
Definition written_host : Host :=
  snd (write_factors_to_tif false "/tmp/out.tif" [None; None]
         (mkRectangle 0 0 2 1) Sample.utm32n 2 1
         (Sample.host Sample.utm32n)).

(* ================================================================== *)
(** * misc.angular_brackets_to_html *)
(* ================================================================== *)

(** [s.replace(a, r)] for a one-character [a]. *)
Fixpoint replace_char_by (a : ascii) (r : string) (s : string) : string :=
  match s with
  | EmptyString => EmptyString
  | String c s' =>
      if Ascii.eqb c a then (r ++ replace_char_by a r s')%string
      else String c (replace_char_by a r s')
  end.

Definition angular_brackets_to_html (s : string) : string :=
  replace_char_by ">" "&gt;" (replace_char_by "<" "&lt;" s).

(** [c in s] for a character [c]. *)
Fixpoint occurs (c : ascii) (s : string) : bool :=
  match s with
  | EmptyString => false
  | String c' s' => Ascii.eqb c' c || occurs c s'
  end.

(** [s.count(c)] for a character [c]. *)
Fixpoint count_char (c : ascii) (s : string) : nat :=
  match s with
  | EmptyString => 0
  | String c' s' => (if Ascii.eqb c' c then 1 else 0) + count_char c s'
  end.

(* ================================================================== *)
(** * misc.canvas_pixel_points *)
(* ================================================================== *)

(** The canvas as [canvas_pixel_points] uses it: the [QgsMapToPixel] that
    [canvas.getCoordinateTransform()] returns. *)
Record QgsMapToPixel : Type := mkMapToPixel {
  mapWidth : Z;
  mapHeight : Z;
  toMapCoordinates : Z -> Z -> QgsPointXY
}.

(** [range(n)] *)
Definition py_range (n : Z) : list Z :=
  map Z.of_nat (seq 0 (Z.to_nat n)).

Definition canvas_pixel_points (coordinate_transform : QgsMapToPixel)
  : outcome (list QgsPointXY) :=
  let width := mapWidth coordinate_transform in
  let height := mapHeight coordinate_transform in
  let points :=
    flat_map (fun y0 =>
                map (fun x0 => toMapCoordinates coordinate_transform x0 y0)
                    (py_range width))
             (py_range height) in
  let? _ := py_assert (Z.of_nat (length points) =? width * height)%Z in
  Ok points.

(* ================================================================== *)
(** * misc.transform_points_multipoint_THIS_TAKES_MORE_THAN_TWICE_AS_LONG *)
(* ================================================================== *)

(** [multipoint.transform(coordinate_transform)], one call of the source:
    the multipoint applies the coordinate transform, the engine's
    [transform], to each of its points in turn, and the first failure is
    raised. *)
Fixpoint multipoint_transform (E : Engine)
    (source_crs target_crs : QgsCoordinateReferenceSystem)
    (points : list QgsPointXY) : outcome (list QgsPointXY) :=
  match points with
  | [] => Ok []
  | p :: rest =>
      let? q := transform E source_crs target_crs p in
      let? qs := multipoint_transform E source_crs target_crs rest in
      Ok (q :: qs)
  end.

(** No [try] around the call: what the multipoint raises leaves the
    function. *)
Definition transform_points_multipoint_THIS_TAKES_MORE_THAN_TWICE_AS_LONG
    (E : Engine) (points : list QgsPointXY)
    (source_crs target_crs : QgsCoordinateReferenceSystem)
  : M (list (option QgsPointXY)) :=
  multipoint <- lift (multipoint_transform E source_crs target_crs points) ;;
  ret (map Some multipoint).

(* ================================================================== *)
(** * Vocabulary of the further statements *)
(* ================================================================== *)

(** The raster a successful [write_factors_to_tif] leaves. *)
Definition factors_raster (USE_PYPROJ : bool)
    (factors : list (option factors_object)) (extent : QgsRectangle)
    (crs : QgsCoordinateReferenceSystem) (cols rows : Z) : raster :=
  mkRaster "GTiff"
    ["COMPRESS=ZSTD"; "ZSTD_LEVEL=9"; "TILED=YES"; "PREDICTOR=3"]%string
    Float64 cols rows extent crs
    (map (factor_band factors) (projection_factors USE_PYPROJ)).

(** The raster that [createMultiBandRaster] makes: no band written. *)
Definition blank_raster (USE_PYPROJ : bool) (extent : QgsRectangle)
    (crs : QgsCoordinateReferenceSystem) (cols rows : Z) : raster :=
  mkRaster "GTiff"
    ["COMPRESS=ZSTD"; "ZSTD_LEVEL=9"; "TILED=YES"; "PREDICTOR=3"]%string
    Float64 cols rows extent crs
    (repeat (mkBand None None) (length (projection_factors USE_PYPROJ))).

(** What the factor step of [create_factors_tif] stores for a point. *)
Definition gathered (E : Engine) (USE_PYPROJ : bool)
    (crs : QgsCoordinateReferenceSystem) (point : option QgsPointXY)
  : option factors_object :=
  if USE_PYPROJ then pyproj_factors_at E crs point else factors_at E crs point.

(** The path [create_factors_tif] writes to. *)
Definition destination (E : Engine) (crs : QgsCoordinateReferenceSystem)
  : string :=
  generateTemporaryDestination E
    (replace_char ":" "_" ("Projection Factors " ++ authid crs)).

(** The text of the progress widget of the factor step. *)
Definition progress_text (USE_PYPROJ : bool) : string :=
  if USE_PYPROJ then "Calculating projection factors pyproj edition..."
  else "Calculating projection factors...".

(** A canvas of 3 by 2 pixels of one map unit, its top left corner at
    (10, 20). *)
Definition sample_map_to_pixel : QgsMapToPixel :=
  mkMapToPixel 3 2
    (fun x0 y0 => mkPointXY (10 + PyFloat.of_Z x0) (20 - PyFloat.of_Z y0)).

(** The grid of the sample canvas: 40 by 25 points. *)
Definition sample_grid : list QgsPointXY :=
  match create_points 100 (mkRectangle 0 0 40 25) 1 with
  | Ok (points, _, _) => points
  | _ => []
  end.

(** A canvas of 4 by 3 map units at one unit per pixel: 12 pixels. *)
Definition small_host (crs : QgsCoordinateReferenceSystem) : Host :=
  mkHost Sample.EXTENT crs 1 [] 0 0 [] [] [].

(** The name [run] gives the layer of a raster file. *)
Definition layer_name_of (raster_file_path : string) : string :=
  replace_char "_" ":" (drop_last4 (basename raster_file_path)).

(** What [extract_factor] stores for an entry when it reads the
    attribute without calling it. *)
Definition attribute_read (factor : string) (single : option factors_object)
  : pyvalue :=
  match single with
  | None => PyFloatV nan
  | Some o =>
      match lookup factor (attributes o) with
      | Some v => v
      | None => PyFloatV nan
      end
  end.

(** Some entry of the list holds a result object. *)
Definition holds_object (projection_factors : list (option factors_object))
  : bool :=
  existsb (fun single => match single with Some _ => true | None => false end)
          projection_factors.

(** One iteration of the loop of [gather_factors], past the progress
    update: the factors of one entry. *)
Definition gather_entry (E : Engine) (crs : QgsCoordinateReferenceSystem)
    (pointxy : option QgsPointXY) : M (option factors_object) :=
  match pointxy with
  | Some p =>
      if in_geographic_bounds (px p) (py p) then
        these <- call_factors E crs (mkPoint (px p) (py p)) ;;
        if negb (isValid these) then ret None
        else ret (Some (QgsFactors these))
      else ret None
  | None => ret None
  end.


(* ================================================================== *)
(** * Test vectors *)
(* ================================================================== *)

(** The grid of the repository's tests: a 4 by 3 extent with cell size 1. *)
Example create_points_test_extent :
  create_points 10 Sample.EXTENT 1 = Ok (Sample.CELL_POINTXYS, 4%Z, 3%Z).
Proof. vm_compute. reflexivity. Qed.

Example pack_values_one_nan :
  pack_values [PyFloatV 1; PyFloatV nan] =
  Ok [Byte.x00; Byte.x00; Byte.x00; Byte.x00; Byte.x00; Byte.x00; Byte.xf0; Byte.x3f;
      Byte.x00; Byte.x00; Byte.x00; Byte.x00; Byte.x00; Byte.x00; Byte.xf8; Byte.x7f].
Proof. vm_compute. reflexivity. Qed.

(* ================================================================== *)
(** * Facts about the host setters and the file store *)
(* ================================================================== *)

Lemma lookup_store_same :
  forall path f fs, lookup path (store path f fs) = Some f.
Proof.
  intros path f fs. unfold store. simpl. now rewrite String.eqb_refl.
Qed.

Lemma lookup_store_other :
  forall path path' f fs,
    path' <> path -> lookup path' (store path f fs) = lookup path' fs.
Proof.
  intros path path' f fs Hne. unfold store. simpl.
  destruct (String.eqb_spec path' path) as [Heq | _]; [contradiction |].
  induction fs as [| [k v] fs IH]; simpl; [reflexivity |].
  destruct (String.eqb_spec path k) as [Hk | Hk]; simpl.
  - subst k. destruct (String.eqb_spec path' path); [contradiction | exact IH].
  - destruct (String.eqb path' k); [reflexivity | exact IH].
Qed.

(* ================================================================== *)
(** * gather_factors: the progress update and the loop *)
(* ================================================================== *)

Section GatherFacts.

Variable E : Engine.
Variable crs : QgsCoordinateReferenceSystem.

(** With fewer than 1000 points the divisor [int(len(points) / 1000)] is
    zero. *)
Lemma update_progress_small :
  forall len i h,
    (0 <= len < 1000)%Z ->
    update_progress len i h = (Raise ZeroDivisionError, h).
Proof.
  intros len i h Hlen. unfold update_progress, bind, lift, py_mod.
  rewrite Z.div_small by lia. reflexivity.
Qed.

(** From 1000 points on the update goes through and touches the
    progress value only. *)
Lemma update_progress_large :
  forall len i h,
    (1000 <= len)%Z ->
    exists v,
      update_progress len i h = (Ok tt, set_progress (progress_maximum h) v h).
Proof.
  intros len i h Hlen. unfold update_progress, bind, lift, py_mod.
  assert (Hq : (0 < len / 1000)%Z) by (apply Z.div_str_pos; lia).
  destruct (Z.eqb_spec (len / 1000) 0) as [H0 | _]; [lia |].
  destruct ((i mod (len / 1000)) =? 0)%Z.
  - exists (i + 1)%Z. reflexivity.
  - exists (progress_value h). destruct h; reflexivity.
Qed.

Lemma gather_loop_small :
  forall len i p points acc h,
    (0 <= len < 1000)%Z ->
    gather_loop E crs len i (p :: points) acc h = (Raise ZeroDivisionError, h).
Proof.
  intros. simpl. unfold bind at 1.
  now rewrite update_progress_small.
Qed.

Lemma gather_loop_pyproj_small :
  forall len i p points acc h,
    (0 <= len < 1000)%Z ->
    gather_loop_pyproj E (authid crs) len i (p :: points) acc h =
    (Raise ZeroDivisionError, h).
Proof.
  intros. simpl. unfold bind at 1.
  now rewrite update_progress_small.
Qed.

(** The loop on a long enough input: it returns one entry per point and
    calls the engine for the points inside the bounds, in order. *)
Lemma gather_loop_large :
  forall len points i acc h,
    (1000 <= len)%Z ->
    exists h',
      gather_loop E crs len i points acc h =
        (Ok (acc ++ map (factors_at E crs) points), h') /\
      engine_calls h' = engine_calls h ++ flat_map (factor_calls_at crs) points /\
      message_bar h' = message_bar h /\
      files h' = files h /\ layers h' = layers h.
Proof.
  intros len points. induction points as [| p points IH]; intros i acc h Hlen.
  - exists h. simpl. unfold ret. rewrite !app_nil_r. auto.
  - simpl gather_loop. unfold bind at 1.
    destruct (update_progress_large i h Hlen) as [v ->].
    set (h1 := set_progress (progress_maximum h) v h).
    assert (Hstep : exists h2,
      (match p with
       | Some p0 =>
           if in_geographic_bounds (px p0) (py p0) then
             these <- call_factors E crs (mkPoint (px p0) (py p0)) ;;
             if negb (isValid these) then ret None
             else ret (Some (QgsFactors these))
           else ret None
       | None => ret None
       end) h1 = (Ok (factors_at E crs p), h2) /\
      engine_calls h2 = engine_calls h ++ (factor_calls_at crs) p /\
      message_bar h2 = message_bar h /\
      files h2 = files h /\ layers h2 = layers h).
    { destruct p as [p0 |]; simpl.
      - destruct (in_geographic_bounds (px p0) (py p0)).
        + eexists. split.
          * unfold bind, call_factors, log_call, modify, ret, bind. simpl.
            destruct (negb (isValid (factors E crs (mkPoint (px p0) (py p0)))));
              reflexivity.
          * simpl. auto.
        + exists h1. unfold ret. simpl. rewrite app_nil_r. auto.
      - exists h1. unfold ret. simpl. rewrite app_nil_r. auto. }
    destruct Hstep as (h2 & Hrun & Hc & Hm & Hf & Hl).
    unfold bind at 1. rewrite Hrun.
    destruct (IH (i + 1)%Z (acc ++ [(factors_at E crs) p]) h2 Hlen)
      as (h' & Hloop & Hc' & Hm' & Hf' & Hl').
    exists h'. rewrite Hloop.
    rewrite <- app_assoc. simpl. split; [reflexivity |].
    rewrite Hc', Hc, Hm', Hm, Hf', Hf, Hl', Hl, <- app_assoc. auto.
Qed.

Lemma gather_loop_pyproj_large :
  forall len points i acc h,
    (1000 <= len)%Z ->
    exists h',
      gather_loop_pyproj E (authid crs) len i points acc h =
        (Ok (acc ++ map (pyproj_factors_at E crs) points), h') /\
      engine_calls h' = engine_calls h ++ flat_map (pyproj_calls_at crs) points /\
      message_bar h' = message_bar h /\
      files h' = files h /\ layers h' = layers h.
Proof.
  intros len points. induction points as [| p points IH]; intros i acc h Hlen.
  - exists h. simpl. unfold ret. rewrite !app_nil_r. auto.
  - simpl gather_loop_pyproj. unfold bind at 1.
    destruct (update_progress_large i h Hlen) as [v ->].
    set (h1 := set_progress (progress_maximum h) v h).
    assert (Hstep : exists h2,
      (match p with
       | Some p0 =>
           these <- call_get_factors E (authid crs) (px p0) (py p0) ;;
           ret (Some (ProjFactors these))
       | None => ret None
       end) h1 = (Ok ((pyproj_factors_at E crs) p), h2) /\
      engine_calls h2 = engine_calls h ++ (pyproj_calls_at crs) p /\
      message_bar h2 = message_bar h /\
      files h2 = files h /\ layers h2 = layers h).
    { destruct p as [p0 |]; simpl.
      - eexists. split; [reflexivity |]. simpl. auto.
      - exists h1. unfold ret. simpl. rewrite app_nil_r. auto. }
    destruct Hstep as (h2 & Hrun & Hc & Hm & Hf & Hl).
    unfold bind at 1. rewrite Hrun.
    destruct (IH (i + 1)%Z (acc ++ [(pyproj_factors_at E crs) p]) h2 Hlen)
      as (h' & Hloop & Hc' & Hm' & Hf' & Hl').
    exists h'. rewrite Hloop.
    rewrite <- app_assoc. simpl. split; [reflexivity |].
    rewrite Hc', Hc, Hm', Hm, Hf', Hf, Hl', Hl, <- app_assoc. auto.
Qed.

End GatherFacts.

(* ================================================================== *)
(** * Facts about binary64 comparisons and the neutral zero *)
(* ================================================================== *)

Section FloatFacts.

Local Open Scope float_scope.

Lemma SFcompare_swap :
  forall a b, SFcompare b a = option_map CompOpp (SFcompare a b).
Proof.
  intros a b.
  destruct a as [sa | sa | | sa ma ea], b as [sb | sb | | sb mb eb];
    simpl; try reflexivity;
    try (destruct sa; reflexivity); try (destruct sb; reflexivity);
    try (destruct sa, sb; reflexivity).
  destruct sa, sb; simpl; try reflexivity;
    rewrite (Z.compare_antisym ea eb);
    destruct (ea ?= eb)%Z eqn:He; simpl; try reflexivity;
    change (PosDef.Pos.compare_cont Eq mb ma) with (Pos.compare mb ma);
    change (PosDef.Pos.compare_cont Eq ma mb) with (Pos.compare ma mb);
    rewrite (Pos.compare_antisym ma mb);
    destruct (ma ?= mb)%positive; reflexivity.
Qed.

(** [a <= b] excludes [b < a]. *)
Lemma leb_ltb_false :
  forall a b, (a <=? b) = true -> (b <? a) = false.
Proof.
  intros a b. rewrite leb_spec, ltb_spec. unfold SFleb, SFltb.
  rewrite (SFcompare_swap (Prim2SF a) (Prim2SF b)).
  destruct (SFcompare (Prim2SF a) (Prim2SF b)) as [[| |] |];
    simpl; congruence.
Qed.

(** The first value of a [frange] is its start: when [start + 0 * step]
    compares below anything at all, it equals [start]. *)
Lemma start_plus_zero_steps :
  forall start step stop,
    (start + PyFloat.of_Z 0 * step <? stop) = true ->
    (start + PyFloat.of_Z 0 * step =? start) = true.
Proof.
  intros start step stop.
  change (PyFloat.of_Z 0) with zero.
  rewrite ltb_spec, eqb_spec, add_spec, mul_spec.
  change (Prim2SF zero) with (S754_zero false).
  unfold SFltb, SFeqb, SF64add, SF64mul.
  destruct (Prim2SF step) as [ss | ss | | ss ms es]; simpl;
    destruct (Prim2SF start) as [sa | sa | | sa ma ea] eqn:Ha; simpl;
    try discriminate; intros _; try reflexivity;
    try (destruct sa; reflexivity);
    try (destruct sa, ss; reflexivity).
  all: rewrite Z.compare_refl;
    change (PosDef.Pos.compare_cont Eq ma ma) with (Pos.compare ma ma);
    rewrite Pos.compare_refl; destruct sa; reflexivity.
Qed.

End FloatFacts.

(* ================================================================== *)
(** * gather_factors as a whole *)
(* ================================================================== *)

Section GatherFactors.

Variable E : Engine.
Variable crs : QgsCoordinateReferenceSystem.

Lemma gather_factors_large :
  forall points h,
    1000 <= length points ->
    exists h',
      gather_factors E points crs h = (Ok (map (factors_at E crs) points), h') /\
      engine_calls h' =
        engine_calls h ++ flat_map (factor_calls_at crs) points /\
      message_bar h' = [Message "Done" "Factors calculated!" Info] /\
      files h' = files h /\ layers h' = layers h.
Proof.
  intros points h Hlen. unfold gather_factors.
  unfold bind at 1. unfold pushProgressWidget at 1, modify at 1.
  unfold bind at 1.
  match goal with
  | |- context [gather_loop E crs ?len 0 points [] ?h1] =>
      destruct (@gather_loop_large E crs len points 0%Z [] h1)
        as (h' & Hloop & Hc & Hm & Hf & Hl); [lia |]
  end.
  rewrite Hloop. simpl app.
  eexists. split; [reflexivity |]. simpl.
  rewrite Hc, Hf, Hl. simpl. auto.
Qed.

Lemma gather_factors_pyproj_large :
  forall points h,
    1000 <= length points ->
    exists h',
      gather_factors_pyproj E points crs h =
        (Ok (map (pyproj_factors_at E crs) points), h') /\
      engine_calls h' =
        engine_calls h ++ flat_map (pyproj_calls_at crs) points /\
      message_bar h' = [Message "Done" "Factors calculated!" Info] /\
      files h' = files h /\ layers h' = layers h.
Proof.
  intros points h Hlen. unfold gather_factors_pyproj.
  unfold bind at 1. unfold pushProgressWidget at 1, modify at 1.
  unfold bind at 1.
  match goal with
  | |- context [gather_loop_pyproj E (authid crs) ?len 0 points [] ?h1] =>
      destruct (@gather_loop_pyproj_large E crs len points 0%Z [] h1)
        as (h' & Hloop & Hc & Hm & Hf & Hl); [lia |]
  end.
  rewrite Hloop. simpl app.
  eexists. split; [reflexivity |]. simpl.
  rewrite Hc, Hf, Hl. simpl. auto.
Qed.

Lemma gather_factors_empty :
  forall h,
    exists h',
      gather_factors E [] crs h = (Ok [], h') /\
      engine_calls h' = engine_calls h.
Proof.
  intros h. eexists. split; reflexivity.
Qed.

Lemma gather_factors_small :
  forall points h,
    points <> [] -> length points < 1000 ->
    exists h',
      gather_factors E points crs h = (Raise ZeroDivisionError, h') /\
      engine_calls h' = engine_calls h /\
      progress_value h' = 0%Z.
Proof.
  intros [| p points] h Hne Hlen; [contradiction |].
  unfold gather_factors.
  unfold bind at 1. unfold pushProgressWidget at 1, modify at 1.
  unfold bind at 1.
  rewrite gather_loop_small by lia.
  eexists. split; [reflexivity |]. split; reflexivity.
Qed.

Lemma gather_factors_pyproj_small :
  forall points h,
    points <> [] -> length points < 1000 ->
    exists h',
      gather_factors_pyproj E points crs h = (Raise ZeroDivisionError, h') /\
      engine_calls h' = engine_calls h /\
      progress_value h' = 0%Z.
Proof.
  intros [| p points] h Hne Hlen; [contradiction |].
  unfold gather_factors_pyproj.
  unfold bind at 1. unfold pushProgressWidget at 1, modify at 1.
  unfold bind at 1.
  rewrite gather_loop_pyproj_small by lia.
  eexists. split; [reflexivity |]. split; reflexivity.
Qed.

Lemma factor_calls_strictly_inside :
  forall points,
    Forall (strictly_inside_call crs) (flat_map (factor_calls_at crs) points).
Proof.
  induction points as [| [p |] points IH]; simpl; auto.
  destruct (in_geographic_bounds (px p) (py p)) eqn:Hb; simpl; auto.
  constructor; [| exact IH].
  unfold in_geographic_bounds in Hb.
  apply andb_prop in Hb. destruct Hb as [Hy Hx].
  apply andb_prop in Hy. apply andb_prop in Hx.
  exists (mkPoint (px p) (py p)). simpl. tauto.
Qed.

Lemma beyond_bounds_not_inside :
  forall a b,
    on_or_beyond_bounds a b = true -> in_geographic_bounds a b = false.
Proof.
  intros a b H. unfold on_or_beyond_bounds in H.
  unfold in_geographic_bounds.
  repeat (apply orb_prop in H; destruct H as [H | H]);
    apply leb_ltb_false in H; rewrite H; simpl;
    repeat rewrite andb_false_r; reflexivity.
Qed.

End GatherFactors.

(** C7: on a non-empty input of fewer than 1000 points both
    [gather_factors] and [gather_factors_pyproj] raise [ZeroDivisionError]
    in the first iteration: no engine call has been made and the progress
    bar still shows 0.  Hence the calculation completes on a non-empty
    input only from 1000 points on. *)
Theorem gather_factors_below_1000_raises :
  forall (E : Engine) (crs : QgsCoordinateReferenceSystem)
         (points : list (option QgsPointXY)) (h : Host),
    points <> [] ->
    length points < 1000 ->
    (exists h',
        gather_factors E points crs h = (Raise ZeroDivisionError, h') /\
        engine_calls h' = engine_calls h /\ progress_value h' = 0%Z) /\
    (exists h',
        gather_factors_pyproj E points crs h = (Raise ZeroDivisionError, h') /\
        engine_calls h' = engine_calls h /\ progress_value h' = 0%Z).
Proof.
  intros E crs points h Hne Hlen. split.
  - now apply gather_factors_small.
  - now apply gather_factors_pyproj_small.
Qed.

Lemma gather_factors_below_1000_raises_witness :
  (exists h',
      gather_factors Sample.engine [Some (mkPointXY 10 53.5); None]
                     Sample.utm32n (Sample.host Sample.utm32n) =
        (Raise ZeroDivisionError, h') /\
      engine_calls h' = [] /\ progress_value h' = 0%Z) /\
  (exists h',
      gather_factors_pyproj Sample.engine [Some (mkPointXY 10 53.5); None]
                     Sample.utm32n (Sample.host Sample.utm32n) =
        (Raise ZeroDivisionError, h') /\
      engine_calls h' = [] /\ progress_value h' = 0%Z).
Proof.
  apply (@gather_factors_below_1000_raises Sample.engine Sample.utm32n
           [Some (mkPointXY 10 53.5); None] (Sample.host Sample.utm32n)).
  - discriminate.
  - simpl. lia.
Defined.

(** From 1000 points on both functions return one entry per point. *)
Lemma gather_factors_from_1000_returns :
  forall (E : Engine) (crs : QgsCoordinateReferenceSystem)
         (points : list (option QgsPointXY)) (h : Host),
    1000 <= length points ->
    (exists h', gather_factors E points crs h =
                  (Ok (map (factors_at E crs) points), h')) /\
    (exists h', gather_factors_pyproj E points crs h =
                  (Ok (map (pyproj_factors_at E crs) points), h')).
Proof.
  intros E crs points h Hlen. split.
  - destruct (@gather_factors_large E crs points h Hlen) as (h' & H & _).
    eauto.
  - destruct (@gather_factors_pyproj_large E crs points h Hlen) as (h' & H & _).
    eauto.
Qed.

(** C6: a list of one point in range.  The docstring promises a list with
    one entry; the call raises instead. *)
Theorem gather_factors_single_point_raises :
  fst (gather_factors Sample.engine [Some (mkPointXY 10 53.5)]
                      Sample.utm32n (Sample.host Sample.utm32n)) =
  Raise ZeroDivisionError.
Proof. vm_compute. reflexivity. Qed.

(** C10: the range check of [gather_factors] is strict.  Whatever the
    call does, every point it hands to the engine's factor routine has
    -90 < latitude < 90 and -180 < longitude < 180.  When it returns, the
    entry of a point on or beyond an edge (latitude 90 or -90, longitude 180
    or -180, or further out) is [None], and the engine was called for the
    points strictly inside, in order, and for no other.  It does return from
    1000 points on. *)
Theorem gather_factors_strict_bounds :
  forall (E : Engine) (crs : QgsCoordinateReferenceSystem)
         (points : list (option QgsPointXY)) (h h' : Host)
         (r : outcome (list (option factors_object))),
    gather_factors E points crs h = (r, h') ->
    (exists calls,
        engine_calls h' = engine_calls h ++ calls /\
        Forall (strictly_inside_call crs) calls) /\
    (forall factors,
        r = Ok factors ->
        engine_calls h' =
          engine_calls h ++ flat_map (factor_calls_at crs) points /\
        forall i p,
          nth_error points i = Some (Some p) ->
          on_or_beyond_bounds (px p) (py p) = true ->
          nth_error factors i = Some None /\
          factor_calls_at crs (Some p) = []) /\
    (1000 <= length points -> exists factors, r = Ok factors).
Proof.
  intros E crs points h h' r Hrun.
  destruct (Nat.lt_ge_cases (length points) 1000) as [Hsmall | Hlarge].
  - destruct points as [| p0 points].
    + destruct (gather_factors_empty E crs h) as (h1 & Hr & Hc).
      rewrite Hr in Hrun. inversion Hrun; subst.
      split; [| split].
      * exists []. rewrite app_nil_r. auto.
      * intros factors _. simpl. rewrite app_nil_r. split; [assumption |].
        intros [| i] p Hi; discriminate.
      * simpl. lia.
    + destruct (@gather_factors_small E crs (p0 :: points) h)
        as (h1 & Hr & Hc & _); [discriminate | exact Hsmall |].
      rewrite Hr in Hrun. inversion Hrun; subst.
      split; [| split].
      * exists []. rewrite app_nil_r. auto.
      * intros factors Habs. discriminate.
      * intros Habs. lia.
  - destruct (@gather_factors_large E crs points h Hlarge)
      as (h1 & Hr & Hc & _).
    rewrite Hr in Hrun. inversion Hrun; subst.
    split; [| split].
    + exists (flat_map (factor_calls_at crs) points).
      split; [exact Hc | apply factor_calls_strictly_inside].
    + intros factors Hok. inversion Hok; subst. split; [exact Hc |].
      intros i p Hi Hbeyond.
      rewrite nth_error_map, Hi. simpl.
      rewrite (beyond_bounds_not_inside _ _ Hbeyond). auto.
    + eauto.
Qed.

Lemma gather_factors_strict_bounds_witness :
  gather_factors Sample.engine Sample.edge_points Sample.utm32n
                 (Sample.host Sample.utm32n) =
    (fst (gather_factors Sample.engine Sample.edge_points Sample.utm32n
                         (Sample.host Sample.utm32n)),
     snd (gather_factors Sample.engine Sample.edge_points Sample.utm32n
                         (Sample.host Sample.utm32n))) /\
  (forall factors,
      fst (gather_factors Sample.engine Sample.edge_points Sample.utm32n
                          (Sample.host Sample.utm32n)) = Ok factors ->
      engine_calls
        (snd (gather_factors Sample.engine Sample.edge_points Sample.utm32n
                             (Sample.host Sample.utm32n))) =
        engine_calls (Sample.host Sample.utm32n) ++
        flat_map (factor_calls_at Sample.utm32n) Sample.edge_points /\
      forall i p,
        nth_error Sample.edge_points i = Some (Some p) ->
        on_or_beyond_bounds (px p) (py p) = true ->
        nth_error factors i = Some None /\
        factor_calls_at Sample.utm32n (Some p) = []).
Proof.
  split; [apply surjective_pairing |].
  apply (@gather_factors_strict_bounds Sample.engine Sample.utm32n
           Sample.edge_points (Sample.host Sample.utm32n) _ _
           (surjective_pairing _)).
Defined.

(* ================================================================== *)
(** * transform_points *)
(* ================================================================== *)

Section TransformPoints.

Variable E : Engine.
Variables source_crs target_crs : QgsCoordinateReferenceSystem.
Hypothesis engine_contract :
  fails_with_QgsCsException_only E source_crs target_crs.

(** One iteration: the [try] statement around the engine call. *)
Lemma transform_attempt :
  forall point h,
    try_except
      (p <- call_transform E source_crs target_crs point ;; ret (Some p))
      (fun e => match e with
                | QgsCsException => Some (ret None)
                | _ => None
                end) h =
    (Ok (transformed E source_crs target_crs point),
     set_engine_calls
       (engine_calls h ++ [TransformCall source_crs target_crs point]) h).
Proof.
  intros point h.
  unfold try_except, bind, call_transform, log_call, modify, lift, ret,
    transformed. simpl.
  pose proof (engine_contract point) as Hc.
  destruct (transform E source_crs target_crs point) as [q | e |].
  - reflexivity.
  - subst e. reflexivity.
  - contradiction.
Qed.

Lemma transform_loop_spec :
  forall points acc h,
    exists h',
      transform_loop E source_crs target_crs points acc h =
        (Ok (acc ++ map (transformed E source_crs target_crs) points), h') /\
      engine_calls h' =
        engine_calls h ++ map (TransformCall source_crs target_crs) points /\
      message_bar h' = message_bar h /\
      files h' = files h /\ layers h' = layers h.
Proof.
  induction points as [| point points IH]; intros acc h.
  - exists h. simpl. unfold ret. rewrite !app_nil_r. auto.
  - simpl transform_loop. unfold bind at 1.
    rewrite transform_attempt.
    match goal with
    | |- context [transform_loop E source_crs target_crs points ?a ?h1] =>
        destruct (IH a h1) as (h' & Hloop & Hc & Hm & Hf & Hl)
    end.
    exists h'. rewrite Hloop. rewrite <- app_assoc. simpl.
    split; [reflexivity |].
    rewrite Hc, Hm, Hf, Hl. simpl. rewrite <- app_assoc. auto.
Qed.

End TransformPoints.

(** C3: given an engine whose transform fails with the CRS exception
    only, [transform_points] raises nothing and returns a list as long as
    its input, in the input's order: the transformed point where the
    engine returns one, [None] where the engine raises. *)
Theorem transform_points_same_length_none_on_failure :
  forall (E : Engine) (source_crs target_crs : QgsCoordinateReferenceSystem)
         (points : list QgsPointXY) (h : Host),
    fails_with_QgsCsException_only E source_crs target_crs ->
    exists transformed_points h',
      transform_points E points source_crs target_crs h =
        (Ok transformed_points, h') /\
      length transformed_points = length points /\
      forall i point,
        nth_error points i = Some point ->
        nth_error transformed_points i =
          Some (match transform E source_crs target_crs point with
                | Ok point_gcs => Some point_gcs
                | Raise _ => None
                | Timeout => None
                end).
Proof.
  intros E source_crs target_crs points h Hcontract.
  destruct (@transform_loop_spec E source_crs target_crs Hcontract points [] h)
    as (h' & Hrun & _).
  exists (map (transformed E source_crs target_crs) points), h'.
  split; [exact Hrun |]. split; [apply length_map |].
  intros i point Hi. rewrite nth_error_map, Hi. simpl. unfold transformed.
  destruct (transform E source_crs target_crs point); reflexivity.
Qed.

Lemma sample_engine_contract :
  forall source target,
    fails_with_QgsCsException_only Sample.engine source target.
Proof.
  intros source target p. simpl. unfold Sample.sample_transform.
  destruct (px p <? 0)%float; auto.
Qed.

Lemma transform_points_same_length_none_on_failure_witness :
  fails_with_QgsCsException_only Sample.engine Sample.utm32n Sample.wgs84 /\
  exists transformed_points h',
    transform_points Sample.engine
      [mkPointXY 565811 5933977; mkPointXY (-1) 0] Sample.utm32n Sample.wgs84
      (Sample.host Sample.utm32n) = (Ok transformed_points, h') /\
    length transformed_points = 2 /\
    forall i point,
      nth_error [mkPointXY 565811 5933977; mkPointXY (-1) 0] i = Some point ->
      nth_error transformed_points i =
        Some (match transform Sample.engine Sample.utm32n Sample.wgs84 point with
              | Ok point_gcs => Some point_gcs
              | Raise _ => None
              | Timeout => None
              end).
Proof.
  split; [apply sample_engine_contract |].
  apply (@transform_points_same_length_none_on_failure Sample.engine
           Sample.utm32n Sample.wgs84
           [mkPointXY 565811 5933977; mkPointXY (-1) 0]
           (Sample.host Sample.utm32n)).
  apply sample_engine_contract.
Defined.

Example transform_points_sample :
  fst (transform_points Sample.engine
         [mkPointXY 2000 1000; mkPointXY (-1) 0] Sample.utm32n Sample.wgs84
         (Sample.host Sample.utm32n)) =
  Ok [Some (mkPointXY 2 1); None].
Proof. vm_compute. reflexivity. Qed.

(* ================================================================== *)
(** * extract_factor and pack_values *)
(* ================================================================== *)

Section ExtractFactor.

Variable use_proj : bool.
Variable factor : string.
Hypothesis factor_in_table : In factor (factor_names use_proj).

(** A factor of the table in use is an attribute of every object of the
    engine in use, of the kind that [extract_factor] expects. *)
Lemma factor_of_object :
  forall o,
    from_engine_in_use use_proj o = true ->
    exists v,
      factor_float o factor = Some v /\
      (if use_proj then getattr o factor
       else obind (getattr o factor) call) = Ok (PyFloatV v).
Proof.
  intros o Ho. unfold factor_names in factor_in_table.
  destruct use_proj, o as [f | f]; simpl in Ho; try discriminate;
    simpl in factor_in_table;
    repeat (destruct factor_in_table as [<- | factor_in_table];
            [eexists; split; reflexivity |]);
    contradiction.
Qed.

Lemma extract_loop_spec :
  forall projection_factors values,
    all_from_engine_in_use use_proj projection_factors = true ->
    extract_loop use_proj factor projection_factors values =
    Ok (values ++ map (extracted factor) projection_factors).
Proof.
  intros pfs. induction pfs as [| single rest IH]; intros values Hall.
  - simpl. now rewrite app_nil_r.
  - simpl in Hall. apply andb_prop in Hall. destruct Hall as [Hs Hrest].
    change (extract_loop use_proj factor (single :: rest) values)
      with (obind (match single with
                   | None => Ok (PyFloatV nan)
                   | Some o =>
                       if use_proj then getattr o factor
                       else obind (getattr o factor) call
                   end)
                  (fun value =>
                     extract_loop use_proj factor rest (values ++ [value]))).
    assert (Hv : (match single with
                  | None => Ok (PyFloatV nan)
                  | Some o =>
                      if use_proj then getattr o factor
                      else obind (getattr o factor) call
                  end) = Ok (extracted factor single)).
    { destruct single as [o |]; [| reflexivity].
      destruct (factor_of_object o Hs) as (v & Hf & Hg).
      rewrite Hg. simpl. now rewrite Hf. }
    rewrite Hv. simpl obind. rewrite IH by exact Hrest.
    now rewrite <- app_assoc.
Qed.

End ExtractFactor.

Lemma le_bytes_length : forall n z, length (le_bytes n z) = n.
Proof.
  induction n as [| n IH]; intros z; simpl; [reflexivity |].
  destruct (Byte.of_N (Z.to_N (z mod 256))); simpl; now rewrite IH.
Qed.

(** Floats pack into eight bytes each, in order. *)
Lemma pack_values_floats :
  forall values,
    forallb is_float values = true ->
    pack_values values = Ok (flat_map float_bytes values).
Proof.
  induction values as [| v values IH]; intros Hall; [reflexivity |].
  simpl in Hall. apply andb_prop in Hall. destruct Hall as [Hv Hrest].
  destruct v as [f | m | c d]; try discriminate.
  simpl. now rewrite IH.
Qed.

Lemma flat_map_float_bytes_length :
  forall values,
    forallb is_float values = true ->
    length (flat_map float_bytes values) = 8 * length values.
Proof.
  induction values as [| v values IH]; intros Hall; [reflexivity |].
  simpl in Hall. apply andb_prop in Hall. destruct Hall as [Hv Hrest].
  destruct v as [f | m | c d]; try discriminate.
  cbn [flat_map float_bytes]. rewrite length_app, le_bytes_length.
  rewrite IH by assumption.
  simpl length. lia.
Qed.

(** The bytes of the value at index [i] sit at offset [8 * i]. *)
Lemma flat_map_float_bytes_at :
  forall values i f,
    forallb is_float values = true ->
    nth_error values i = Some (PyFloatV f) ->
    firstn 8 (skipn (8 * i) (flat_map float_bytes values)) =
    le_bytes 8 (PyFloat.bits f).
Proof.
  induction values as [| v values IH]; intros i f Hall Hi.
  - destruct i; discriminate.
  - simpl in Hall. apply andb_prop in Hall. destruct Hall as [Hv Hrest].
    destruct i as [| i].
    + simpl in Hi. inversion Hi; subst v.
      cbn [flat_map float_bytes]. rewrite Nat.mul_0_r. cbn [skipn].
      rewrite firstn_app, le_bytes_length, Nat.sub_diag. simpl firstn at 2.
      rewrite app_nil_r. apply firstn_all2. now rewrite le_bytes_length.
    + simpl in Hi. destruct v as [g | m | c d]; try discriminate.
      cbn [flat_map float_bytes].
      replace (8 * S i) with (length (le_bytes 8 (PyFloat.bits g)) + 8 * i)
        by (rewrite le_bytes_length; lia).
      rewrite skipn_app.
      rewrite (@skipn_all2 _ (length (le_bytes 8 (PyFloat.bits g)) + 8 * i)
                 (le_bytes 8 (PyFloat.bits g))) by lia.
      replace (length (le_bytes 8 (PyFloat.bits g)) + 8 * i
               - length (le_bytes 8 (PyFloat.bits g))) with (8 * i) by lia.
      rewrite app_nil_l. now apply IH.
Qed.

Lemma extracted_is_float :
  forall factor projection_factors,
    forallb is_float (map (extracted factor) projection_factors) = true.
Proof.
  intros factor pfs. induction pfs as [| [o |] rest IH]; simpl; auto.
  unfold extracted. destruct (factor_float o factor); simpl; exact IH.
Qed.

(** C4, as stated, fails in three ways.  With the QGIS engine in use, a
    valid result whose areal scale is NaN gives NaN at its own position,
    which holds no [None]: the list is [[nan; nan]] for one object and
    one [None].  A result of the other engine (a pyproj object while the
    QGIS engine is in use) raises [TypeError], and a name that is no
    factor of the table in use raises [AttributeError]: no list is
    returned. *)
Lemma extract_factor_nan_beyond_none :
  (extract_factor false [Some (QgsFactors nan_scale_factors); None]
     "arealScale" = Ok [PyFloatV nan; PyFloatV nan] /\
   ~ nan_precisely_at_none [Some (QgsFactors nan_scale_factors); None]
       [PyFloatV nan; PyFloatV nan]) /\
  extract_factor false
    [Some (ProjFactors (Sample.sample_get_factors "EPSG:25832" 10 2))]
    "areal_scale" = Raise TypeError /\
  extract_factor false
    [Some (QgsFactors (Sample.sample_factors Sample.utm32n (mkPoint 10 2)))]
    "areal_scale" = Raise AttributeError.
Proof.
  split; [split |]; [vm_compute; reflexivity | | split; vm_compute; reflexivity].
  intros [_ Hprecisely].
  destruct (Hprecisely 0%nat) as [Hnan _].
  assert (Hnone : nth_error [Some (QgsFactors nan_scale_factors); None] 0 =
                  Some None).
  { apply Hnan. exists (PyFloatV nan). split; reflexivity. }
  discriminate Hnone.
Qed.

(** C4, amended: for a factor name of the table in use and results of the
    engine in use, [extract_factor] returns one value per entry, in
    order: NaN where the entry is [None], the engine's value of the
    factor elsewhere.  A NaN is thus at the positions of [None] and at
    those whose object gives NaN for the factor, and nowhere else.  No
    entry is dropped, so [pack_values] yields eight bytes per entry and
    the bytes of the entry at index [i] sit at offset [8 * i]; for a
    [None] entry they are the bytes of NaN. *)
Theorem extract_factor_nan_for_none :
  forall (use_proj : bool) (factor : string)
         (projection_factors : list (option factors_object)),
    In factor (factor_names use_proj) ->
    all_from_engine_in_use use_proj projection_factors = true ->
    exists values data,
      extract_factor use_proj projection_factors factor = Ok values /\
      length values = length projection_factors /\
      (forall i,
          nth_error projection_factors i = Some None ->
          nth_error values i = Some (PyFloatV nan)) /\
      (forall i o,
          nth_error projection_factors i = Some (Some o) ->
          exists v,
            factor_float o factor = Some v /\
            nth_error values i = Some (PyFloatV v)) /\
      (forall i,
          (exists v, nth_error values i = Some v /\ is_nan_value v = true) <->
          (nth_error projection_factors i = Some None \/
           exists o f,
             nth_error projection_factors i = Some (Some o) /\
             factor_float o factor = Some f /\ is_nan f = true)) /\
      pack_values values = Ok data /\
      length data = 8 * length projection_factors /\
      (forall i,
          nth_error projection_factors i = Some None ->
          firstn 8 (skipn (8 * i) data) = nan_bytes).
Proof.
  intros use_proj factor projection_factors Hname Hall.
  exists (map (extracted factor) projection_factors),
         (flat_map float_bytes (map (extracted factor) projection_factors)).
  pose proof (extracted_is_float factor projection_factors) as Hfloat.
  split; [| split; [| split; [| split; [| split; [| split; [| split]]]]]].
  - unfold extract_factor. now rewrite extract_loop_spec.
  - apply length_map.
  - intros i Hi. now rewrite nth_error_map, Hi.
  - intros i o Hi.
    assert (Ho : from_engine_in_use use_proj o = true).
    { unfold all_from_engine_in_use in Hall. rewrite forallb_forall in Hall.
      apply (Hall (Some o)). eapply nth_error_In; eauto. }
    destruct (@factor_of_object use_proj factor Hname o Ho) as (v & Hf & _).
    exists v. split; [exact Hf |].
    rewrite nth_error_map, Hi. simpl. now rewrite Hf.
  - intros i. rewrite nth_error_map.
    destruct (nth_error projection_factors i) as [[o |] |] eqn:Hi; simpl.
    + assert (Ho : from_engine_in_use use_proj o = true).
      { unfold all_from_engine_in_use in Hall. rewrite forallb_forall in Hall.
        apply (Hall (Some o)). eapply nth_error_In; eauto. }
      destruct (@factor_of_object use_proj factor Hname o Ho) as (v & Hf & _).
      rewrite Hf. split.
      * intros (v' & Hv & Hnan). inversion Hv; subst v'.
        right. exists o, v. auto.
      * intros [Hnone | (o' & f & Ho' & Hf' & Hnan)]; [discriminate |].
        inversion Ho'; subst o'. rewrite Hf in Hf'. inversion Hf'; subst f.
        exists (PyFloatV v). auto.
    + split; [now left |].
      intros _. exists (PyFloatV nan). split; reflexivity.
    + split.
      * intros (v & Hv & _). discriminate.
      * intros [Hnone | (o & f & Ho & _)]; discriminate.
  - now apply pack_values_floats.
  - rewrite flat_map_float_bytes_length by assumption. now rewrite length_map.
  - intros i Hi.
    rewrite (@flat_map_float_bytes_at _ i nan Hfloat).
    + reflexivity.
    + now rewrite nth_error_map, Hi.
Qed.

(** One object of NaN areal scale between a regular one and a [None]:
    the values are [5], NaN, NaN. *)
Lemma extract_factor_nan_for_none_witness :
  In "arealScale"%string (factor_names false) /\
  all_from_engine_in_use false
    [Some (QgsFactors (Sample.sample_factors Sample.utm32n (mkPoint 10 2)));
     Some (QgsFactors nan_scale_factors); None] = true /\
  exists values data,
    extract_factor false
      [Some (QgsFactors (Sample.sample_factors Sample.utm32n (mkPoint 10 2)));
       Some (QgsFactors nan_scale_factors); None] "arealScale" = Ok values /\
    length values = 3 /\
    (forall i,
        nth_error
          [Some (QgsFactors (Sample.sample_factors Sample.utm32n (mkPoint 10 2)));
           Some (QgsFactors nan_scale_factors); None] i = Some None ->
        nth_error values i = Some (PyFloatV nan)) /\
    (forall i o,
        nth_error
          [Some (QgsFactors (Sample.sample_factors Sample.utm32n (mkPoint 10 2)));
           Some (QgsFactors nan_scale_factors); None] i = Some (Some o) ->
        exists v,
          factor_float o "arealScale" = Some v /\
          nth_error values i = Some (PyFloatV v)) /\
    (forall i,
        (exists v, nth_error values i = Some v /\ is_nan_value v = true) <->
        (nth_error
           [Some (QgsFactors (Sample.sample_factors Sample.utm32n (mkPoint 10 2)));
            Some (QgsFactors nan_scale_factors); None] i = Some None \/
         exists o f,
           nth_error
             [Some (QgsFactors (Sample.sample_factors Sample.utm32n (mkPoint 10 2)));
              Some (QgsFactors nan_scale_factors); None] i = Some (Some o) /\
           factor_float o "arealScale" = Some f /\ is_nan f = true)) /\
    pack_values values = Ok data /\
    length data = 24 /\
    (forall i,
        nth_error
          [Some (QgsFactors (Sample.sample_factors Sample.utm32n (mkPoint 10 2)));
           Some (QgsFactors nan_scale_factors); None] i = Some None ->
        firstn 8 (skipn (8 * i) data) = nan_bytes).
Proof.
  split; [simpl; tauto |]. split; [reflexivity |].
  apply (@extract_factor_nan_for_none false "arealScale"
           [Some (QgsFactors (Sample.sample_factors Sample.utm32n (mkPoint 10 2)));
            Some (QgsFactors nan_scale_factors); None]).
  - simpl. tauto.
  - reflexivity.
Defined.

Example extract_factor_sample :
  extract_factor false
    [Some (QgsFactors (Sample.sample_factors Sample.utm32n (mkPoint 10 2)));
     Some (QgsFactors nan_scale_factors); None] "arealScale" =
  Ok [PyFloatV 5; PyFloatV nan; PyFloatV nan].
Proof. vm_compute. reflexivity. Qed.

(* ================================================================== *)
(** * write_factors_to_tif *)
(* ================================================================== *)

Lemma update_nth_app :
  forall (A : Type) (f : A -> A) (done : list A) (a : A) (todo : list A),
    update_nth (length done) f (done ++ a :: todo) = done ++ f a :: todo.
Proof.
  induction done as [| d done IH]; intros a todo; simpl; [reflexivity |].
  now rewrite IH.
Qed.

Section WriteFactors.

Variable USE_PYPROJ : bool.
Variable raster_file_path : string.
Variable factors : list (option factors_object).
Variables cols rows : Z.
Hypothesis factors_from_engine :
  all_from_engine_in_use USE_PYPROJ factors = true.
Hypothesis block_matches : (cols * rows)%Z = Z.of_nat (length factors).

(** A band update on a raster file whose first [length done] bands are
    [done]. *)
Lemma update_band_spec :
  forall (f : band -> band) r done b todo h,
    lookup raster_file_path (files h) =
      Some (RasterFile (with_bands r (done ++ b :: todo))) ->
    exists h',
      update_band raster_file_path (S (length done)) f h = (Ok tt, h') /\
      lookup raster_file_path (files h') =
        Some (RasterFile (with_bands r (done ++ f b :: todo))) /\
      message_bar h' = message_bar h /\
      engine_calls h' = engine_calls h /\ layers h' = layers h.
Proof.
  intros f r done b todo h Hfile.
  unfold update_band, bind, read_file. rewrite Hfile.
  unfold write_file, modify. eexists. split; [reflexivity |].
  simpl. rewrite String.eqb_refl. rewrite Nat.sub_0_r, update_nth_app.
  auto.
Qed.

Lemma write_bands_spec :
  forall items r done todo h,
    (forall item, In item items -> In (fst item) (factor_names USE_PYPROJ)) ->
    length todo = length items ->
    lookup raster_file_path (files h) =
      Some (RasterFile (with_bands r (done ++ todo))) ->
    exists h',
      write_bands USE_PYPROJ raster_file_path factors cols rows
                  (S (length done)) items h = (Ok tt, h') /\
      lookup raster_file_path (files h') =
        Some (RasterFile
                (with_bands r (done ++ map (factor_band factors) items))) /\
      message_bar h' = message_bar h /\
      engine_calls h' = engine_calls h /\ layers h' = layers h.
Proof.
  induction items as [| [factor factor_text] items IH];
    intros r done todo h Hnames Hlen Hfile.
  - destruct todo; [| discriminate]. exists h. simpl. unfold ret. auto.
  - destruct todo as [| b todo]; [discriminate |].
    simpl in Hlen. injection Hlen as Hlen.
    assert (Hname : In factor (factor_names USE_PYPROJ))
      by (apply (Hnames (factor, factor_text)); now left).
    cbn [write_bands]. unfold bind at 1. unfold lift at 1.
    unfold extract_factor.
    rewrite (@extract_loop_spec USE_PYPROJ factor Hname) by exact factors_from_engine.
    simpl app.
    unfold bind at 1. unfold lift at 1.
    rewrite pack_values_floats by apply extracted_is_float.
    unfold bind at 1. unfold lift at 1, py_assert.
    rewrite length_map, block_matches, Z.eqb_refl.
    unfold bind at 1. unfold writeBlock.
    destruct (@update_band_spec
                (fun b0 => mkBand (Some (flat_map float_bytes
                               (map (extracted factor) factors)))
                             (band_nodata b0)) r done b todo h Hfile)
      as (h1 & -> & Hfile1 & Hm1 & Hc1 & Hl1).
    unfold bind at 1. unfold setNoDataValue.
    destruct (@update_band_spec
                (fun b0 => mkBand (band_data b0) (Some nan)) r done _ todo h1
                Hfile1)
      as (h2 & -> & Hfile2 & Hm2 & Hc2 & Hl2).
    simpl in Hfile2.
    specialize (IH r (done ++ [factor_band factors (factor, factor_text)])
                   todo h2).
    rewrite length_app, Nat.add_comm in IH. simpl in IH.
    destruct IH as (h' & Hrun & Hfile' & Hm' & Hc' & Hl').
    + intros item Hin. apply Hnames. now right.
    + exact Hlen.
    + rewrite <- app_assoc. exact Hfile2.
    + exists h'. split; [exact Hrun |].
      rewrite <- app_assoc in Hfile'. simpl in Hfile'.
      split; [exact Hfile' |]. rewrite Hm', Hc', Hl'. auto.
      rewrite Hm2, Hm1, Hc2, Hc1, Hl2, Hl1. auto.
Qed.

End WriteFactors.

(** C8: when the factors come from the engine in use and the block size
    [cols * rows] is the number of values, [write_factors_to_tif] leaves a
    Float64 raster of [cols] by [rows] at the given path with twelve bands,
    one per entry of the factor table and in the table's order: band [k]
    holds the packed doubles of the values of the [k]-th factor, in input
    order, and has NaN as its no-data value. *)
Theorem write_factors_to_tif_one_band_per_factor :
  forall (USE_PYPROJ : bool) (raster_file_path : string)
         (factors : list (option factors_object)) (extent : QgsRectangle)
         (crs : QgsCoordinateReferenceSystem) (cols rows : Z) (h : Host),
    all_from_engine_in_use USE_PYPROJ factors = true ->
    (cols * rows)%Z = Z.of_nat (length factors) ->
    exists h' r,
      write_factors_to_tif USE_PYPROJ raster_file_path factors extent crs
                           cols rows h = (Ok tt, h') /\
      lookup raster_file_path (files h') = Some (RasterFile r) /\
      raster_type r = Float64 /\
      raster_cols r = cols /\ raster_rows r = rows /\
      length (projection_factors USE_PYPROJ) = 12 /\
      length (raster_bands r) = 12 /\
      forall k factor factor_text,
        nth_error (projection_factors USE_PYPROJ) k =
          Some (factor, factor_text) ->
        exists values data,
          extract_factor USE_PYPROJ factors factor = Ok values /\
          pack_values values = Ok data /\
          data = flat_map float_bytes values /\
          nth_error (raster_bands r) k =
            Some (mkBand (Some data) (Some nan)).
Proof.
  intros USE_PYPROJ raster_file_path factors extent crs cols rows h
         Hengine Hblock.
  unfold write_factors_to_tif, createMultiBandRaster.
  unfold bind at 1. unfold write_file at 1, modify at 1.
  set (r0 := mkRaster "GTiff"
               ["COMPRESS=ZSTD"; "ZSTD_LEVEL=9"; "TILED=YES"; "PREDICTOR=3"]%string
               Float64 cols rows extent crs []).
  set (h1 := set_files _ h).
  assert (Hfile : lookup raster_file_path (files h1) =
                  Some (RasterFile
                          (with_bands r0
                             ([] ++ repeat (mkBand None None)
                                      (length (projection_factors USE_PYPROJ))))))
    by (subst h1; simpl files; apply lookup_store_same).
  destruct (@write_bands_spec USE_PYPROJ raster_file_path factors cols rows
              Hengine Hblock (projection_factors USE_PYPROJ) r0 []
              (repeat (mkBand None None)
                      (length (projection_factors USE_PYPROJ))) h1)
    as (h' & Hrun & Hfile' & _).
  - intros item Hin. unfold factor_names. now apply in_map.
  - apply repeat_length.
  - exact Hfile.
  - simpl length in Hrun. simpl app in Hfile'.
    exists h', (with_bands r0 (map (factor_band factors)
                                   (projection_factors USE_PYPROJ))).
    split; [exact Hrun |]. split; [exact Hfile' |].
    split; [reflexivity |]. split; [reflexivity |]. split; [reflexivity |].
    split; [destruct USE_PYPROJ; reflexivity |].
    split; [simpl; rewrite length_map; destruct USE_PYPROJ; reflexivity |].
    intros k factor factor_text Hk.
    assert (Hname : In factor (factor_names USE_PYPROJ)).
    { unfold factor_names.
      change factor with (fst (factor, factor_text)).
      apply in_map. eapply nth_error_In; eauto. }
    exists (map (extracted factor) factors),
           (flat_map float_bytes (map (extracted factor) factors)).
    split.
    { unfold extract_factor.
      now rewrite (@extract_loop_spec USE_PYPROJ factor Hname). }
    split; [apply pack_values_floats, extracted_is_float |].
    split; [reflexivity |].
    simpl raster_bands. rewrite nth_error_map, Hk. reflexivity.
Qed.

Lemma write_factors_to_tif_one_band_per_factor_witness :
  all_from_engine_in_use false
    [Some (QgsFactors (Sample.sample_factors Sample.utm32n (mkPoint 10 2)));
     None] = true /\
  (2 * 1)%Z = Z.of_nat 2 /\
  exists h' r,
    write_factors_to_tif false "/tmp/out.tif"
      [Some (QgsFactors (Sample.sample_factors Sample.utm32n (mkPoint 10 2)));
       None]
      (mkRectangle 0 0 2 1) Sample.utm32n 2 1 (Sample.host Sample.utm32n) =
      (Ok tt, h') /\
    lookup "/tmp/out.tif" (files h') = Some (RasterFile r) /\
    raster_type r = Float64 /\
    raster_cols r = 2%Z /\ raster_rows r = 1%Z /\
    length (projection_factors false) = 12 /\
    length (raster_bands r) = 12 /\
    forall k factor factor_text,
      nth_error (projection_factors false) k = Some (factor, factor_text) ->
      exists values data,
        extract_factor false
          [Some (QgsFactors (Sample.sample_factors Sample.utm32n (mkPoint 10 2)));
           None] factor = Ok values /\
        pack_values values = Ok data /\
        data = flat_map float_bytes values /\
        nth_error (raster_bands r) k = Some (mkBand (Some data) (Some nan)).
Proof.
  split; [reflexivity |]. split; [reflexivity |].
  apply (@write_factors_to_tif_one_band_per_factor false "/tmp/out.tif"
           [Some (QgsFactors (Sample.sample_factors Sample.utm32n (mkPoint 10 2)));
            None]
           (mkRectangle 0 0 2 1) Sample.utm32n 2 1 (Sample.host Sample.utm32n)).
  - reflexivity.
  - reflexivity.
Defined.

(** Without a matching block size nothing is written: the assertion of
    the first band fails. *)
Example write_factors_to_tif_block_mismatch :
  fst (write_factors_to_tif false "/tmp/out.tif" [None] (mkRectangle 0 0 2 2)
         Sample.utm32n 2 2 (Sample.host Sample.utm32n)) =
  Raise AssertionError.
Proof. vm_compute. reflexivity. Qed.

(* ================================================================== *)
(** * create_vrt_for_factors_tif *)
(* ================================================================== *)

Section ElementInduction.

Variable P : element -> Prop.
Hypothesis step :
  forall tag attrib text children,
    Forall P children -> P (Element tag attrib text children).

Lemma element_ind_forall : forall e, P e.
Proof.
  fix IH 1. intros [tag attrib text children]. apply step.
  revert children. fix IHchildren 1. intros [| c cs].
  - constructor.
  - constructor; [apply IH | apply IHchildren].
Qed.

End ElementInduction.

Lemma describe_unfold :
  forall names tag attrib text children,
    describe names (Element tag attrib text children) =
    let here :=
      if String.eqb tag "VRTRasterBand" then hd_error names else None in
    let names1 := match here with Some _ => tl names | None => names end in
    let '(children', names2) := describe_all children names1 in
    (Element tag attrib text
       (children' ++ match here with
                     | Some n => [Element "Description" [] (Some n) []]
                     | None => []
                     end),
     names2).
Proof. reflexivity. Qed.

Section DescribeBands.

Local Abbreviation T := "VRTRasterBand"%string.

Lemma describe_without_names :
  forall e, describe [] e = (e, []).
Proof.
  apply element_ind_forall. intros tag attrib text children IH.
  rewrite describe_unfold.
  assert (Hall : describe_all children [] = (children, [])).
  { induction IH as [| c cs Hc _ IHcs]; simpl; [reflexivity |].
    now rewrite Hc, IHcs. }
  destruct (String.eqb tag "VRTRasterBand"); simpl;
    rewrite Hall, app_nil_r; reflexivity.
Qed.

Lemma describe_all_without_names :
  forall cs, describe_all cs [] = (cs, []).
Proof.
  induction cs as [| c cs IH]; simpl; [reflexivity |].
  now rewrite describe_without_names, IH.
Qed.

Lemma iter_head :
  forall tag e, iter tag e = [] -> String.eqb (tag_of e) tag = false.
Proof.
  intros tag [t a x cs] H. simpl in *.
  destruct (String.eqb t tag); [discriminate | reflexivity].
Qed.

(** A subtree without bands is left as it is and uses no name. *)
Lemma describe_without_bands :
  forall e names, iter T e = [] -> describe names e = (e, names).
Proof.
  apply (@element_ind_forall
           (fun e => forall names, iter T e = [] ->
                                   describe names e = (e, names))).
  intros tag attrib text children IH names Hnone.
  rewrite describe_unfold.
  simpl in Hnone.
  destruct (String.eqb tag T); [discriminate |]. simpl in Hnone |- *.
  assert (Hall : describe_all children names = (children, names)).
  { clear - IH Hnone. revert names.
    induction IH as [| c cs Hc _ IHcs]; intros names; simpl;
      [reflexivity |].
    simpl in Hnone. apply app_eq_nil in Hnone. destruct Hnone as [H1 H2].
    rewrite (Hc names H1), (IHcs H2). reflexivity. }
  rewrite Hall, app_nil_r. reflexivity.
Qed.

Lemma describe_all_without_bands :
  forall cs names,
    flat_map (iter T) cs = [] -> describe_all cs names = (cs, names).
Proof.
  induction cs as [| c cs IH]; intros names Hnone; simpl; [reflexivity |].
  simpl in Hnone. apply app_eq_nil in Hnone. destruct Hnone as [H1 H2].
  now rewrite (describe_without_bands c names H1), (IH names H2).
Qed.

Lemma bands_described_refl :
  forall bands, bands_described [] bands bands.
Proof.
  intros bands. split; [reflexivity |].
  intros i band Hi. now destruct i.
Qed.

Lemma bands_described_app :
  forall names before1 after1 before2 after2,
    bands_described names before1 after1 ->
    bands_described (skipn (length before1) names) before2 after2 ->
    bands_described names (before1 ++ before2) (after1 ++ after2).
Proof.
  intros names before1 after1 before2 after2 [Hlen1 H1] [Hlen2 H2].
  split; [rewrite !length_app; congruence |].
  intros i band Hi.
  destruct (Nat.lt_ge_cases i (length before1)) as [Hlt | Hge].
  - rewrite nth_error_app1 in Hi by exact Hlt.
    specialize (H1 i band Hi).
    destruct (nth_error names i) as [name |].
    + destruct H1 as (band' & Hi' & Hd). exists band'.
      rewrite nth_error_app1 by (rewrite Hlen1; exact Hlt). auto.
    + rewrite nth_error_app1 by (rewrite Hlen1; exact Hlt). exact H1.
  - rewrite nth_error_app2 in Hi by exact Hge.
    specialize (H2 (i - length before1) band Hi).
    rewrite nth_error_skipn in H2.
    replace (length before1 + (i - length before1)) with i in H2 by lia.
    rewrite nth_error_app2 by (rewrite Hlen1; exact Hge).
    rewrite Hlen1. exact H2.
Qed.

Lemma walk_all_from_each :
  forall cs, Forall walk_ok cs -> walk_all_ok cs.
Proof.
  induction 1 as [| c cs Hc _ IH]; intros names.
  - simpl. repeat split. intros i band Hi. now destruct i.
  - simpl. destruct (Hc names) as [Hs Hd].
    destruct (describe names c) as [c' ns1] eqn:Ec. simpl in Hs, Hd.
    destruct (IH ns1) as (Hl & Hs' & Hd').
    destruct (describe_all cs ns1) as [cs' ns2] eqn:Ecs. simpl in *.
    split; [congruence |]. split.
    + rewrite Hs', Hs, length_app, skipn_skipn. f_equal. lia.
    + apply bands_described_app; [exact Hd |]. rewrite <- Hs. exact Hd'.
Qed.

Lemma walk_ok_all : forall e, walk_ok e.
Proof.
  apply element_ind_forall. intros tag attrib text children IH names.
  apply walk_all_from_each in IH.
  rewrite describe_unfold. cbv zeta.
  destruct (String.eqb tag T) eqn:Etag.
  - destruct names as [| name names].
    + simpl hd_error. cbv iota beta zeta.
      rewrite describe_all_without_names. simpl fst. simpl snd.
      rewrite app_nil_r. split; [now rewrite skipn_nil |].
      apply bands_described_refl.
    + simpl hd_error. simpl tl. cbv iota beta zeta.
      destruct (IH names) as (Hl & Hs & Hd).
      destruct (describe_all children names) as [cs' ns2] eqn:Ecs.
      simpl in Hl, Hs, Hd. simpl fst. simpl snd.
      apply String.eqb_eq in Etag. subst tag.
      split.
      * simpl. exact Hs.
      * simpl.
        rewrite flat_map_app. simpl. rewrite app_nil_r.
        destruct Hd as [Hlen Hd]. split; [simpl; congruence |].
        intros [| i] band Hi.
        -- cbn in Hi. inversion Hi; subst band. cbn [nth_error].
           eexists. split; [reflexivity |].
           exists cs'. split; [reflexivity |]. split; [exact Hl |].
           intros Hone.
           assert (Hnone : flat_map (iter T) children = []).
           { cbn in Hone. injection Hone as Hone. exact Hone. }
           rewrite (describe_all_without_bands children names Hnone) in Ecs.
           now inversion Ecs.
        -- simpl in Hi |- *. apply (Hd i band Hi).
  - cbv iota beta zeta.
    destruct (IH names) as (Hl & Hs & Hd).
    destruct (describe_all children names) as [cs' ns2] eqn:Ecs.
    simpl in Hl, Hs, Hd. simpl fst. simpl snd. rewrite app_nil_r.
    simpl. rewrite Etag. simpl. auto.
Qed.

End DescribeBands.

(** C9: [create_vrt_for_factors_tif] has the engine build the VRT of the
    raster at [tif_path ++ ".vrt"], rewrites that file and returns its
    path.  The rewritten document has the bands of the built one, and for
    every position of the factor table its band is the built band with a
    new last child: an element of tag [Description] whose text is the
    display name at that position.  The i-th band is paired with the i-th
    name; the children before the new one are those of the built band
    (walked in their turn, should the band hold bands). *)
Theorem create_vrt_for_factors_tif_describes_bands :
  forall (E : Engine) (USE_PYPROJ : bool) (tif_path : string) (h : Host),
    exists h' root',
      create_vrt_for_factors_tif E USE_PYPROJ tif_path h =
        (Ok (tif_path ++ ".vrt")%string, h') /\
      lookup (tif_path ++ ".vrt")%string (files h') = Some (VrtFile root') /\
      length (iter "VRTRasterBand" root') =
        length (iter "VRTRasterBand" (buildvirtualraster E (files h) tif_path)) /\
      forall i band factor factor_name,
        nth_error (iter "VRTRasterBand"
                        (buildvirtualraster E (files h) tif_path)) i =
          Some band ->
        nth_error (projection_factors USE_PYPROJ) i =
          Some (factor, factor_name) ->
        exists children',
          nth_error (iter "VRTRasterBand" root') i =
            Some (Element "VRTRasterBand" (attrib_of band) (text_of band)
                    (children' ++
                     [Element "Description" [] (Some factor_name) []])) /\
          length children' = length (children_of band) /\
          (iter "VRTRasterBand" band = [band] ->
           children' = children_of band).
Proof.
  intros E USE_PYPROJ tif_path h.
  set (root := buildvirtualraster E (files h) tif_path).
  set (names := map snd (projection_factors USE_PYPROJ)).
  exists (set_files
            (store (tif_path ++ ".vrt")
               (VrtFile (fst (describe names root)))
               (store (tif_path ++ ".vrt") (VrtFile root) (files h))) h),
         (fst (describe names root)).
  split.
  { unfold create_vrt_for_factors_tif, bind, get_host, write_file, modify,
      read_file. simpl files. rewrite lookup_store_same. reflexivity. }
  split; [simpl files; apply lookup_store_same |].
  destruct (walk_ok_all root names) as [_ [Hlen Hbands]].
  split; [exact Hlen |].
  intros i band factor factor_name Hband Hname.
  specialize (Hbands i band Hband).
  assert (Hn : nth_error names i = Some factor_name)
    by (subst names; rewrite nth_error_map, Hname; reflexivity).
  rewrite Hn in Hbands.
  destruct Hbands as (band' & Hband' & children' & -> & Hlength & Hsame).
  exists children'. auto.
Qed.

(** On a host that holds the written raster of twelve bands, the built
    VRT has twelve bands, and the third of the rewritten document is the
    built one with the third display name of the QGIS table. *)
Lemma create_vrt_for_factors_tif_describes_bands_witness :
  length (iter "VRTRasterBand"
            (buildvirtualraster Sample.engine (files written_host)
               "/tmp/out.tif")) = 12 /\
  exists h' root',
    create_vrt_for_factors_tif Sample.engine false "/tmp/out.tif"
                               written_host =
      (Ok "/tmp/out.tif.vrt"%string, h') /\
    lookup "/tmp/out.tif.vrt"%string (files h') = Some (VrtFile root') /\
    length (iter "VRTRasterBand" root') = 12 /\
    nth_error (iter "VRTRasterBand" root') 2 =
      Some (Element "VRTRasterBand" [("dataType", "Float64")] None
              [Element "NoDataValue" [] (Some "nan") [];
               Element "Description" []
                 (Some "Partial derivative ∂x/∂λ") []])%string.
Proof.
  split; [vm_compute; reflexivity |].
  destruct (create_vrt_for_factors_tif_describes_bands
              Sample.engine false "/tmp/out.tif" written_host)
    as (h' & root' & Hrun & Hfile & Hlength & Hbands).
  exists h', root'.
  split; [exact Hrun |]. split; [exact Hfile |].
  split; [rewrite Hlength; vm_compute; reflexivity |].
  destruct (Hbands 2%nat
              (Element "VRTRasterBand" [("dataType", "Float64")] None
                 [Element "NoDataValue" [] (Some "nan") []])%string
              "dxDlam"%string "Partial derivative ∂x/∂λ"%string)
    as (children' & Hband' & _ & Hsame);
    [vm_compute; reflexivity | vm_compute; reflexivity |].
  rewrite Hband', (Hsame eq_refl). reflexivity.
Defined.

(** A raster of two bands: the first two names of the table are used. *)
Example describe_two_bands :
  fst (describe (map snd PROJECTION_FACTORS_QGIS)
         (Element "VRTDataset" [] None
            [Element "SRS" [] (Some "EPSG:25832") [];
             Element "VRTRasterBand" [("band", "1")] None
               [Element "NoDataValue" [] (Some "nan") []];
             Element "VRTRasterBand" [("band", "2")] None []]%string)) =
  Element "VRTDataset" [] None
    [Element "SRS" [] (Some "EPSG:25832") [];
     Element "VRTRasterBand" [("band", "1")] None
       [Element "NoDataValue" [] (Some "nan") [];
        Element "Description" [] (Some "Angular Distortion") []];
     Element "VRTRasterBand" [("band", "2")] None
       [Element "Description" [] (Some "Areal Scale") []]]%string.
Proof. vm_compute. reflexivity. Qed.

(* ================================================================== *)
(** * create_points *)
(* ================================================================== *)

Section Frange.

Local Open Scope float_scope.

Variables start stop step : float.

(** What a finished [frange] has yielded: the values at the counters it
    went through, each below [stop], and it ended because the next value
    is not below [stop]. *)
Lemma frange_from_spec :
  forall fuel i l,
    frange_from fuel (Z.of_nat i) start stop step = Ok l ->
    (forall k, (k < length l)%nat ->
               nth_error l k = Some (frange_value start step (i + k)) /\
               (frange_value start step (i + k) <? stop) = true) /\
    (frange_value start step (i + length l) <? stop) = false.
Proof.
  induction fuel as [| fuel IH]; intros i l Hrun; [discriminate |].
  cbn [frange_from] in Hrun. unfold PyFloat.float_of_int in Hrun.
  destruct (2 ^ 1024 <=? Z.abs (Z.of_nat i))%Z; [discriminate |].
  destruct (is_infinity (PyFloat.of_Z (Z.of_nat i))); [discriminate |].
  cbn [obind] in Hrun.
  destruct (start + PyFloat.of_Z (Z.of_nat i) * step <? stop) eqn:Hguard.
  - replace (Z.of_nat i + 1)%Z with (Z.of_nat (S i)) in Hrun by lia.
    destruct (frange_from fuel (Z.of_nat (S i)) start stop step)
      as [rest | |] eqn:Hrest; try discriminate.
    cbn [obind] in Hrun. injection Hrun as <-.
    destruct (IH (S i) rest Hrest) as [Hvalues Hend].
    split.
    + intros [| k] Hk.
      * rewrite Nat.add_0_r. split; [reflexivity | exact Hguard].
      * simpl in Hk. replace (i + S k)%nat with (S i + k)%nat by lia.
        apply Hvalues. lia.
    + simpl length. replace (i + S (length rest))%nat
        with (S i + length rest)%nat by lia. exact Hend.
  - injection Hrun as <-. split.
    + intros k Hk. simpl in Hk. lia.
    + simpl length. rewrite Nat.add_0_r. exact Hguard.
Qed.

Lemma frange_spec :
  forall fuel l,
    frange fuel start stop step = Ok l ->
    (forall k, (k < length l)%nat ->
               nth_error l k = Some (frange_value start step k) /\
               (frange_value start step k <? stop) = true) /\
    (frange_value start step (length l) <? stop) = false.
Proof.
  intros fuel l Hrun. exact (@frange_from_spec fuel 0 l Hrun).
Qed.

End Frange.

Lemma append_row_spec :
  forall xs points y0, append_row points y0 xs = points ++ grid_row xs y0.
Proof.
  unfold append_row, grid_row.
  induction xs as [| x0 xs IH]; intros points y0; simpl.
  - now rewrite app_nil_r.
  - rewrite IH, <- app_assoc. reflexivity.
Qed.

(** The outer loop appends one row per ordinate, all over the same
    abscissas. *)
Lemma rows_loop_spec :
  forall fuel extent step_size ys points result,
    rows_loop fuel extent step_size ys points = Ok result ->
    exists xs,
      result = points ++ flat_map (grid_row xs) ys /\
      (ys = [] /\ xs = [] \/
       frange fuel (xMinimum extent + step_size * 0.5)%float
              (xMaximum extent) step_size = Ok xs).
Proof.
  intros fuel extent step_size ys.
  induction ys as [| y0 ys IH]; intros points result Hrun.
  - simpl in Hrun. injection Hrun as <-. exists []. simpl.
    rewrite app_nil_r. auto.
  - cbn [rows_loop] in Hrun.
    destruct (frange fuel (xMinimum extent + step_size * 0.5)%float
                     (xMaximum extent) step_size) as [xs | |] eqn:Hxs;
      try discriminate.
    cbn [obind] in Hrun. rewrite append_row_spec in Hrun.
    destruct (IH _ _ Hrun) as (xs' & Hres & Hcase).
    exists xs. split; [| now right].
    destruct Hcase as [[-> ->] | Hxs'].
    + simpl in Hres |- *. now rewrite app_nil_r in Hres |- *.
    + assert (xs' = xs) by congruence. subst xs'.
      rewrite Hres, <- app_assoc. reflexivity.
Qed.

Lemma grid_length :
  forall xs ys, length (flat_map (grid_row xs) ys) = length ys * length xs.
Proof.
  intros xs ys. apply flat_map_constant_length.
  intros y0 _. apply length_map.
Qed.

(** Row-major indexing of the grid. *)
Lemma grid_nth_error :
  forall xs ys r c x0 y0,
    nth_error ys r = Some y0 ->
    nth_error xs c = Some x0 ->
    nth_error (flat_map (grid_row xs) ys) (r * length xs + c) =
    Some (mkPointXY x0 y0).
Proof.
  intros xs ys. induction ys as [| y1 ys IH]; intros r c x0 y0 Hr Hc.
  - destruct r; discriminate.
  - assert (Hlt : c < length xs) by (apply nth_error_Some; congruence).
    destruct r as [| r]; simpl flat_map.
    + injection Hr as ->. simpl Nat.add.
      rewrite nth_error_app1 by (unfold grid_row; now rewrite length_map).
      unfold grid_row. now rewrite nth_error_map, Hc.
    + simpl in Hr.
      rewrite nth_error_app2
        by (unfold grid_row; rewrite length_map; simpl; lia).
      replace (S r * length xs + c - length (grid_row xs y1))
        with (r * length xs + c)
        by (unfold grid_row; rewrite length_map; simpl; lia).
      now apply IH.
Qed.

(** More fuel does not change an outcome that needed less. *)
Lemma frange_from_more_fuel :
  forall fuel fuel' i start stop step,
    fuel <= fuel' ->
    frange_from fuel i start stop step <> Timeout ->
    frange_from fuel' i start stop step = frange_from fuel i start stop step.
Proof.
  induction fuel as [| fuel IH]; intros fuel' i start stop step Hle Hdone;
    [contradiction |].
  destruct fuel' as [| fuel']; [lia |].
  cbn [frange_from] in *.
  destruct (PyFloat.float_of_int i) as [fi | |]; cbn [obind] in *;
    try reflexivity.
  destruct (start + fi * step <? stop)%float; [| reflexivity].
  rewrite (IH fuel' (i + 1)%Z start stop step); [reflexivity | lia |].
  intros Hout. rewrite Hout in Hdone. now apply Hdone.
Qed.

Lemma rows_loop_more_fuel :
  forall fuel fuel' extent step_size ys points,
    fuel <= fuel' ->
    rows_loop fuel extent step_size ys points <> Timeout ->
    rows_loop fuel' extent step_size ys points =
    rows_loop fuel extent step_size ys points.
Proof.
  intros fuel fuel' extent step_size ys.
  induction ys as [| y0 ys IH]; intros points Hle Hdone; [reflexivity |].
  cbn [rows_loop] in *. unfold frange in *.
  rewrite (@frange_from_more_fuel fuel fuel') by
    (try exact Hle; intros Hout; rewrite Hout in Hdone; now apply Hdone).
  destruct (frange_from fuel 0 _ _ _) as [xs | |]; cbn [obind] in *;
    try reflexivity.
  now apply IH.
Qed.

(** A [frange] ends: the counter cannot pass 2^1024, where its conversion
    to a float raises. *)
Lemma frange_from_S :
  forall fuel i start stop step,
    frange_from (S fuel) i start stop step =
    obind (PyFloat.float_of_int i)
      (fun fi =>
         if (start + fi * step <? stop)%float then
           obind (frange_from fuel (i + 1) start stop step)
                 (fun rest => Ok ((start + fi * step)%float :: rest))
         else Ok []).
Proof. reflexivity. Qed.

Lemma frange_from_ends :
  forall n i start stop step,
    (0 <= i)%Z ->
    (2 ^ 1024 - i <= Z.of_nat n)%Z ->
    frange_from (S n) i start stop step <> Timeout.
Proof.
  induction n as [| n IH]; intros i start stop step Hi Hn;
    rewrite frange_from_S; unfold PyFloat.float_of_int;
    destruct (Z.leb_spec (2 ^ 1024) (Z.abs i)) as [Hbig | Hsmall];
    cbn [obind]; try discriminate;
    rewrite Z.abs_eq in Hsmall by exact Hi; [lia |].
  destruct (is_infinity (PyFloat.of_Z i)); cbn [obind]; [discriminate |].
  destruct (start + PyFloat.of_Z i * step <? stop)%float; [| discriminate].
  specialize (IH (i + 1)%Z start stop step).
  destruct (frange_from (S n) (i + 1) start stop step);
    cbn [obind]; try discriminate.
  apply IH; lia.
Qed.

Lemma rows_loop_ends :
  forall fuel extent step_size ys points,
    (forall start stop step, frange fuel start stop step <> Timeout) ->
    rows_loop fuel extent step_size ys points <> Timeout.
Proof.
  intros fuel extent step_size ys.
  induction ys as [| y0 ys IH]; intros points Hfrange; [discriminate |].
  cbn [rows_loop].
  destruct (frange fuel (xMinimum extent + step_size * 0.5)%float
                   (xMaximum extent) step_size) as [xs | |] eqn:Hxs;
    cbn [obind]; try discriminate.
  - now apply IH.
  - now apply Hfrange in Hxs.
Qed.

Lemma round_ends : forall v, PyFloat.round v <> Timeout.
Proof.
  intros v. unfold PyFloat.round. destruct (Prim2SF v); discriminate.
Qed.

(** [create_points] ends for every extent and step size, given enough
    fuel: it returns or it raises. *)
Lemma create_points_ends :
  forall extent step_size,
    exists fuel, create_points fuel extent step_size <> Timeout.
Proof.
  intros extent step_size. exists (S (Z.to_nat (2 ^ 1024))).
  assert (Hfrange : forall start stop step,
             frange (S (Z.to_nat (2 ^ 1024))) start stop step <> Timeout).
  { intros start stop step. unfold frange.
    apply frange_from_ends; [lia |]. rewrite Z2Nat.id; lia. }
  generalize dependent (S (Z.to_nat (2 ^ 1024))). intros fuel Hfrange.
  unfold create_points, PyFloat.truediv.
  destruct (step_size =? 0)%float; cbn [obind]; [discriminate |].
  destruct (PyFloat.round (width extent / step_size)) as [cols | |] eqn:Hcols;
    cbn [obind]; try discriminate; [| now apply round_ends in Hcols].
  destruct (PyFloat.round (height extent / step_size)) as [rows | |] eqn:Hrows;
    cbn [obind]; try discriminate; [| now apply round_ends in Hrows].
  destruct (frange fuel (yMinimum extent + step_size * 0.5)%float
                   (yMaximum extent) step_size) as [ys | |] eqn:Hys;
    cbn [obind]; try discriminate; [| now apply Hfrange in Hys].
  destruct (rows_loop fuel extent step_size (rev ys) []) as [pts | |] eqn:Hloop;
    cbn [obind]; try discriminate.
  - unfold py_assert.
    destruct (rows * cols =? Z.of_nat (length pts))%Z; discriminate.
  - now apply rows_loop_ends in Hloop.
Qed.

(** [create_points] gives the same answer for every amount of fuel that
    is enough for it to end. *)
Lemma create_points_more_fuel :
  forall fuel fuel' extent step_size,
    fuel <= fuel' ->
    create_points fuel extent step_size <> Timeout ->
    create_points fuel' extent step_size = create_points fuel extent step_size.
Proof.
  intros fuel fuel' extent step_size Hle Hdone.
  unfold create_points in *.
  destruct (PyFloat.truediv (width extent) step_size) as [q_cols | |];
    cbn [obind] in *; try reflexivity.
  destruct (PyFloat.round q_cols) as [cols | |]; cbn [obind] in *;
    try reflexivity.
  destruct (PyFloat.truediv (height extent) step_size) as [q_rows | |];
    cbn [obind] in *; try reflexivity.
  destruct (PyFloat.round q_rows) as [rows | |]; cbn [obind] in *;
    try reflexivity.
  unfold frange in *.
  rewrite (@frange_from_more_fuel fuel fuel') by
    (try exact Hle; intros Hout; rewrite Hout in Hdone; now apply Hdone).
  destruct (frange_from fuel 0 _ _ _) as [ys | |]; cbn [obind] in *;
    try reflexivity.
  rewrite (@rows_loop_more_fuel fuel fuel') by
    (try exact Hle; intros Hout; rewrite Hout in Hdone; now apply Hdone).
  reflexivity.
Qed.

(** C5: whenever [create_points] returns, its list is a grid of [ny] rows
    of [nx] points in row-major order.  The point in row [r] (from the
    top) and column [c] (from the left) is
    (xMin + 0.5*S + c*S, yMin + 0.5*S + (ny-1-r)*S) in double arithmetic:
    the rows go from the largest ordinate down to yMin + 0.5*S, the columns
    from xMin + 0.5*S upwards in steps of S.  The first column and the last
    row are inset by half a step from the minimum edges, every point lies
    below the maximum edges, and the grid ends where the next value would
    not. *)
Theorem create_points_row_major_inset :
  forall (fuel : nat) (extent : QgsRectangle) (step_size : float)
         (points : list QgsPointXY) (cols rows : Z),
    create_points fuel extent step_size = Ok (points, cols, rows) ->
    let x_start := (xMinimum extent + step_size * 0.5)%float in
    let y_start := (yMinimum extent + step_size * 0.5)%float in
    exists nx ny : nat,
      length points = ny * nx /\
      (forall r c,
          r < ny -> c < nx ->
          nth_error points (r * nx + c) =
            Some (mkPointXY (frange_value x_start step_size c)
                            (frange_value y_start step_size (ny - 1 - r))) /\
          (frange_value x_start step_size c <? xMaximum extent)%float = true /\
          (frange_value y_start step_size (ny - 1 - r) <? yMaximum extent)%float
            = true) /\
      (0 < ny -> 0 < nx ->
          (frange_value x_start step_size 0 =? x_start)%float = true /\
          (frange_value y_start step_size 0 =? y_start)%float = true) /\
      (frange_value y_start step_size ny <? yMaximum extent)%float = false /\
      (0 < ny ->
          (frange_value x_start step_size nx <? xMaximum extent)%float = false).
Proof.
  intros fuel extent step_size points cols rows Hrun x_start y_start.
  unfold create_points in Hrun.
  destruct (PyFloat.truediv (width extent) step_size) as [q_cols | |];
    try discriminate. cbn [obind] in Hrun.
  destruct (PyFloat.round q_cols) as [cols0 | |]; try discriminate.
  cbn [obind] in Hrun.
  destruct (PyFloat.truediv (height extent) step_size) as [q_rows | |];
    try discriminate. cbn [obind] in Hrun.
  destruct (PyFloat.round q_rows) as [rows0 | |]; try discriminate.
  cbn [obind] in Hrun. fold y_start in Hrun.
  destruct (frange fuel y_start (yMaximum extent) step_size)
    as [ys | |] eqn:Hys; try discriminate.
  cbn [obind] in Hrun.
  destruct (rows_loop fuel extent step_size (rev ys) []) as [pts | |] eqn:Hloop;
    try discriminate.
  cbn [obind] in Hrun.
  destruct (py_assert (rows0 * cols0 =? Z.of_nat (length pts))%Z);
    try discriminate.
  cbn [obind] in Hrun. injection Hrun as -> -> ->.
  destruct (@frange_spec _ _ _ _ _ Hys) as [Hyvalues Hyend].
  destruct (@rows_loop_spec _ _ _ _ _ _ Hloop) as (xs & Hpts & Hxs).
  simpl app in Hpts. fold x_start in Hxs.
  exists (length xs), (length ys).
  assert (Hxfacts :
            (forall k, k < length xs ->
                       nth_error xs k = Some (frange_value x_start step_size k) /\
                       (frange_value x_start step_size k <? xMaximum extent)%float
                         = true) /\
            (0 < length ys ->
             (frange_value x_start step_size (length xs) <? xMaximum extent)%float
               = false)).
  { destruct Hxs as [[Hnil ->] | Hxs].
    - split; [simpl; intros; lia |].
      intros Hpos. apply (f_equal (@length float)) in Hnil.
      rewrite length_rev in Hnil. simpl in Hnil. lia.
    - destruct (@frange_spec _ _ _ _ _ Hxs) as [Hxvalues Hxend]. auto. }
  destruct Hxfacts as [Hxvalues Hxend].
  split; [subst points; rewrite grid_length, length_rev; reflexivity |].
  split; [| split; [| split; [exact Hyend | exact Hxend]]].
  - intros r c Hr Hc.
    destruct (Hxvalues c Hc) as [Hx Hxlt].
    assert (Hrow : length ys - 1 - r < length ys) by lia.
    destruct (Hyvalues _ Hrow) as [Hy Hylt].
    split; [| split; assumption].
    subst points. apply grid_nth_error; [| exact Hx].
    rewrite nth_error_rev.
    destruct (Nat.ltb_spec r (length ys)) as [_ | Hge]; [| lia].
    replace (length ys - S r) with (length ys - 1 - r) by lia. exact Hy.
  - intros Hny Hnx.
    destruct (Hxvalues 0 Hnx) as [_ Hxlt].
    destruct (Hyvalues 0 Hny) as [_ Hylt].
    split; eapply start_plus_zero_steps; eassumption.
Qed.

Lemma create_points_row_major_inset_witness :
  create_points 10 Sample.EXTENT 1 = Ok (Sample.CELL_POINTXYS, 4%Z, 3%Z) /\
  exists nx ny : nat,
    length Sample.CELL_POINTXYS = ny * nx /\
    (forall r c,
        r < ny -> c < nx ->
        nth_error Sample.CELL_POINTXYS (r * nx + c) =
          Some (mkPointXY (frange_value (-1.5 + 1 * 0.5) 1 c)
                          (frange_value (-2.5 + 1 * 0.5) 1 (ny - 1 - r))) /\
        (frange_value (-1.5 + 1 * 0.5) 1 c <? 2.5)%float = true /\
        (frange_value (-2.5 + 1 * 0.5) 1 (ny - 1 - r) <? 0.5)%float = true) /\
    (0 < ny -> 0 < nx ->
        (frange_value (-1.5 + 1 * 0.5) 1 0 =? -1.5 + 1 * 0.5)%float = true /\
        (frange_value (-2.5 + 1 * 0.5) 1 0 =? -2.5 + 1 * 0.5)%float = true) /\
    (frange_value (-2.5 + 1 * 0.5) 1 ny <? 0.5)%float = false /\
    (0 < ny -> (frange_value (-1.5 + 1 * 0.5) 1 nx <? 2.5)%float = false).
Proof.
  split; [vm_compute; reflexivity |].
  apply (@create_points_row_major_inset 10 Sample.EXTENT 1
           Sample.CELL_POINTXYS 4%Z 3%Z).
  vm_compute. reflexivity.
Defined.

(** C1: an extent of 1.5 by 1 with step 1.  [round(1.5)] is 2 columns and
    [round(1.0)] is 1 row, yet only the abscissa 0.5 lies below 1.5: one
    point is generated and the assertion [rows * cols == len(points)]
    fails. *)
Theorem create_points_assertion_fails :
  create_points 10 (mkRectangle 0 0 1.5 1) 1 = Raise AssertionError /\
  PyFloat.round (width (mkRectangle 0 0 1.5 1) / 1) = Ok 2%Z /\
  PyFloat.round (height (mkRectangle 0 0 1.5 1) / 1) = Ok 1%Z /\
  rows_loop 10 (mkRectangle 0 0 1.5 1) 1 [0.5%float] [] =
    Ok [mkPointXY 0.5 0.5].
Proof. vm_compute. repeat split; reflexivity. Qed.

(* ================================================================== *)
(** * The rejection of geographic reference systems *)
(* ================================================================== *)

(** For the identifier EPSG:4326 [create_factors_tif] raises before it
    does anything else, and [run] pushes the critical message and ends
    without a raster or a layer. *)
Lemma epsg_4326_is_rejected :
  forall (E : Engine) (USE_PYPROJ : bool) (fuel : nat)
         (extent : QgsRectangle) (crs : QgsCoordinateReferenceSystem)
         (pixel_size : float) (h : Host),
    authid crs = "EPSG:4326"%string ->
    create_factors_tif E USE_PYPROJ fuel extent crs pixel_size h =
      (Raise GeographicCrsError, h) /\
    (canvas_crs h = crs ->
     run E USE_PYPROJ fuel h =
       (Ok tt,
        set_message_bar
          (message_bar h ++
           [Message (plugin_name E)
                    "Calculating projection factors for canvas..." Info;
            Message (plugin_name E)
                    "CRS must be projected, EPSG:4326 isn't!" Critical])
          h)).
Proof.
  intros E USE_PYPROJ fuel extent crs pixel_size h Hid. split.
  - unfold create_factors_tif. rewrite Hid. reflexivity.
  - intros Hcrs. destruct h; simpl in Hcrs; subst crs.
    unfold run, bind, pushMessage, modify, get_host. simpl.
    rewrite Hid. simpl. rewrite <- app_assoc. reflexivity.
Qed.

(** C2: ETRS89 (EPSG:4258) is a geographic reference system.  With it
    on the canvas nothing is rejected: [create_factors_tif] returns the
    path of a raster that it has written, and [run] ends with the success
    message and a new layer, without a critical message. *)
Theorem geographic_crs_other_than_4326_is_accepted :
  isGeographic Sample.etrs89 = true /\
  (let r := create_factors_tif Sample.engine false 100
              (canvas_extent (Sample.host Sample.etrs89)) Sample.etrs89
              (canvas_mapUnitsPerPixel (Sample.host Sample.etrs89))
              (Sample.host Sample.etrs89) in
   fst r = Ok "/tmp/processing/Projection Factors EPSG_4258.tif"%string /\
   map fst (files (snd r)) =
     ["/tmp/processing/Projection Factors EPSG_4258.tif"%string]) /\
  (let r := run Sample.engine false 100 (Sample.host Sample.etrs89) in
   fst r = Ok tt /\
   message_bar (snd r) =
     [Message "Done" "Factors calculated!" Info;
      Message "Projection Factors Redux"
        "Raster written to /tmp/processing/Projection Factors EPSG_4258.tif"
        Success] /\
   layers (snd r) =
     [("/tmp/processing/Projection Factors EPSG_4258.tif.vrt"%string,
       "Projection Factors EPSG:4258"%string)]).
Proof. vm_compute. repeat split; reflexivity. Qed.

(* ================================================================== *)
(** * angular_brackets_to_html *)
(* ================================================================== *)

Lemma occurs_append :
  forall c s t, occurs c (s ++ t)%string = occurs c s || occurs c t.
Proof.
  intros c s t. induction s as [| c' s IH]; simpl; [reflexivity |].
  now rewrite IH, orb_assoc.
Qed.

Lemma length_append :
  forall s t, String.length (s ++ t)%string = String.length s + String.length t.
Proof.
  intros s t. induction s as [| c s IH]; simpl; [reflexivity |].
  now rewrite IH.
Qed.

Lemma count_char_append :
  forall c s t, count_char c (s ++ t)%string = count_char c s + count_char c t.
Proof.
  intros c s t. induction s as [| c' s IH]; simpl; [reflexivity |].
  rewrite IH. lia.
Qed.

Section ReplaceCharBy.

Variable a : ascii.
Variable r : string.

(** The replaced character is gone when the replacement does not bring
    it back. *)
Lemma replace_char_by_removes :
  forall s, occurs a r = false -> occurs a (replace_char_by a r s) = false.
Proof.
  intros s Hr. induction s as [| c s IH]; simpl; [reflexivity |].
  destruct (Ascii.eqb c a) eqn:Hc.
  - now rewrite occurs_append, Hr, IH.
  - simpl. now rewrite Hc, IH.
Qed.

(** Another character does not appear when the replacement does not
    hold it. *)
Lemma replace_char_by_keeps_absent :
  forall b s,
    occurs b r = false -> occurs b s = false ->
    occurs b (replace_char_by a r s) = false.
Proof.
  intros b s Hr. induction s as [| c s IH]; simpl; intros Hs; [reflexivity |].
  apply orb_false_elim in Hs. destruct Hs as [Hc Hs].
  destruct (Ascii.eqb c a).
  - now rewrite occurs_append, Hr, IH.
  - simpl. now rewrite Hc, IH.
Qed.

Lemma replace_char_by_absent :
  forall s, occurs a s = false -> replace_char_by a r s = s.
Proof.
  induction s as [| c s IH]; simpl; intros Hs; [reflexivity |].
  apply orb_false_elim in Hs. destruct Hs as [Hc Hs].
  now rewrite Hc, IH.
Qed.

Lemma replace_char_by_length :
  forall s,
    String.length (replace_char_by a r s) + count_char a s =
    String.length s + String.length r * count_char a s.
Proof.
  induction s as [| c s IH]; simpl; [lia |].
  destruct (Ascii.eqb c a); simpl.
  - rewrite length_append. nia.
  - nia.
Qed.

Lemma replace_char_by_count_other :
  forall b s,
    count_char b r = 0 -> Ascii.eqb a b = false ->
    count_char b (replace_char_by a r s) = count_char b s.
Proof.
  intros b s Hr Hab. induction s as [| c s IH]; simpl; [reflexivity |].
  destruct (Ascii.eqb c a) eqn:Hc.
  - apply Ascii.eqb_eq in Hc. subst c. rewrite Hab.
    rewrite count_char_append, Hr, IH. reflexivity.
  - simpl. now rewrite IH.
Qed.

End ReplaceCharBy.

(** X1: the text that [angular_brackets_to_html] returns holds neither
    [<] nor [>]; it is three characters longer for every bracket of the
    input, and a text without brackets comes back as it is. *)
Theorem angular_brackets_to_html_no_brackets :
  forall s,
    occurs "<" (angular_brackets_to_html s) = false /\
    occurs ">" (angular_brackets_to_html s) = false /\
    String.length (angular_brackets_to_html s) =
      String.length s + 3 * (count_char "<" s + count_char ">" s) /\
    (occurs "<" s = false -> occurs ">" s = false ->
     angular_brackets_to_html s = s).
Proof.
  intros s. unfold angular_brackets_to_html.
  split; [| split; [| split]].
  - apply replace_char_by_keeps_absent; [reflexivity |].
    now apply replace_char_by_removes.
  - now apply replace_char_by_removes.
  - pose proof (replace_char_by_length ">" "&gt;"
                  (replace_char_by "<" "&lt;" s)) as H1.
    pose proof (replace_char_by_length "<" "&lt;" s) as H2.
    rewrite (replace_char_by_count_other "<" "&lt;" ">" s) in H1
      by reflexivity.
    simpl String.length in H1, H2. lia.
  - intros Hlt Hgt.
    rewrite (replace_char_by_absent "<" "&lt;" s Hlt).
    now apply replace_char_by_absent.
Qed.

Lemma angular_brackets_to_html_no_brackets_witness :
  occurs "<" (angular_brackets_to_html "a<b> c") = false /\
  occurs ">" (angular_brackets_to_html "a<b> c") = false /\
  String.length (angular_brackets_to_html "a<b> c") =
    String.length "a<b> c" + 3 * (count_char "<" "a<b> c" + count_char ">" "a<b> c") /\
  (occurs "<" "a<b> c" = false -> occurs ">" "a<b> c" = false ->
   angular_brackets_to_html "a<b> c" = "a<b> c"%string).
Proof. exact (angular_brackets_to_html_no_brackets "a<b> c"). Defined.

Example angular_brackets_to_html_sample :
  angular_brackets_to_html "extent=<QgsRectangle: 0 0, 1 1>" =
  "extent=&lt;QgsRectangle: 0 0, 1 1&gt;"%string.
Proof. reflexivity. Qed.

(* ================================================================== *)
(** * canvas_pixel_points *)
(* ================================================================== *)

Lemma py_range_length : forall n, length (py_range n) = Z.to_nat n.
Proof.
  intros n. unfold py_range. now rewrite length_map, length_seq.
Qed.

Lemma py_range_nth_error :
  forall n k, k < Z.to_nat n -> nth_error (py_range n) k = Some (Z.of_nat k).
Proof.
  intros n k Hk. unfold py_range.
  rewrite nth_error_map, nth_error_seq.
  destruct (Nat.ltb_spec k (Z.to_nat n)) as [_ | Hge]; [reflexivity | lia].
Qed.

(** Row-major indexing of a comprehension with two [for] clauses. *)
Lemma comprehension_nth_error :
  forall (A B C : Type) (f : A -> B -> C) (xs : list A) (ys : list B)
         r c x0 y0,
    nth_error ys r = Some y0 ->
    nth_error xs c = Some x0 ->
    nth_error (flat_map (fun y1 => map (fun x1 => f x1 y1) xs) ys)
              (r * length xs + c) = Some (f x0 y0).
Proof.
  intros A B C f xs ys. induction ys as [| y1 ys IH]; intros r c x0 y0 Hr Hc.
  - destruct r; discriminate.
  - assert (Hlt : c < length xs) by (apply nth_error_Some; congruence).
    destruct r as [| r]; simpl flat_map.
    + injection Hr as ->. simpl Nat.add.
      rewrite nth_error_app1 by now rewrite length_map.
      now rewrite nth_error_map, Hc.
    + simpl in Hr.
      rewrite nth_error_app2 by (rewrite length_map; simpl; lia).
      replace (S r * length xs + c - length (map (fun x1 => f x1 y1) xs))
        with (r * length xs + c) by (rewrite length_map; simpl; lia).
      now apply IH.
Qed.

(** X2: for a canvas of [width] by [height] pixels, neither negative,
    [canvas_pixel_points] passes its assertion and returns
    [width * height] points, row by row from pixel row 0: the point of
    pixel [(x, y)] is at index [y * width + x]. *)
Theorem canvas_pixel_points_row_major :
  forall (coordinate_transform : QgsMapToPixel),
    (0 <= mapWidth coordinate_transform)%Z ->
    (0 <= mapHeight coordinate_transform)%Z ->
    exists points,
      canvas_pixel_points coordinate_transform = Ok points /\
      Z.of_nat (length points) =
        (mapWidth coordinate_transform * mapHeight coordinate_transform)%Z /\
      forall px0 py0,
        (0 <= px0 < mapWidth coordinate_transform)%Z ->
        (0 <= py0 < mapHeight coordinate_transform)%Z ->
        nth_error points
          (Z.to_nat (py0 * mapWidth coordinate_transform + px0)) =
        Some (toMapCoordinates coordinate_transform px0 py0).
Proof.
  intros [w h0 f] Hw Hh. simpl in Hw, Hh. unfold canvas_pixel_points.
  simpl mapWidth. simpl mapHeight. simpl toMapCoordinates.
  set (points := flat_map (fun y0 => map (fun x0 => f x0 y0) (py_range w))
                          (py_range h0)).
  assert (Hlen : length points = Z.to_nat h0 * Z.to_nat w).
  { subst points.
    rewrite (@flat_map_constant_length _ _ (Z.to_nat w)).
    - now rewrite py_range_length.
    - intros y0 _. now rewrite length_map, py_range_length. }
  assert (Hcount : Z.of_nat (length points) = (w * h0)%Z) by (rewrite Hlen; lia).
  exists points. cbv zeta. rewrite Hcount, Z.eqb_refl. cbn [py_assert obind].
  split; [reflexivity |]. split; [reflexivity |].
  intros px0 py0 Hx Hy.
  replace (Z.to_nat (py0 * w + px0))
    with (Z.to_nat py0 * length (py_range w) + Z.to_nat px0)
    by (rewrite py_range_length; nia).
  subst points.
  rewrite (@comprehension_nth_error Z Z QgsPointXY f (py_range w) (py_range h0)
             (Z.to_nat py0) (Z.to_nat px0) px0 py0).
  - reflexivity.
  - rewrite py_range_nth_error by lia. f_equal. lia.
  - rewrite py_range_nth_error by lia. f_equal. lia.
Qed.

Lemma canvas_pixel_points_row_major_witness :
  (0 <= mapWidth sample_map_to_pixel)%Z /\
  (0 <= mapHeight sample_map_to_pixel)%Z /\
  exists points,
    canvas_pixel_points sample_map_to_pixel = Ok points /\
    Z.of_nat (length points) =
      (mapWidth sample_map_to_pixel * mapHeight sample_map_to_pixel)%Z /\
    forall px0 py0,
      (0 <= px0 < mapWidth sample_map_to_pixel)%Z ->
      (0 <= py0 < mapHeight sample_map_to_pixel)%Z ->
      nth_error points (Z.to_nat (py0 * mapWidth sample_map_to_pixel + px0)) =
      Some (toMapCoordinates sample_map_to_pixel px0 py0).
Proof.
  split; [simpl; lia |]. split; [simpl; lia |].
  apply (canvas_pixel_points_row_major sample_map_to_pixel); simpl; lia.
Defined.

Example canvas_pixel_points_sample :
  canvas_pixel_points sample_map_to_pixel =
  Ok [mkPointXY 10 20; mkPointXY 11 20; mkPointXY 12 20;
      mkPointXY 10 19; mkPointXY 11 19; mkPointXY 12 19].
Proof. vm_compute. reflexivity. Qed.

(* ================================================================== *)
(** * transform_points_multipoint against transform_points *)
(* ================================================================== *)

Section Multipoint.

Variable E : Engine.
Variables source_crs target_crs : QgsCoordinateReferenceSystem.

(** The multipoint stops at the first point that fails. *)
Lemma multipoint_transform_fails :
  forall points p,
    fails_with_QgsCsException_only E source_crs target_crs ->
    In p points ->
    transform E source_crs target_crs p = Raise QgsCsException ->
    multipoint_transform E source_crs target_crs points =
    Raise QgsCsException.
Proof.
  induction points as [| p0 points IH]; intros p Hcontract Hin Hp;
    [contradiction |].
  cbn [multipoint_transform].
  pose proof (Hcontract p0) as H0.
  destruct (transform E source_crs target_crs p0) as [q0 | e |] eqn:Hq0.
  - destruct Hin as [-> | Hin]; [congruence |].
    cbn [obind]. now rewrite (IH p Hcontract Hin Hp).
  - subst e. reflexivity.
  - contradiction.
Qed.

End Multipoint.

(** X4: where the engine fails on some point of the input (with the CRS
    exception, its only way to fail), the multipoint variant raises that
    exception, while [transform_points] returns a list that holds [None]. *)
Theorem transform_points_multipoint_raises :
  forall (E : Engine) (source_crs target_crs : QgsCoordinateReferenceSystem)
         (points : list QgsPointXY) (p : QgsPointXY) (h : Host),
    fails_with_QgsCsException_only E source_crs target_crs ->
    In p points ->
    transform E source_crs target_crs p = Raise QgsCsException ->
    fst (transform_points_multipoint_THIS_TAKES_MORE_THAN_TWICE_AS_LONG
           E points source_crs target_crs h) = Raise QgsCsException /\
    exists transformed_points,
      fst (transform_points E points source_crs target_crs h) =
        Ok transformed_points /\
      In None transformed_points.
Proof.
  intros E source_crs target_crs points p h Hcontract Hin Hp. split.
  - unfold transform_points_multipoint_THIS_TAKES_MORE_THAN_TWICE_AS_LONG,
      bind, lift.
    now rewrite (@multipoint_transform_fails E source_crs target_crs points p
                   Hcontract Hin Hp).
  - destruct (@transform_loop_spec E source_crs target_crs Hcontract points [] h)
      as (h' & Hrun & _).
    exists (map (transformed E source_crs target_crs) points).
    unfold transform_points. rewrite Hrun. split; [reflexivity |].
    replace None with (transformed E source_crs target_crs p)
      by (unfold transformed; now rewrite Hp).
    now apply in_map.
Qed.

Lemma transform_points_multipoint_raises_witness :
  fails_with_QgsCsException_only Sample.engine Sample.utm32n Sample.wgs84 /\
  In (mkPointXY (-1) 0) [mkPointXY 2000 1000; mkPointXY (-1) 0] /\
  transform Sample.engine Sample.utm32n Sample.wgs84 (mkPointXY (-1) 0) =
    Raise QgsCsException /\
  fst (transform_points_multipoint_THIS_TAKES_MORE_THAN_TWICE_AS_LONG
         Sample.engine [mkPointXY 2000 1000; mkPointXY (-1) 0]
         Sample.utm32n Sample.wgs84 (Sample.host Sample.utm32n)) =
    Raise QgsCsException.
Proof.
  split; [apply sample_engine_contract |].
  split; [simpl; tauto |]. split; [vm_compute; reflexivity |].
  apply (@transform_points_multipoint_raises Sample.engine Sample.utm32n
           Sample.wgs84 [mkPointXY 2000 1000; mkPointXY (-1) 0]
           (mkPointXY (-1) 0) (Sample.host Sample.utm32n)).
  - apply sample_engine_contract.
  - simpl. tauto.
  - vm_compute. reflexivity.
Defined.

(* ================================================================== *)
(** * gather_factors and gather_factors_pyproj on long inputs *)
(* ================================================================== *)

(** X5: on an input of at least 1000 entries [gather_factors] returns
    one entry per input entry, in order.  The entry is [None] where the
    input is [None], where the point is not strictly inside the geographic
    range, and where the engine's factors are invalid; everywhere else it
    is the engine's result for the point.  The message bar is left with the
    "Done" message alone, and files and layers are untouched. *)
Theorem gather_factors_entries :
  forall (E : Engine) (crs : QgsCoordinateReferenceSystem)
         (points : list (option QgsPointXY)) (h : Host),
    1000 <= length points ->
    exists results h',
      gather_factors E points crs h = (Ok results, h') /\
      length results = length points /\
      (forall i, nth_error points i = Some None ->
                 nth_error results i = Some None) /\
      (forall i p,
          nth_error points i = Some (Some p) ->
          nth_error results i =
            Some (if in_geographic_bounds (px p) (py p)
                  then if isValid (factors E crs (mkPoint (px p) (py p)))
                       then Some (QgsFactors
                                    (factors E crs (mkPoint (px p) (py p))))
                       else None
                  else None)) /\
      message_bar h' = [Message "Done" "Factors calculated!" Info] /\
      files h' = files h /\ layers h' = layers h.
Proof.
  intros E crs points h Hlen.
  destruct (@gather_factors_large E crs points h Hlen)
    as (h' & Hrun & _ & Hm & Hf & Hl).
  exists (map (factors_at E crs) points), h'.
  split; [exact Hrun |]. split; [apply length_map |].
  split; [| split; [| auto]].
  - intros i Hi. now rewrite nth_error_map, Hi.
  - intros i p Hi. rewrite nth_error_map, Hi. simpl.
    destruct (in_geographic_bounds (px p) (py p)); [| reflexivity].
    now destruct (isValid (factors E crs (mkPoint (px p) (py p)))).
Qed.

Lemma gather_factors_entries_witness :
  1000 <= length Sample.edge_points /\
  exists results h',
    gather_factors Sample.engine Sample.edge_points Sample.utm32n
                   (Sample.host Sample.utm32n) = (Ok results, h') /\
    length results = length Sample.edge_points.
Proof.
  split; [vm_compute; lia |].
  destruct (@gather_factors_entries Sample.engine Sample.utm32n
              Sample.edge_points (Sample.host Sample.utm32n))
    as (results & h' & Hrun & Hlen & _).
  - vm_compute. lia.
  - exists results, h'. split; assumption.
Defined.

(** X6: [gather_factors_pyproj] has no range check.  On an input of at
    least 1000 entries it returns one entry per input entry, [None]
    exactly where the input is [None], and it has asked pyproj for the
    factors of every other point, in order, wherever the point lies. *)
Theorem gather_factors_pyproj_entries :
  forall (E : Engine) (crs : QgsCoordinateReferenceSystem)
         (points : list (option QgsPointXY)) (h : Host),
    1000 <= length points ->
    exists results h',
      gather_factors_pyproj E points crs h = (Ok results, h') /\
      length results = length points /\
      (forall i, nth_error points i = Some None <->
                 nth_error results i = Some None) /\
      (forall i p,
          nth_error points i = Some (Some p) ->
          nth_error results i =
            Some (Some (ProjFactors
                          (get_factors E (authid crs) (px p) (py p))))) /\
      engine_calls h' =
        engine_calls h ++
        flat_map (fun point =>
                    match point with
                    | Some p => [GetFactorsCall (authid crs) (px p) (py p)]
                    | None => []
                    end) points.
Proof.
  intros E crs points h Hlen.
  destruct (@gather_factors_pyproj_large E crs points h Hlen)
    as (h' & Hrun & Hc & _).
  exists (map (pyproj_factors_at E crs) points), h'.
  split; [exact Hrun |]. split; [apply length_map |].
  split; [| split; [| exact Hc]].
  - intros i. rewrite nth_error_map.
    destruct (nth_error points i) as [[p |] |]; simpl; split;
      intros H; try reflexivity; discriminate.
  - intros i p Hi. now rewrite nth_error_map, Hi.
Qed.

Lemma gather_factors_pyproj_entries_witness :
  1000 <= length Sample.edge_points /\
  exists results h',
    gather_factors_pyproj Sample.engine Sample.edge_points Sample.utm32n
                          (Sample.host Sample.utm32n) = (Ok results, h') /\
    length results = length Sample.edge_points.
Proof.
  split; [vm_compute; lia |].
  destruct (@gather_factors_pyproj_entries Sample.engine Sample.utm32n
              Sample.edge_points (Sample.host Sample.utm32n))
    as (results & h' & Hrun & Hlen & _).
  - vm_compute. lia.
  - exists results, h'. split; assumption.
Defined.

(* ================================================================== *)
(** * The pipeline as a whole: create_factors_tif and run *)
(* ================================================================== *)

Lemma bind_ok :
  forall (A B : Type) (m : M A) (k : A -> M B) h a h',
    m h = (Ok a, h') -> bind m k h = k a h'.
Proof. intros A B m k h a h' H. unfold bind. now rewrite H. Qed.

Lemma bind_raise :
  forall (A B : Type) (m : M A) (k : A -> M B) h e h',
    m h = (Raise e, h') -> bind m k h = (Raise e, h').
Proof. intros A B m k h e h' H. unfold bind. now rewrite H. Qed.

(** The assertion of [create_points] holds of what it returns. *)
Lemma create_points_count :
  forall fuel extent step_size points cols rows,
    create_points fuel extent step_size = Ok (points, cols, rows) ->
    (cols * rows)%Z = Z.of_nat (length points).
Proof.
  intros fuel extent step_size points cols rows Hrun.
  unfold create_points in Hrun.
  destruct (PyFloat.truediv (width extent) step_size) as [q_cols | |];
    try discriminate. cbn [obind] in Hrun.
  destruct (PyFloat.round q_cols) as [cols0 | |]; try discriminate.
  cbn [obind] in Hrun.
  destruct (PyFloat.truediv (height extent) step_size) as [q_rows | |];
    try discriminate. cbn [obind] in Hrun.
  destruct (PyFloat.round q_rows) as [rows0 | |]; try discriminate.
  cbn [obind] in Hrun.
  destruct (frange fuel _ (yMaximum extent) step_size) as [ys | |];
    try discriminate. cbn [obind] in Hrun.
  destruct (rows_loop fuel extent step_size (rev ys) []) as [pts | |];
    try discriminate. cbn [obind] in Hrun. unfold py_assert in Hrun.
  destruct (Z.eqb_spec (rows0 * cols0) (Z.of_nat (length pts))) as [Heq | _];
    [| discriminate].
  cbn [obind] in Hrun. injection Hrun as <- <- <-. lia.
Qed.

Lemma gathered_from_engine_in_use :
  forall E USE_PYPROJ crs points,
    all_from_engine_in_use USE_PYPROJ (map (gathered E USE_PYPROJ crs) points)
    = true.
Proof.
  intros E USE_PYPROJ crs points. unfold all_from_engine_in_use.
  induction points as [| point points IH]; [reflexivity |].
  cbn [map forallb]. rewrite IH, andb_true_r. unfold gathered.
  destruct USE_PYPROJ, point as [p |]; simpl; try reflexivity.
  destruct (in_geographic_bounds (px p) (py p)); [| reflexivity].
  now destruct (isValid (factors E crs (mkPoint (px p) (py p)))).
Qed.

(** The factor step of [create_factors_tif] on at least 1000 entries. *)
Lemma gather_step_large :
  forall E (USE_PYPROJ : bool) crs points h,
    1000 <= length points ->
    exists h',
      (if USE_PYPROJ then gather_factors_pyproj E points crs
       else gather_factors E points crs) h =
        (Ok (map (gathered E USE_PYPROJ crs) points), h') /\
      message_bar h' = [Message "Done" "Factors calculated!" Info] /\
      files h' = files h /\ layers h' = layers h.
Proof.
  intros E USE_PYPROJ crs points h Hlen. unfold gathered.
  destruct USE_PYPROJ.
  - destruct (@gather_factors_pyproj_large E crs points h Hlen)
      as (h' & Hrun & _ & Hm & Hf & Hl). eauto.
  - destruct (@gather_factors_large E crs points h Hlen)
      as (h' & Hrun & _ & Hm & Hf & Hl). eauto.
Qed.

(** The factor step on a non-empty input of fewer than 1000 entries: the
    progress widget has been pushed and stays. *)
Lemma gather_step_small :
  forall E (USE_PYPROJ : bool) crs points h,
    points <> [] -> length points < 1000 ->
    exists h',
      (if USE_PYPROJ then gather_factors_pyproj E points crs
       else gather_factors E points crs) h =
        (Raise ZeroDivisionError, h') /\
      message_bar h' =
        message_bar h ++ [ProgressWidget (progress_text USE_PYPROJ)] /\
      files h' = files h /\ layers h' = layers h.
Proof.
  intros E USE_PYPROJ crs [| p points] h Hne Hlen; [contradiction |].
  destruct USE_PYPROJ.
  - unfold gather_factors_pyproj.
    unfold bind at 1. unfold pushProgressWidget at 1, modify at 1.
    unfold bind at 1. rewrite gather_loop_pyproj_small by lia.
    eexists. split; [reflexivity |]. simpl. auto.
  - unfold gather_factors.
    unfold bind at 1. unfold pushProgressWidget at 1, modify at 1.
    unfold bind at 1. rewrite gather_loop_small by lia.
    eexists. split; [reflexivity |]. simpl. auto.
Qed.

(** [write_factors_to_tif] under its assertion. *)
Lemma write_factors_to_tif_runs :
  forall (USE_PYPROJ : bool) raster_file_path factors extent crs cols rows h,
    all_from_engine_in_use USE_PYPROJ factors = true ->
    (cols * rows)%Z = Z.of_nat (length factors) ->
    exists h',
      write_factors_to_tif USE_PYPROJ raster_file_path factors extent crs
                           cols rows h = (Ok tt, h') /\
      lookup raster_file_path (files h') =
        Some (RasterFile
                (factors_raster USE_PYPROJ factors extent crs cols rows)) /\
      message_bar h' = message_bar h /\ layers h' = layers h.
Proof.
  intros USE_PYPROJ raster_file_path factors extent crs cols rows h
         Hengine Hblock.
  unfold write_factors_to_tif, createMultiBandRaster.
  unfold bind at 1. unfold write_file at 1, modify at 1.
  set (r0 := mkRaster "GTiff"
               ["COMPRESS=ZSTD"; "ZSTD_LEVEL=9"; "TILED=YES"; "PREDICTOR=3"]%string
               Float64 cols rows extent crs []).
  set (h1 := set_files _ h).
  assert (Hfile : lookup raster_file_path (files h1) =
                  Some (RasterFile
                          (with_bands r0
                             ([] ++ repeat (mkBand None None)
                                      (length (projection_factors USE_PYPROJ))))))
    by (subst h1; simpl files; apply lookup_store_same).
  destruct (@write_bands_spec USE_PYPROJ raster_file_path factors cols rows
              Hengine Hblock (projection_factors USE_PYPROJ) r0 []
              (repeat (mkBand None None)
                      (length (projection_factors USE_PYPROJ))) h1)
    as (h' & Hrun & Hfile' & Hm & _ & Hl).
  - intros item Hin. unfold factor_names. now apply in_map.
  - apply repeat_length.
  - exact Hfile.
  - exists h'. split; [exact Hrun |]. split; [exact Hfile' |].
    rewrite Hm, Hl. subst h1. simpl. auto.
Qed.

Section CreateFactorsTif.

Variable E : Engine.
Variable USE_PYPROJ : bool.
Variable fuel : nat.
Variable extent : QgsRectangle.
Variable crs : QgsCoordinateReferenceSystem.
Variable pixel_size : float.
Variable points : list QgsPointXY.
Variables cols rows : Z.

Hypothesis not_4326 : authid crs <> "EPSG:4326"%string.
Hypothesis grid :
  create_points fuel extent pixel_size = Ok (points, cols, rows).
Hypothesis engine_contract :
  fails_with_QgsCsException_only E crs fromEpsgId_4326.

(** Up to the factor step: the grid is made and reprojected. *)
Lemma create_factors_tif_unfold :
  forall h,
    create_factors_tif E USE_PYPROJ fuel extent crs pixel_size h =
    (points_gcs <- transform_points E points crs fromEpsgId_4326 ;;
     factors <-
       (if USE_PYPROJ then gather_factors_pyproj E points_gcs crs
        else gather_factors E points_gcs crs) ;;
     write_factors_to_tif USE_PYPROJ (destination E crs) factors extent crs
                          cols rows ;;;
     ret (destination E crs)) h.
Proof.
  intros h. unfold create_factors_tif.
  destruct (String.eqb_spec (authid crs) "EPSG:4326") as [Heq | _];
    [contradiction |].
  unfold bind at 1. unfold lift at 1. rewrite grid.
  unfold crs_eqb. simpl authid.
  destruct (String.eqb_spec (authid crs) "EPSG:4326") as [Heq | _];
    [contradiction |].
  reflexivity.
Qed.

Lemma create_factors_tif_runs :
  forall h,
    1000 <= length points ->
    exists h',
      create_factors_tif E USE_PYPROJ fuel extent crs pixel_size h =
        (Ok (destination E crs), h') /\
      lookup (destination E crs) (files h') =
        Some (RasterFile
                (factors_raster USE_PYPROJ
                   (map (gathered E USE_PYPROJ crs)
                        (map (transformed E crs fromEpsgId_4326) points))
                   extent crs cols rows)) /\
      message_bar h' = [Message "Done" "Factors calculated!" Info] /\
      layers h' = layers h.
Proof.
  intros h Hlen. rewrite create_factors_tif_unfold.
  destruct (@transform_loop_spec E crs fromEpsgId_4326 engine_contract
              points [] h) as (h1 & Hrun1 & _ & _ & _ & Hl1).
  simpl app in Hrun1.
  change (transform_loop E crs fromEpsgId_4326 points [])
    with (transform_points E points crs fromEpsgId_4326) in Hrun1.
  rewrite (@bind_ok _ _ _ _ _ _ _ Hrun1).
  set (points_gcs := map (transformed E crs fromEpsgId_4326) points).
  destruct (@gather_step_large E USE_PYPROJ crs points_gcs h1)
    as (h2 & Hrun2 & Hm2 & _ & Hl2);
    [subst points_gcs; now rewrite length_map |].
  rewrite (@bind_ok _ _ _ _ _ _ _ Hrun2).
  destruct (@write_factors_to_tif_runs USE_PYPROJ (destination E crs)
              (map (gathered E USE_PYPROJ crs) points_gcs)
              extent crs cols rows h2)
    as (h3 & Hrun3 & Hfile & Hm3 & Hl3).
  - apply gathered_from_engine_in_use.
  - subst points_gcs. rewrite !length_map.
    exact (create_points_count _ _ _ grid).
  - rewrite (@bind_ok _ _ _ _ _ _ _ Hrun3). exists h3. unfold ret.
    split; [reflexivity |]. split; [exact Hfile |].
    rewrite Hm3, Hm2, Hl3, Hl2, Hl1. auto.
Qed.

Lemma create_factors_tif_small :
  forall h,
    points <> [] -> length points < 1000 ->
    exists h',
      create_factors_tif E USE_PYPROJ fuel extent crs pixel_size h =
        (Raise ZeroDivisionError, h') /\
      message_bar h' =
        message_bar h ++ [ProgressWidget (progress_text USE_PYPROJ)] /\
      files h' = files h /\ layers h' = layers h.
Proof.
  intros h Hne Hlen. rewrite create_factors_tif_unfold.
  destruct (@transform_loop_spec E crs fromEpsgId_4326 engine_contract
              points [] h) as (h1 & Hrun1 & _ & Hm1 & Hf1 & Hl1).
  simpl app in Hrun1.
  change (transform_loop E crs fromEpsgId_4326 points [])
    with (transform_points E points crs fromEpsgId_4326) in Hrun1.
  rewrite (@bind_ok _ _ _ _ _ _ _ Hrun1).
  destruct (@gather_step_small E USE_PYPROJ crs
              (map (transformed E crs fromEpsgId_4326) points) h1)
    as (h2 & Hrun2 & Hm2 & Hf2 & Hl2).
  - destruct points; [contradiction | discriminate].
  - now rewrite length_map.
  - rewrite (@bind_raise _ _ _ _ _ _ _ Hrun2). exists h2.
    split; [reflexivity |]. rewrite Hm2, Hm1, Hf2, Hf1, Hl2, Hl1. auto.
Qed.

End CreateFactorsTif.

(** X7: for a reference system other than EPSG:4326, a grid of at least
    1000 points and an engine that fails with the CRS exception only,
    [create_factors_tif] returns the temporary destination and has written
    a raster there with the grid's columns and rows, the extent and the
    reference system, and twelve bands that each hold one double per grid
    point and have NaN as no-data value.  The block assertion of
    [write_factors_to_tif] cannot fail after [create_points] has
    returned. *)
Theorem create_factors_tif_writes_grid_raster :
  forall (E : Engine) (USE_PYPROJ : bool) (fuel : nat)
         (extent : QgsRectangle) (crs : QgsCoordinateReferenceSystem)
         (pixel_size : float) (points : list QgsPointXY) (cols rows : Z)
         (h : Host),
    authid crs <> "EPSG:4326"%string ->
    create_points fuel extent pixel_size = Ok (points, cols, rows) ->
    fails_with_QgsCsException_only E crs fromEpsgId_4326 ->
    1000 <= length points ->
    exists h' r,
      create_factors_tif E USE_PYPROJ fuel extent crs pixel_size h =
        (Ok (destination E crs), h') /\
      lookup (destination E crs) (files h') = Some (RasterFile r) /\
      raster_cols r = cols /\ raster_rows r = rows /\
      raster_extent r = extent /\ raster_crs r = crs /\
      length (raster_bands r) = 12 /\
      (forall b, In b (raster_bands r) ->
                 band_nodata b = Some nan /\
                 exists data, band_data b = Some data /\
                              length data = 8 * length points) /\
      Z.of_nat (length points) = (cols * rows)%Z.
Proof.
  intros E USE_PYPROJ fuel extent crs pixel_size points cols rows h
         Hcrs Hgrid Hcontract Hlen.
  destruct (@create_factors_tif_runs E USE_PYPROJ fuel extent crs pixel_size
              points cols rows Hcrs Hgrid Hcontract h Hlen)
    as (h' & Hrun & Hfile & _).
  eexists. eexists. split; [exact Hrun |]. split; [exact Hfile |].
  simpl. repeat (split; [reflexivity |]).
  split; [rewrite length_map; destruct USE_PYPROJ; reflexivity |].
  split; [| symmetry; exact (create_points_count _ _ _ Hgrid)].
  intros b Hb. apply in_map_iff in Hb. destruct Hb as (item & <- & _).
  unfold factor_band. simpl. split; [reflexivity |].
  eexists. split; [reflexivity |].
  rewrite flat_map_float_bytes_length by apply extracted_is_float.
  now rewrite !length_map.
Qed.

Lemma sample_grid_created :
  create_points 100 (mkRectangle 0 0 40 25) 1 = Ok (sample_grid, 40%Z, 25%Z).
Proof. vm_compute. reflexivity. Qed.

Lemma create_factors_tif_writes_grid_raster_witness :
  authid Sample.utm32n <> "EPSG:4326"%string /\
  create_points 100 (mkRectangle 0 0 40 25) 1 = Ok (sample_grid, 40%Z, 25%Z) /\
  fails_with_QgsCsException_only Sample.engine Sample.utm32n fromEpsgId_4326 /\
  1000 <= length sample_grid /\
  exists h' r,
    create_factors_tif Sample.engine false 100 (mkRectangle 0 0 40 25)
                       Sample.utm32n 1 (Sample.host Sample.utm32n) =
      (Ok (destination Sample.engine Sample.utm32n), h') /\
    lookup (destination Sample.engine Sample.utm32n) (files h') =
      Some (RasterFile r) /\
    raster_cols r = 40%Z /\ raster_rows r = 25%Z.
Proof.
  assert (Hcrs : authid Sample.utm32n <> "EPSG:4326"%string)
    by (simpl; discriminate).
  assert (Hlen : 1000 <= length sample_grid) by (vm_compute; lia).
  split; [exact Hcrs |]. split; [exact sample_grid_created |].
  split; [apply sample_engine_contract |]. split; [exact Hlen |].
  destruct (@create_factors_tif_writes_grid_raster Sample.engine false 100
              (mkRectangle 0 0 40 25) Sample.utm32n 1 sample_grid 40%Z 25%Z
              (Sample.host Sample.utm32n) Hcrs sample_grid_created
              (sample_engine_contract _ _) Hlen)
    as (h' & r & Hrun & Hfile & Hc & Hr & _).
  exists h', r. auto.
Defined.

(* ------------------------------------------------------------------ *)
(** ** run *)
(* ------------------------------------------------------------------ *)

Lemma append_not_self :
  forall s t, t <> EmptyString -> (s ++ t)%string <> s.
Proof.
  intros s t Ht Heq. apply (f_equal String.length) in Heq.
  rewrite length_append in Heq. destruct t; [contradiction | simpl in Heq; lia].
Qed.

Lemma create_vrt_for_factors_tif_runs :
  forall E USE_PYPROJ tif_path h,
    create_vrt_for_factors_tif E USE_PYPROJ tif_path h =
    (Ok (tif_path ++ ".vrt")%string,
     set_files
       (store (tif_path ++ ".vrt")
          (VrtFile
             (fst (describe (map snd (projection_factors USE_PYPROJ))
                            (buildvirtualraster E (files h) tif_path))))
          (store (tif_path ++ ".vrt")
             (VrtFile (buildvirtualraster E (files h) tif_path)) (files h)))
       h).
Proof.
  intros E USE_PYPROJ tif_path h.
  unfold create_vrt_for_factors_tif, bind, get_host, write_file, modify,
    read_file. simpl files. rewrite lookup_store_same. reflexivity.
Qed.

(** [run] past its guard. *)
Lemma run_unfold :
  forall E USE_PYPROJ fuel h,
    authid (canvas_crs h) <> "EPSG:4326"%string ->
    run E USE_PYPROJ fuel h =
    (raster_file_path <-
       create_factors_tif E USE_PYPROJ fuel (canvas_extent h) (canvas_crs h)
                          (canvas_mapUnitsPerPixel h) ;;
     vrt_path <- create_vrt_for_factors_tif E USE_PYPROJ raster_file_path ;;
     pushMessage (plugin_name E)
                 ("Raster written to " ++ raster_file_path) Success ;;;
     addMapLayer vrt_path (layer_name_of raster_file_path))
      (set_message_bar
         (message_bar h ++
          [Message (plugin_name E)
                   "Calculating projection factors for canvas..." Info]) h).
Proof.
  intros E USE_PYPROJ fuel h Hcrs. destruct h. simpl in Hcrs.
  unfold run. unfold bind at 1. unfold pushMessage at 1, modify at 1.
  unfold bind at 1. unfold get_host at 1. simpl.
  destruct (String.eqb_spec (authid canvas_crs0) "EPSG:4326") as [Heq | _];
    [contradiction |].
  reflexivity.
Qed.

(** X8: with a reference system other than EPSG:4326 on a canvas whose
    grid has fewer than 1000 points (and at least one), [run] ends in a
    [ZeroDivisionError]: no file is written, no layer is added, and the
    message bar is left with the start message and the progress widget,
    which nothing removes. *)
Theorem run_small_canvas_raises :
  forall (E : Engine) (USE_PYPROJ : bool) (fuel : nat) (h : Host)
         (points : list QgsPointXY) (cols rows : Z),
    authid (canvas_crs h) <> "EPSG:4326"%string ->
    create_points fuel (canvas_extent h) (canvas_mapUnitsPerPixel h) =
      Ok (points, cols, rows) ->
    fails_with_QgsCsException_only E (canvas_crs h) fromEpsgId_4326 ->
    points <> [] ->
    length points < 1000 ->
    exists h',
      run E USE_PYPROJ fuel h = (Raise ZeroDivisionError, h') /\
      files h' = files h /\ layers h' = layers h /\
      message_bar h' =
        message_bar h ++
        [Message (plugin_name E)
                 "Calculating projection factors for canvas..." Info;
         ProgressWidget (progress_text USE_PYPROJ)].
Proof.
  intros E USE_PYPROJ fuel h points cols rows Hcrs Hgrid Hcontract Hne Hlen.
  rewrite run_unfold by exact Hcrs.
  match goal with
  | |- context [bind _ _ ?h0] =>
      destruct (@create_factors_tif_small E USE_PYPROJ fuel (canvas_extent h)
                  (canvas_crs h) (canvas_mapUnitsPerPixel h) points cols rows
                  Hcrs Hgrid Hcontract h0 Hne Hlen)
        as (h' & Hrun & Hm & Hf & Hl)
  end.
  rewrite (@bind_raise _ _ _ _ _ _ _ Hrun). exists h'.
  split; [reflexivity |].
  rewrite Hf, Hl, Hm. destruct h. simpl. rewrite <- app_assoc. auto.
Qed.

Lemma run_small_canvas_raises_witness :
  authid (canvas_crs (small_host Sample.utm32n)) <> "EPSG:4326"%string /\
  create_points 10 (canvas_extent (small_host Sample.utm32n))
                (canvas_mapUnitsPerPixel (small_host Sample.utm32n)) =
    Ok (Sample.CELL_POINTXYS, 4%Z, 3%Z) /\
  Sample.CELL_POINTXYS <> [] /\
  length Sample.CELL_POINTXYS < 1000 /\
  exists h',
    run Sample.engine false 10 (small_host Sample.utm32n) =
      (Raise ZeroDivisionError, h') /\
    files h' = files (small_host Sample.utm32n) /\
    layers h' = layers (small_host Sample.utm32n) /\
    message_bar h' =
      message_bar (small_host Sample.utm32n) ++
      [Message (plugin_name Sample.engine)
               "Calculating projection factors for canvas..." Info;
       ProgressWidget (progress_text false)].
Proof.
  assert (Hcrs : authid (canvas_crs (small_host Sample.utm32n))
                 <> "EPSG:4326"%string) by (simpl; discriminate).
  assert (Hgrid : create_points 10 (canvas_extent (small_host Sample.utm32n))
                    (canvas_mapUnitsPerPixel (small_host Sample.utm32n)) =
                  Ok (Sample.CELL_POINTXYS, 4%Z, 3%Z))
    by (vm_compute; reflexivity).
  assert (Hne : Sample.CELL_POINTXYS <> []) by discriminate.
  assert (Hlen : length Sample.CELL_POINTXYS < 1000) by (simpl; lia).
  repeat (split; [assumption |]).
  apply (@run_small_canvas_raises Sample.engine false 10
           (small_host Sample.utm32n) Sample.CELL_POINTXYS 4%Z 3%Z
           Hcrs Hgrid (sample_engine_contract _ _) Hne Hlen).
Defined.

(** X9: with a reference system other than EPSG:4326 on a canvas whose
    grid has at least 1000 points, [run] succeeds.  Afterwards the raster
    and its VRT are on disk, one layer has been added whose source is the
    VRT, and the message bar shows "Done" and the success message: the
    start message has been cleared with the progress widget. *)
Theorem run_adds_vrt_layer :
  forall (E : Engine) (USE_PYPROJ : bool) (fuel : nat) (h : Host)
         (points : list QgsPointXY) (cols rows : Z),
    authid (canvas_crs h) <> "EPSG:4326"%string ->
    create_points fuel (canvas_extent h) (canvas_mapUnitsPerPixel h) =
      Ok (points, cols, rows) ->
    fails_with_QgsCsException_only E (canvas_crs h) fromEpsgId_4326 ->
    1000 <= length points ->
    exists h' r root,
      run E USE_PYPROJ fuel h = (Ok tt, h') /\
      lookup (destination E (canvas_crs h)) (files h') = Some (RasterFile r) /\
      raster_cols r = cols /\ raster_rows r = rows /\
      lookup (destination E (canvas_crs h) ++ ".vrt")%string (files h') =
        Some (VrtFile root) /\
      layers h' =
        layers h ++
        [((destination E (canvas_crs h) ++ ".vrt")%string,
          layer_name_of (destination E (canvas_crs h)))] /\
      message_bar h' =
        [Message "Done" "Factors calculated!" Info;
         Message (plugin_name E)
                 ("Raster written to " ++ destination E (canvas_crs h))
                 Success].
Proof.
  intros E USE_PYPROJ fuel h points cols rows Hcrs Hgrid Hcontract Hlen.
  rewrite run_unfold by exact Hcrs.
  match goal with
  | |- context [bind _ _ ?h0] =>
      destruct (@create_factors_tif_runs E USE_PYPROJ fuel (canvas_extent h)
                  (canvas_crs h) (canvas_mapUnitsPerPixel h) points cols rows
                  Hcrs Hgrid Hcontract h0 Hlen)
        as (h1 & Hrun & Hfile & Hm & Hl)
  end.
  rewrite (@bind_ok _ _ _ _ _ _ _ Hrun).
  rewrite (@bind_ok _ _ _ _ _ _ _
             (create_vrt_for_factors_tif_runs E USE_PYPROJ _ h1)).
  unfold bind, pushMessage, addMapLayer, modify.
  eexists. eexists. eexists. split; [reflexivity |].
  cbn [files set_files layers set_layers message_bar set_message_bar].
  rewrite lookup_store_same.
  rewrite !lookup_store_other by (apply not_eq_sym, append_not_self; discriminate).
  rewrite Hfile, Hm, Hl.
  split; [reflexivity |]. split; [reflexivity |]. split; [reflexivity |].
  split; [reflexivity |]. split; [| reflexivity].
  destruct h; reflexivity.
Qed.

Lemma run_adds_vrt_layer_witness :
  authid (canvas_crs (Sample.host Sample.utm32n)) <> "EPSG:4326"%string /\
  create_points 100 (canvas_extent (Sample.host Sample.utm32n))
                (canvas_mapUnitsPerPixel (Sample.host Sample.utm32n)) =
    Ok (sample_grid, 40%Z, 25%Z) /\
  1000 <= length sample_grid /\
  exists h' r root,
    run Sample.engine false 100 (Sample.host Sample.utm32n) = (Ok tt, h') /\
    lookup (destination Sample.engine Sample.utm32n) (files h') =
      Some (RasterFile r) /\
    raster_cols r = 40%Z /\ raster_rows r = 25%Z /\
    lookup (destination Sample.engine Sample.utm32n ++ ".vrt")%string
           (files h') = Some (VrtFile root) /\
    layers h' =
      [((destination Sample.engine Sample.utm32n ++ ".vrt")%string,
        layer_name_of (destination Sample.engine Sample.utm32n))].
Proof.
  assert (Hcrs : authid (canvas_crs (Sample.host Sample.utm32n))
                 <> "EPSG:4326"%string) by (simpl; discriminate).
  assert (Hlen : 1000 <= length sample_grid) by (vm_compute; lia).
  split; [exact Hcrs |]. split; [exact sample_grid_created |].
  split; [exact Hlen |].
  destruct (@run_adds_vrt_layer Sample.engine false 100
              (Sample.host Sample.utm32n) sample_grid 40%Z 25%Z
              Hcrs sample_grid_created (sample_engine_contract _ _) Hlen)
    as (h' & r & root & Hrun & Hf & Hc & Hr & Hv & Hl & _).
  exists h', r, root. auto 10.
Defined.

(* ------------------------------------------------------------------ *)
(** ** The name of the layer *)
(* ------------------------------------------------------------------ *)

Lemma append_assoc :
  forall s t u, ((s ++ t) ++ u)%string = (s ++ (t ++ u))%string.
Proof.
  induction s as [| c s IH]; intros t u; simpl; [reflexivity |].
  now rewrite IH.
Qed.

Lemma append_empty : forall s, (s ++ "")%string = s.
Proof.
  induction s as [| c s IH]; simpl; [reflexivity | now rewrite IH].
Qed.

Lemma basename_from_no_slash :
  forall s acc, occurs "/" s = false -> basename_from acc s = (acc ++ s)%string.
Proof.
  induction s as [| c s IH]; intros acc Hs; simpl.
  - now rewrite append_empty.
  - simpl in Hs. apply orb_false_elim in Hs. destruct Hs as [Hc Hs].
    rewrite Hc, IH by exact Hs. now rewrite append_assoc.
Qed.

Lemma basename_from_after_slash :
  forall dir acc s,
    basename_from acc (dir ++ String "/" s) = basename_from EmptyString s.
Proof.
  induction dir as [| c dir IH]; intros acc s; simpl; [reflexivity |].
  destruct (Ascii.eqb c "/"); apply IH.
Qed.

Lemma substring_prefix :
  forall s t, substring 0 (String.length s) (s ++ t) = s.
Proof.
  induction s as [| c s IH]; intros t; simpl.
  - now destruct t.
  - now rewrite IH.
Qed.

Lemma drop_last4_extension :
  forall s ext, String.length ext = 4 -> drop_last4 (s ++ ext) = s.
Proof.
  intros s ext Hext. unfold drop_last4.
  rewrite length_append, Hext, Nat.add_sub. apply substring_prefix.
Qed.

Lemma replace_char_keeps_absent :
  forall a b c s,
    Ascii.eqb b c = false -> occurs c s = false ->
    occurs c (replace_char a b s) = false.
Proof.
  intros a b c s Hb. induction s as [| c0 s IH]; simpl; intros Hs;
    [reflexivity |].
  apply orb_false_elim in Hs. destruct Hs as [Hc Hs].
  rewrite (IH Hs), orb_false_r. now destruct (Ascii.eqb c0 a).
Qed.

Lemma replace_char_back :
  forall a b s, replace_char b a (replace_char a b s) = replace_char b a s.
Proof.
  intros a b s. induction s as [| c s IH]; simpl; [reflexivity |].
  rewrite IH. f_equal.
  destruct (Ascii.eqb_spec c a) as [-> | Hca].
  - rewrite Ascii.eqb_refl. now destruct (Ascii.eqb a b).
  - reflexivity.
Qed.

Lemma replace_char_absent :
  forall a b s, occurs a s = false -> replace_char a b s = s.
Proof.
  intros a b s. induction s as [| c s IH]; simpl; intros Hs; [reflexivity |].
  apply orb_false_elim in Hs. destruct Hs as [Hc Hs].
  now rewrite Hc, IH.
Qed.

(** X10: for a destination name without a slash, written as
    [dir/<name with ":" turned into "_">.tif], the name [run] gives the
    layer is the destination name with every underscore turned into a
    colon.  So the layer is called by the destination name itself,
    "Projection Factors EPSG:25832", when that name holds no underscore. *)
Theorem layer_name_recovers_destination_name :
  forall dir name,
    occurs "/" name = false ->
    layer_name_of (dir ++ "/" ++ replace_char ":" "_" name ++ ".tif") =
      replace_char "_" ":" name /\
    (occurs "_" name = false ->
     layer_name_of (dir ++ "/" ++ replace_char ":" "_" name ++ ".tif") = name).
Proof.
  intros dir name Hslash.
  assert (Hname : layer_name_of
                    (dir ++ "/" ++ replace_char ":" "_" name ++ ".tif") =
                  replace_char "_" ":" name).
  { unfold layer_name_of, basename.
    change ("/" ++ replace_char ":" "_" name ++ ".tif")%string
      with (String "/" (replace_char ":" "_" name ++ ".tif")).
    rewrite basename_from_after_slash.
    rewrite basename_from_no_slash.
    - simpl append at 1. rewrite drop_last4_extension by reflexivity.
      apply replace_char_back.
    - rewrite occurs_append. simpl. rewrite orb_false_r.
      now apply replace_char_keeps_absent. }
  split; [exact Hname |].
  intros Hunder. rewrite Hname. now apply replace_char_absent.
Qed.

Lemma layer_name_recovers_destination_name_witness :
  occurs "/" "Projection Factors EPSG:25832" = false /\
  occurs "_" "Projection Factors EPSG:25832" = false /\
  layer_name_of ("/tmp/processing" ++ "/" ++
                 replace_char ":" "_" "Projection Factors EPSG:25832" ++
                 ".tif") = "Projection Factors EPSG:25832"%string.
Proof.
  split; [reflexivity |]. split; [reflexivity |].
  apply (layer_name_recovers_destination_name "/tmp/processing"
           "Projection Factors EPSG:25832"); reflexivity.
Defined.

(** An identifier with an underscore of its own does not come back. *)
Example layer_name_with_underscore :
  layer_name_of ("/tmp" ++ "/" ++
                 replace_char ":" "_" "Projection Factors IAU_2015:30100" ++
                 ".tif") = "Projection Factors IAU:2015:30100"%string.
Proof. reflexivity. Qed.

(* ================================================================== *)
(** * extract_factor and pack_values at the edges *)
(* ================================================================== *)

(** X11: where every entry is [None], [extract_factor] returns one NaN
    per entry whatever the factor name and the setting are, and the packed
    band is the bytes of NaN repeated. *)
Theorem extract_factor_all_absent :
  forall (use_proj : bool) (factor : string) (n : nat),
    extract_factor use_proj (repeat None n) factor =
      Ok (repeat (PyFloatV nan) n) /\
    pack_values (repeat (PyFloatV nan) n) =
      Ok (concat (repeat nan_bytes n)).
Proof.
  intros use_proj factor n. split.
  - unfold extract_factor.
    assert (H : forall values,
               extract_loop use_proj factor (repeat None n) values =
               Ok (values ++ repeat (PyFloatV nan) n)).
    { induction n as [| n IH]; intros values; simpl.
      - now rewrite app_nil_r.
      - rewrite IH, <- app_assoc. reflexivity. }
    apply H.
  - induction n as [| n IH]; [reflexivity |].
    cbn [repeat pack_values]. rewrite IH. reflexivity.
Qed.

Lemma lookup_not_in :
  forall (A : Type) key (l : list (string * A)),
    ~ In key (map fst l) -> lookup key l = None.
Proof.
  intros A key l. induction l as [| [k v] l IH]; simpl; intros Hnot;
    [reflexivity |].
  destruct (String.eqb_spec key k) as [-> | _]; [tauto |].
  apply IH. tauto.
Qed.

Lemma attributes_names :
  forall o,
    map fst (attributes o) =
    match o with
    | QgsFactors _ => factor_names false ++ ["isValid"%string]
    | ProjFactors _ => factor_names true
    end.
Proof. intros [f | f]; reflexivity. Qed.

(** X12: a name that no object of the list has an attribute of (no key
    of either factor table, not [isValid], and nothing else that the
    objects answer to) makes [extract_factor] raise [AttributeError] as
    soon as the list holds an object. *)
Theorem extract_factor_unknown_name :
  forall (use_proj : bool) (factor : string)
         (projection_factors : list (option factors_object)),
    ~ In factor (factor_names false) ->
    ~ In factor (factor_names true) ->
    factor <> "isValid"%string ->
    (forall o, In (Some o) projection_factors ->
               object_attributes o factor = None) ->
    holds_object projection_factors = true ->
    extract_factor use_proj projection_factors factor = Raise AttributeError.
Proof.
  intros use_proj factor pfs Hq Hp Hvalid Hother Hobj. unfold extract_factor.
  generalize (@nil pyvalue) as values.
  induction pfs as [| single rest IH]; intros values; [discriminate |].
  cbn [extract_loop]. destruct single as [o |].
  - assert (Hattr : getattr o factor = Raise AttributeError).
    { unfold getattr. rewrite lookup_not_in.
      - now rewrite (Hother o (or_introl eq_refl)).
      - rewrite attributes_names. destruct o; [| exact Hp].
        rewrite in_app_iff. intros [Hin | [Hin | []]]; [tauto |].
        now apply Hvalid. }
    rewrite Hattr. now destruct use_proj.
  - cbn [obind]. apply IH.
    + intros o Hin. apply Hother. now right.
    + exact Hobj.
Qed.

Lemma extract_factor_unknown_name_witness :
  ~ In "scale"%string (factor_names false) /\
  ~ In "scale"%string (factor_names true) /\
  "scale"%string <> "isValid"%string /\
  (forall o,
      In (Some o)
         [None;
          Some (QgsFactors
                  (Sample.sample_factors Sample.utm32n (mkPoint 10 2)))] ->
      object_attributes o "scale" = None) /\
  extract_factor false
    [None;
     Some (QgsFactors (Sample.sample_factors Sample.utm32n (mkPoint 10 2)))]
    "scale" = Raise AttributeError.
Proof.
  assert (Hq : ~ In "scale"%string (factor_names false))
    by (simpl; intros H; repeat (destruct H as [H | H]; [discriminate |]);
        exact H).
  assert (Hp : ~ In "scale"%string (factor_names true))
    by (simpl; intros H; repeat (destruct H as [H | H]; [discriminate |]);
        exact H).
  assert (Hvalid : "scale"%string <> "isValid"%string) by discriminate.
  assert (Hother : forall o,
             In (Some o)
                [None;
                 Some (QgsFactors
                         (Sample.sample_factors Sample.utm32n (mkPoint 10 2)))] ->
             object_attributes o "scale" = None).
  { intros o [H | [H | []]]; [discriminate |].
    inversion H. reflexivity. }
  split; [exact Hq |]. split; [exact Hp |]. split; [exact Hvalid |].
  split; [exact Hother |].
  apply (@extract_factor_unknown_name false "scale"
           [None;
            Some (QgsFactors
                    (Sample.sample_factors Sample.utm32n (mkPoint 10 2)))]
           Hq Hp Hvalid Hother).
  reflexivity.
Defined.

(** Of floats and bound methods, one bound method is enough for
    [struct.pack] to fail. *)
Lemma pack_values_method :
  forall values,
    Forall (fun v => is_float v = true \/ exists m, v = PyMethodV m) values ->
    forallb is_float values = false ->
    pack_values values = Raise StructError.
Proof.
  induction 1 as [| v values Hv _ IH]; intros Hsome; [discriminate |].
  cbn [pack_values].
  destruct Hv as [Hv | [m ->]]; [| reflexivity].
  destruct v as [f | m | c d]; try discriminate.
  simpl in Hsome. cbn [pack_double obind]. now rewrite IH.
Qed.

(** X13: the [useProj] setting switched on over results of QGIS (the
    setting changed after the module was loaded).  [extract_factor] then
    reads the getters without calling them: for a factor of the QGIS table
    it returns, and its list holds a bound method for every object;
    [pack_values] raises [struct.error] on it. *)
Theorem extract_factor_setting_switched_on :
  forall (factor : string) (projection_factors : list (option factors_object)),
    In factor (factor_names false) ->
    all_from_engine_in_use false projection_factors = true ->
    holds_object projection_factors = true ->
    exists values,
      extract_factor true projection_factors factor = Ok values /\
      length values = length projection_factors /\
      pack_values values = Raise StructError.
Proof.
  intros factor pfs Hname Hall Hobj.
  exists (map (attribute_read factor) pfs).
  assert (Hattr : forall o, from_engine_in_use false o = true ->
                            exists m, lookup factor (attributes o) =
                                      Some (PyMethodV m)).
  { intros [f | f] Ho; [| discriminate].
    unfold factor_names in Hname. simpl in Hname.
    repeat (destruct Hname as [<- | Hname]; [eexists; reflexivity |]).
    contradiction. }
  split; [| split; [apply length_map |]].
  - unfold extract_factor.
    assert (H : forall values,
               extract_loop true factor pfs values =
               Ok (values ++ map (attribute_read factor) pfs)).
    { clear Hobj. induction pfs as [| single rest IH]; intros values.
      - simpl. now rewrite app_nil_r.
      - simpl in Hall. apply andb_prop in Hall. destruct Hall as [Hs Hrest].
        cbn [extract_loop map]. destruct single as [o |].
        + destruct (Hattr o Hs) as [m Hm].
          unfold getattr, attribute_read. rewrite Hm. cbn [obind].
          rewrite IH by exact Hrest. now rewrite <- app_assoc.
        + cbn [obind]. rewrite IH by exact Hrest.
          now rewrite <- app_assoc. }
    apply H.
  - apply pack_values_method.
    + clear Hobj. induction pfs as [| single rest IH]; [constructor |].
      simpl in Hall. apply andb_prop in Hall. destruct Hall as [Hs Hrest].
      cbn [map]. constructor; [| now apply IH].
      destruct single as [o |]; [| now left].
      destruct (Hattr o Hs) as [m Hm]. right. exists m.
      unfold attribute_read. now rewrite Hm.
    + induction pfs as [| single rest IH]; [discriminate |].
      simpl in Hall. apply andb_prop in Hall. destruct Hall as [Hs Hrest].
      cbn [map forallb]. destruct single as [o |].
      * destruct (Hattr o Hs) as [m Hm].
        unfold attribute_read. now rewrite Hm.
      * simpl. apply IH; assumption.
Qed.

Lemma extract_factor_setting_switched_on_witness :
  In "arealScale"%string (factor_names false) /\
  exists values,
    extract_factor true
      [Some (QgsFactors (Sample.sample_factors Sample.utm32n (mkPoint 10 2)));
       None] "arealScale" = Ok values /\
    length values = 2 /\
    pack_values values = Raise StructError.
Proof.
  split; [simpl; tauto |].
  apply (@extract_factor_setting_switched_on "arealScale"
           [Some (QgsFactors (Sample.sample_factors Sample.utm32n (mkPoint 10 2)));
            None]).
  - simpl. tauto.
  - reflexivity.
  - reflexivity.
Defined.

(** X14: the setting switched off over results of pyproj.
    [extract_factor] calls the attribute, which is a float: it raises
    [TypeError] at the first object. *)
Theorem extract_factor_setting_switched_off :
  forall (factor : string) (projection_factors : list (option factors_object)),
    In factor (factor_names true) ->
    all_from_engine_in_use true projection_factors = true ->
    holds_object projection_factors = true ->
    extract_factor false projection_factors factor = Raise TypeError.
Proof.
  intros factor pfs Hname Hall Hobj. unfold extract_factor.
  generalize (@nil pyvalue) as values.
  induction pfs as [| single rest IH]; intros values; [discriminate |].
  simpl in Hall. apply andb_prop in Hall. destruct Hall as [Hs Hrest].
  cbn [extract_loop]. destruct single as [o |].
  - destruct o as [f | f]; [discriminate |].
    unfold factor_names in Hname. simpl in Hname.
    repeat (destruct Hname as [<- | Hname]; [reflexivity |]).
    contradiction.
  - cbn [obind]. apply IH; assumption.
Qed.

Lemma extract_factor_setting_switched_off_witness :
  In "areal_scale"%string (factor_names true) /\
  extract_factor false
    [None; Some (ProjFactors (Sample.sample_get_factors "EPSG:25832" 10 2))]
    "areal_scale" = Raise TypeError.
Proof.
  split; [simpl; tauto |].
  apply (@extract_factor_setting_switched_off "areal_scale"
           [None;
            Some (ProjFactors (Sample.sample_get_factors "EPSG:25832" 10 2))]).
  - simpl. tauto.
  - reflexivity.
  - reflexivity.
Defined.

(* ================================================================== *)
(** * write_factors_to_tif without a matching block *)
(* ================================================================== *)

(** X15: when [cols * rows] is not the number of values, the assertion of
    the first band fails.  The raster file has been created before: it is
    left behind with its twelve bands, none of them written and none with
    a no-data value. *)
Theorem write_factors_to_tif_block_mismatch_leaves_blank :
  forall (USE_PYPROJ : bool) (raster_file_path : string)
         (factors : list (option factors_object)) (extent : QgsRectangle)
         (crs : QgsCoordinateReferenceSystem) (cols rows : Z) (h : Host),
    all_from_engine_in_use USE_PYPROJ factors = true ->
    (cols * rows)%Z <> Z.of_nat (length factors) ->
    exists h',
      write_factors_to_tif USE_PYPROJ raster_file_path factors extent crs
                           cols rows h = (Raise AssertionError, h') /\
      lookup raster_file_path (files h') =
        Some (RasterFile (blank_raster USE_PYPROJ extent crs cols rows)) /\
      length (raster_bands (blank_raster USE_PYPROJ extent crs cols rows)) = 12 /\
      Forall (fun b => band_data b = None /\ band_nodata b = None)
             (raster_bands (blank_raster USE_PYPROJ extent crs cols rows)).
Proof.
  intros USE_PYPROJ raster_file_path factors extent crs cols rows h
         Hengine Hblock.
  unfold write_factors_to_tif, createMultiBandRaster.
  unfold bind at 1. unfold write_file at 1, modify at 1.
  exists (set_files
            (store raster_file_path
               (RasterFile (blank_raster USE_PYPROJ extent crs cols rows))
               (files h)) h).
  split; [| split; [| split]].
  - assert (Hfirst : exists factor factor_text rest,
               projection_factors USE_PYPROJ =
                 (factor, factor_text) :: rest /\
               In factor (factor_names USE_PYPROJ)).
    { destruct USE_PYPROJ; do 3 eexists; (split; [reflexivity |]);
        simpl; tauto. }
    destruct Hfirst as (factor & factor_text & rest & Htable & Hname).
    rewrite Htable at 1. cbn [write_bands].
    unfold bind at 1. unfold lift at 1. unfold extract_factor.
    rewrite (@extract_loop_spec USE_PYPROJ factor Hname) by exact Hengine.
    simpl app. unfold bind at 1. unfold lift at 1.
    rewrite pack_values_floats by apply extracted_is_float.
    unfold bind at 1. unfold lift at 1, py_assert.
    rewrite length_map.
    destruct (Z.eqb_spec (cols * rows) (Z.of_nat (length factors)))
      as [Heq | _]; [contradiction |].
    reflexivity.
  - simpl files. apply lookup_store_same.
  - simpl. rewrite repeat_length. destruct USE_PYPROJ; reflexivity.
  - simpl. apply Forall_forall. intros b Hb.
    apply repeat_spec in Hb. subst b. auto.
Qed.

Lemma write_factors_to_tif_block_mismatch_leaves_blank_witness :
  all_from_engine_in_use false [None] = true /\
  (2 * 2)%Z <> Z.of_nat (length [@None factors_object]) /\
  exists h',
    write_factors_to_tif false "/tmp/out.tif" [None] (mkRectangle 0 0 2 2)
                         Sample.utm32n 2 2 (Sample.host Sample.utm32n) =
      (Raise AssertionError, h') /\
    lookup "/tmp/out.tif" (files h') =
      Some (RasterFile
              (blank_raster false (mkRectangle 0 0 2 2) Sample.utm32n 2 2)).
Proof.
  split; [reflexivity |]. split; [simpl; lia |].
  destruct (@write_factors_to_tif_block_mismatch_leaves_blank false
              "/tmp/out.tif" [None] (mkRectangle 0 0 2 2) Sample.utm32n 2 2
              (Sample.host Sample.utm32n))
    as (h' & Hrun & Hfile & _).
  - reflexivity.
  - simpl. lia.
  - exists h'. auto.
Defined.

(* ================================================================== *)
(** * create_vrt_for_factors_tif beyond the factor table *)
(* ================================================================== *)

(** X16: only as many bands are described as the factor table has
    names.  A band of the built VRT at position 12 or later is in the
    rewritten VRT as it was built, and a VRT without bands is written back
    unchanged. *)
Theorem create_vrt_for_factors_tif_leaves_further_bands :
  forall (E : Engine) (USE_PYPROJ : bool) (tif_path : string) (h : Host),
    exists h' root',
      create_vrt_for_factors_tif E USE_PYPROJ tif_path h =
        (Ok (tif_path ++ ".vrt")%string, h') /\
      lookup (tif_path ++ ".vrt")%string (files h') = Some (VrtFile root') /\
      (forall i band,
          12 <= i ->
          nth_error (iter "VRTRasterBand"
                          (buildvirtualraster E (files h) tif_path)) i =
            Some band ->
          nth_error (iter "VRTRasterBand" root') i = Some band) /\
      (iter "VRTRasterBand" (buildvirtualraster E (files h) tif_path) = [] ->
       root' = buildvirtualraster E (files h) tif_path).
Proof.
  intros E USE_PYPROJ tif_path h.
  rewrite create_vrt_for_factors_tif_runs.
  eexists. eexists. split; [reflexivity |].
  split; [simpl files; apply lookup_store_same |]. split.
  - intros i band Hi Hband.
    destruct (walk_ok_all (buildvirtualraster E (files h) tif_path)
                (map snd (projection_factors USE_PYPROJ)))
      as [_ [_ Hbands]].
    specialize (Hbands i band Hband).
    assert (Hnone : nth_error (map snd (projection_factors USE_PYPROJ)) i
                    = None).
    { apply nth_error_None. rewrite length_map.
      destruct USE_PYPROJ; simpl; lia. }
    now rewrite Hnone in Hbands.
  - intros Hnone. now rewrite describe_without_bands.
Qed.

Lemma create_vrt_for_factors_tif_leaves_further_bands_witness :
  exists h' root',
    create_vrt_for_factors_tif Sample.engine false "/tmp/none.tif"
                               (Sample.host Sample.utm32n) =
      (Ok "/tmp/none.tif.vrt"%string, h') /\
    lookup "/tmp/none.tif.vrt"%string (files h') = Some (VrtFile root') /\
    root' = buildvirtualraster Sample.engine
              (files (Sample.host Sample.utm32n)) "/tmp/none.tif".
Proof.
  destruct (create_vrt_for_factors_tif_leaves_further_bands
              Sample.engine false "/tmp/none.tif" (Sample.host Sample.utm32n))
    as (h' & root' & Hrun & Hfile & _ & Hsame).
  exists h', root'. split; [exact Hrun |]. split; [exact Hfile |].
  apply Hsame. reflexivity.
Defined.

(* ================================================================== *)
(** * create_points with a step it cannot divide by *)
(* ================================================================== *)

Lemma not_nan_compares_equal :
  forall a, a <> S754_nan -> SFcompare a a = Some Eq.
Proof.
  intros [s | s | | s m e] Hn; simpl; try reflexivity.
  - destruct s; reflexivity.
  - contradiction.
  - rewrite Z.compare_refl.
    change (PosDef.Pos.compare_cont Eq m m) with (Pos.compare m m).
    rewrite Pos.compare_refl. destruct s; reflexivity.
Qed.

Lemma is_nan_spec :
  forall a, is_nan a = true -> Prim2SF a = S754_nan.
Proof.
  intros a Ha. unfold is_nan in Ha. rewrite eqb_spec in Ha.
  unfold SFeqb in Ha.
  destruct (Prim2SF a) as [s | s | | s m e] eqn:Hsf; [| | reflexivity |];
    rewrite not_nan_compares_equal in Ha by discriminate; discriminate.
Qed.

(** X17: a step of zero makes [create_points] raise [ZeroDivisionError],
    a NaN step makes it raise [ValueError] (from [round]); in both cases
    before any point is generated, whatever the extent. *)
Theorem create_points_rejects_zero_and_nan_step :
  forall (fuel : nat) (extent : QgsRectangle) (step_size : float),
    ((step_size =? 0)%float = true ->
     create_points fuel extent step_size = Raise ZeroDivisionError) /\
    (is_nan step_size = true ->
     create_points fuel extent step_size = Raise ValueError).
Proof.
  intros fuel extent step_size. split; intros Hstep.
  - unfold create_points, PyFloat.truediv. now rewrite Hstep.
  - unfold create_points, PyFloat.truediv.
    assert (Hsf : Prim2SF step_size = S754_nan) by now apply is_nan_spec.
    assert (Hz : (step_size =? 0)%float = false).
    { rewrite eqb_spec, Hsf. unfold SFeqb.
      now destruct (Prim2SF 0). }
    rewrite Hz. cbn [obind]. unfold PyFloat.round.
    rewrite div_spec, Hsf. unfold SF64div, SFdiv.
    now destruct (Prim2SF (width extent)).
Qed.

Lemma create_points_rejects_zero_and_nan_step_witness :
  (0 =? 0)%float = true /\ is_nan nan = true /\
  create_points 10 Sample.EXTENT 0 = Raise ZeroDivisionError /\
  create_points 10 Sample.EXTENT nan = Raise ValueError.
Proof.
  split; [reflexivity |]. split; [reflexivity |]. split.
  - apply (create_points_rejects_zero_and_nan_step 10 Sample.EXTENT 0).
    reflexivity.
  - apply (create_points_rejects_zero_and_nan_step 10 Sample.EXTENT nan).
    reflexivity.
Defined.

(* ================================================================== *)
(** * The progress bar of gather_factors *)
(* ================================================================== *)

Section Progress.

Variable E : Engine.
Variable crs : QgsCoordinateReferenceSystem.
Variable len : Z.
Hypothesis long_input : (1000 <= len)%Z.

Lemma update_progress_exact :
  forall i h,
    update_progress len i h =
    (Ok tt,
     if (i mod (len / 1000) =? 0)%Z
     then set_progress (progress_maximum h) (i + 1) h
     else h).
Proof.
  intros i h. unfold update_progress, bind, lift, py_mod.
  assert (Hq : (0 < len / 1000)%Z) by (apply Z.div_str_pos; lia).
  destruct (Z.eqb_spec (len / 1000) 0) as [H0 | _]; [lia |].
  now destruct (i mod (len / 1000) =? 0)%Z.
Qed.

Lemma gather_loop_cons :
  forall i pointxy rest acc,
    gather_loop E crs len i (pointxy :: rest) acc =
    (update_progress len i ;;;
     these_factors <- gather_entry E crs pointxy ;;
     gather_loop E crs len (i + 1) rest (acc ++ [these_factors])).
Proof. reflexivity. Qed.

Lemma gather_entry_progress :
  forall pointxy h,
    exists these h',
      gather_entry E crs pointxy h = (Ok these, h') /\
      progress_value h' = progress_value h /\
      progress_maximum h' = progress_maximum h.
Proof.
  intros [p |] h; simpl.
  - destruct (in_geographic_bounds (px p) (py p)).
    + unfold bind, call_factors, log_call, modify, ret, bind. simpl.
      destruct (negb (isValid (factors E crs (mkPoint (px p) (py p)))));
        do 2 eexists; (split; [reflexivity |]); simpl; auto.
    + exists None, h. auto.
  - exists None, h. auto.
Qed.

(** After the entries below index [j >= 1] the bar shows the last
    multiple of the update interval below [j], plus one. *)
Lemma gather_loop_progress :
  forall points i acc h,
    (0 <= i)%Z ->
    ((0 < i)%Z ->
     progress_value h = (len / 1000 * ((i - 1) / (len / 1000)) + 1)%Z) ->
    exists results h',
      gather_loop E crs len i points acc h = (Ok results, h') /\
      progress_maximum h' = progress_maximum h /\
      ((0 < i + Z.of_nat (length points))%Z ->
       progress_value h' =
         (len / 1000 *
          ((i + Z.of_nat (length points) - 1) / (len / 1000)) + 1)%Z).
Proof.
  assert (Hk : (0 < len / 1000)%Z) by (apply Z.div_str_pos; lia).
  induction points as [| pointxy rest IH]; intros i acc h Hi Hinv.
  - exists acc, h. simpl. split; [reflexivity |]. split; [reflexivity |].
    intros Hpos. rewrite Z.add_0_r in *. now apply Hinv.
  - rewrite gather_loop_cons.
    rewrite (@bind_ok _ _ _ _ _ _ _ (update_progress_exact i h)).
    set (h1 := if (i mod (len / 1000) =? 0)%Z
               then set_progress (progress_maximum h) (i + 1) h else h).
    assert (Hmax1 : progress_maximum h1 = progress_maximum h)
      by (subst h1; destruct (i mod (len / 1000) =? 0)%Z; reflexivity).
    assert (Hval1 : progress_value h1 =
                    (len / 1000 * (i / (len / 1000)) + 1)%Z).
    { subst h1. destruct (Z.eqb_spec (i mod (len / 1000)) 0) as [Hm | Hm].
      - simpl. pose proof (Z.div_mod i (len / 1000)). lia.
      - assert (Hipos : (0 < i)%Z).
        { destruct (Z.eq_dec i 0) as [-> | ]; [| lia].
          rewrite Z.mod_0_l in Hm by lia. contradiction. }
        rewrite (Hinv Hipos). f_equal. f_equal.
        pose proof (Z.mod_pos_bound i (len / 1000) Hk).
        pose proof (Z.div_mod i (len / 1000)).
        symmetry.
        apply (Z.div_unique (i - 1) (len / 1000) (i / (len / 1000))
                 (i mod (len / 1000) - 1)); lia. }
    destruct (gather_entry_progress pointxy h1)
      as (these & h2 & Hrun & Hval2 & Hmax2).
    rewrite (@bind_ok _ _ _ _ _ _ _ Hrun).
    destruct (IH (i + 1)%Z (acc ++ [these]) h2) as (results & h' & Hloop & Hmax & Hval).
    + lia.
    + intros _. rewrite Hval2, Hval1. f_equal. f_equal. f_equal. lia.
    + exists results, h'. split; [exact Hloop |].
      split; [congruence |].
      intros _. rewrite Hval by lia. f_equal. f_equal. f_equal.
      simpl length. lia.
Qed.

End Progress.

(** X18: on an input of at least 1000 entries the progress bar of
    [gather_factors] has the number of entries as its maximum and is left
    at a value between 1 and that maximum, less than
    [int(len(points) / 1000)] short of it: it is updated every
    [int(len(points) / 1000)] entries and never set past the end. *)
Theorem gather_factors_progress_bar :
  forall (E : Engine) (crs : QgsCoordinateReferenceSystem)
         (points : list (option QgsPointXY)) (h : Host),
    1000 <= length points ->
    exists results h',
      gather_factors E points crs h = (Ok results, h') /\
      progress_maximum h' = Z.of_nat (length points) /\
      (1 <= progress_value h' <= Z.of_nat (length points))%Z /\
      (Z.of_nat (length points) - progress_value h' <
       Z.of_nat (length points) / 1000)%Z.
Proof.
  intros E crs points h Hlen.
  assert (Hlong : (1000 <= Z.of_nat (length points))%Z) by lia.
  assert (Hk : (0 < Z.of_nat (length points) / 1000)%Z)
    by (apply Z.div_str_pos; lia).
  unfold gather_factors.
  unfold bind at 1. unfold pushProgressWidget at 1, modify at 1.
  match goal with
  | |- context [bind (gather_loop E crs ?len 0 points []) _ ?h1] =>
      destruct (@gather_loop_progress E crs len Hlong points 0%Z [] h1)
        as (results & h' & Hloop & Hmax & Hval); [lia | lia |]
  end.
  rewrite (@bind_ok _ _ _ _ _ _ _ Hloop).
  exists results. eexists. split; [reflexivity |].
  simpl. rewrite Hmax. simpl. split; [reflexivity |].
  rewrite Hval by lia. rewrite Z.add_0_l.
  pose proof (Z.mod_pos_bound (Z.of_nat (length points) - 1)
                (Z.of_nat (length points) / 1000) Hk).
  pose proof (Z.div_mod (Z.of_nat (length points) - 1)
                (Z.of_nat (length points) / 1000)).
  assert (0 <= (Z.of_nat (length points) - 1)
               / (Z.of_nat (length points) / 1000))%Z
    by (apply Z.div_pos; lia).
  nia.
Qed.

Lemma gather_factors_progress_bar_witness :
  1000 <= length Sample.edge_points /\
  exists results h',
    gather_factors Sample.engine Sample.edge_points Sample.utm32n
                   (Sample.host Sample.utm32n) = (Ok results, h') /\
    progress_maximum h' = Z.of_nat (length Sample.edge_points) /\
    (1 <= progress_value h' <= Z.of_nat (length Sample.edge_points))%Z.
Proof.
  split; [vm_compute; lia |].
  destruct (@gather_factors_progress_bar Sample.engine Sample.utm32n
              Sample.edge_points (Sample.host Sample.utm32n))
    as (results & h' & Hrun & Hmax & Hval & _).
  - vm_compute. lia.
  - exists results, h'. auto.
Defined.

(* ================================================================== *)
(** * The guard of run *)
(* ================================================================== *)

(** X19: with EPSG:4326 on the canvas [run] returns normally after two
    messages, the start message and the critical one that names the
    identifier; it has called no engine routine, written no file and added
    no layer.  [create_factors_tif] itself raises [GeographicCrsError] for
    that identifier and leaves the host as it was. *)
Theorem run_rejects_epsg_4326 :
  forall (E : Engine) (USE_PYPROJ : bool) (fuel : nat) (h : Host),
    authid (canvas_crs h) = "EPSG:4326"%string ->
    exists h',
      run E USE_PYPROJ fuel h = (Ok tt, h') /\
      message_bar h' =
        message_bar h ++
        [Message (plugin_name E)
                 "Calculating projection factors for canvas..." Info;
         Message (plugin_name E)
                 "CRS must be projected, EPSG:4326 isn't!" Critical] /\
      engine_calls h' = engine_calls h /\
      files h' = files h /\ layers h' = layers h /\
      create_factors_tif E USE_PYPROJ fuel (canvas_extent h) (canvas_crs h)
                         (canvas_mapUnitsPerPixel h) h =
        (Raise GeographicCrsError, h).
Proof.
  intros E USE_PYPROJ fuel h Hid.
  destruct (@epsg_4326_is_rejected E USE_PYPROJ fuel (canvas_extent h)
              (canvas_crs h) (canvas_mapUnitsPerPixel h) h Hid)
    as [Hraise Hrun].
  eexists. split; [exact (Hrun eq_refl) |].
  destruct h; simpl. auto.
Qed.

Lemma run_rejects_epsg_4326_witness :
  authid (canvas_crs (Sample.host Sample.wgs84)) = "EPSG:4326"%string /\
  exists h',
    run Sample.engine false 100 (Sample.host Sample.wgs84) = (Ok tt, h') /\
    message_bar h' =
      message_bar (Sample.host Sample.wgs84) ++
      [Message (plugin_name Sample.engine)
               "Calculating projection factors for canvas..." Info;
       Message (plugin_name Sample.engine)
               "CRS must be projected, EPSG:4326 isn't!" Critical] /\
    engine_calls h' = [] /\ files h' = [] /\ layers h' = [].
Proof.
  split; [reflexivity |].
  destruct (@run_rejects_epsg_4326 Sample.engine false 100
              (Sample.host Sample.wgs84) eq_refl)
    as (h' & Hrun & Hm & Hc & Hf & Hl & _).
  exists h'. auto.
Defined.

